(** * Lead_Gen_Agent: the two-stage lead analysis of [lead_gen.py]

    A shallow embedding of the reply parser, the two analysis stages, the
    report renderer, the Streamlit script that drives them and the session
    history, followed by the properties of the specification that concern
    them. *)

From Stdlib Require Import String Ascii DecimalString.
From Stdlib Require DecimalZ.
From Stdlib Require Import List ZArith NArith Lia Bool.
Import ListNotations.

Set Implicit Arguments.
Set Warnings "-register-all".

(* ================================================================== *)
(** ** Python strings *)
(* ================================================================== *)

(** A Python [str] is a sequence of Unicode code points. *)
Module PyStr.

Local Open Scope N_scope.

Definition char := N.
Definition str := list char.

(** Source literals are written as UTF-8 text and decoded to code points. *)
Fixpoint utf8_decode (bs : list N) : str :=
  match bs with
  | [] => []
  | b :: r =>
    if b <? 128 then b :: utf8_decode r
    else if b <? 224 then
      match r with
      | b1 :: r1 => ((b - 192) * 64 + (b1 - 128)) :: utf8_decode r1
      | _ => []
      end
    else if b <? 240 then
      match r with
      | b1 :: b2 :: r2 =>
        ((b - 224) * 4096 + (b1 - 128) * 64 + (b2 - 128)) :: utf8_decode r2
      | _ => []
      end
    else
      match r with
      | b1 :: b2 :: b3 :: r3 =>
        ((b - 240) * 262144 + (b1 - 128) * 4096 + (b2 - 128) * 64 + (b3 - 128))
          :: utf8_decode r3
      | _ => []
      end
  end.

Definition lit (s : string) : str :=
  utf8_decode (map N_of_ascii (list_ascii_of_string s)).

Arguments lit : simpl never.

(** The double quote and the backtick, which the literals below need. *)
Definition dquote : char := 34.
Definition backtick : char := 96.

Fixpoint str_eqb (a b : str) : bool :=
  match a, b with
  | [], [] => true
  | c :: a', d :: b' => (c =? d) && str_eqb a' b'
  | _, _ => false
  end.

(** [str.isspace] on one code point: the characters [str.strip()] removes. *)
Definition isspace (c : char) : bool :=
  ((9 <=? c) && (c <=? 13)) || ((28 <=? c) && (c <=? 32))
  || (c =? 133) || (c =? 160) || (c =? 5760)
  || ((8192 <=? c) && (c <=? 8202))
  || (c =? 8232) || (c =? 8233) || (c =? 8239) || (c =? 8287) || (c =? 12288).

Fixpoint lstrip (s : str) : str :=
  match s with
  | [] => []
  | c :: r => if isspace c then lstrip r else s
  end.

Fixpoint rstrip (s : str) : str :=
  match s with
  | [] => []
  | c :: r =>
    match rstrip r with
    | [] => if isspace c then [] else [c]
    | r' => c :: r'
    end
  end.

(** [s.strip()] *)
Definition strip (s : str) : str := rstrip (lstrip s).

(** [s.startswith(p)] *)
Fixpoint startswith (s p : str) {struct p} : bool :=
  match p with
  | [] => true
  | c :: p' =>
    match s with
    | [] => false
    | d :: s' => (d =? c) && startswith s' p'
    end
  end.

(** [s.replace(old, new)]: every occurrence found by a left-to-right scan
    that resumes after each match.  [skip] counts the characters of a match
    that are still to be passed over. *)
Fixpoint replace_scan (old new : str) (skip : nat) (s : str) : str :=
  match s with
  | [] => []
  | c :: r =>
    match skip with
    | S k => replace_scan old new k r
    | O =>
      if startswith s old
      then new ++ replace_scan old new (pred (length old)) r
      else c :: replace_scan old new 0 r
    end
  end.

Definition replace (s old new : str) : str :=
  match old with
  | [] => new ++ flat_map (fun c => c :: new) s
  | _ :: _ => replace_scan old new 0 s
  end.

(** [s.split(sep)] for a one-character separator. *)
Fixpoint split_on (sep : char) (s : str) : list str :=
  match s with
  | [] => [[]]
  | c :: r =>
    if c =? sep then [] :: split_on sep r
    else match split_on sep r with
         | [] => [[c]]
         | p :: ps => (c :: p) :: ps
         end
  end.

(** [str(n)] for an integer. *)
Definition str_of_Z (z : Z) : str :=
  map N_of_ascii (list_ascii_of_string (NilZero.string_of_int (Z.to_int z))).

Definition str_of_nat (n : nat) : str := str_of_Z (Z.of_nat n).

End PyStr.
Export PyStr.

(* ================================================================== *)
(** ** JSON values and [json.loads] *)
(* ================================================================== *)

Module Json.

Local Open Scope N_scope.

(** The Python value [json.loads] builds.  A float is kept as the decimal
    it was written as, [(-1)^neg * mantissa * 10^exponent], and stands for
    the nearest double; an object is a [dict], which keeps its keys in the
    order of their first insertion. *)
Inductive json : Type :=
| JNull
| JBool (b : bool)
| JInt (z : Z)
| JFloat (neg : bool) (mantissa : N) (exponent : Z)
| JNaN
| JInf (neg : bool)
| JStr (s : str)
| JList (l : list json)
| JDict (d : list (str * json)).

(** [d.get(k)] on the items of a dict. *)
Fixpoint dict_get (k : str) (d : list (str * json)) : option json :=
  match d with
  | [] => None
  | (k', v) :: r => if str_eqb k k' then Some v else dict_get k r
  end.

(** [d[k] = v]: an existing key keeps its place. *)
Fixpoint dict_set (k : str) (v : json) (d : list (str * json))
  : list (str * json) :=
  match d with
  | [] => [(k, v)]
  | (k', v') :: r =>
    if str_eqb k k' then (k', v) :: r else (k', v') :: dict_set k v r
  end.

(** [dict(pairs)] *)
Definition dict_of_pairs (pairs : list (str * json)) : list (str * json) :=
  fold_left (fun d kv => dict_set (fst kv) (snd kv) d) pairs [].

(** *** The decoder *)

Definition is_ws (c : char) : bool :=
  (c =? 32) || (c =? 9) || (c =? 10) || (c =? 13).

Fixpoint skip_ws (s : str) : str :=
  match s with
  | [] => []
  | c :: r => if is_ws c then skip_ws r else s
  end.

Definition is_digit (c : char) : bool := (48 <=? c) && (c <=? 57).

Definition hex_val (c : char) : option N :=
  if (48 <=? c) && (c <=? 57) then Some (c - 48)
  else if (97 <=? c) && (c <=? 102) then Some (c - 87)
  else if (65 <=? c) && (c <=? 70) then Some (c - 55)
  else None.

Definition hex4 (a b c d : char) : option N :=
  match hex_val a, hex_val b, hex_val c, hex_val d with
  | Some x, Some y, Some z, Some w => Some (((x * 16 + y) * 16 + z) * 16 + w)
  | _, _, _, _ => None
  end.

(** The one-character escapes of a JSON string. *)
Definition backslash (esc : char) : option char :=
  if esc =? 34 then Some 34
  else if esc =? 92 then Some 92
  else if esc =? 47 then Some 47
  else if esc =? 98 then Some 8
  else if esc =? 102 then Some 12
  else if esc =? 110 then Some 10
  else if esc =? 114 then Some 13
  else if esc =? 116 then Some 9
  else None.

Definition push (c : char) (o : option (str * str)) : option (str * str) :=
  match o with
  | Some (content, rest) => Some (c :: content, rest)
  | None => None
  end.

(** [scanstring]: the text after an opening quote, up to the closing one
    (strict mode: a raw control character is an error).  Returns the
    decoded content and the text after the closing quote. *)
Fixpoint scanstring (s : str) : option (str * str) :=
  match s with
  | [] => None
  | c :: r =>
    if c =? 34 then Some ([], r)
    else if c <? 32 then None
    else if c =? 92 then
      match r with
      | [] => None
      | esc :: r1 =>
        if esc =? 117 then
          match r1 with
          | h1 :: h2 :: h3 :: h4 :: r2 =>
            match hex4 h1 h2 h3 h4 with
            | None => None
            | Some uni =>
              if (55296 <=? uni) && (uni <=? 56319) then
                match r2 with
                | b :: u :: r3 =>
                  if (b =? 92) && (u =? 117) then
                    match r3 with
                    | g1 :: g2 :: g3 :: g4 :: r4 =>
                      match hex4 g1 g2 g3 g4 with
                      | None => None
                      | Some uni2 =>
                        if (56320 <=? uni2) && (uni2 <=? 57343)
                        then push (65536 + ((uni - 55296) * 1024
                                            + (uni2 - 56320)))
                                  (scanstring r4)
                        else push uni (scanstring r2)
                      end
                    | _ => None
                    end
                  else push uni (scanstring r2)
                | _ => push uni (scanstring r2)
                end
              else push uni (scanstring r2)
            end
          | _ => None
          end
        else
          match backslash esc with
          | Some ch => push ch (scanstring r1)
          | None => None
          end
      end
    else push c (scanstring r)
  end.

Fixpoint span_digits (s : str) : list N * str :=
  match s with
  | [] => ([], [])
  | c :: r =>
    if is_digit c
    then let (ds, rest) := span_digits r in ((c - 48) :: ds, rest)
    else ([], s)
  end.

Definition digits_value (ds : list N) : N :=
  fold_left (fun acc d => acc * 10 + d) ds 0.

(** The integer part of a number: [0] or a digit run without leading zero. *)
Definition scan_int_part (s : str) : option (list N * str) :=
  match s with
  | c :: r =>
    if c =? 48 then Some ([0], r)
    else if is_digit c then Some (span_digits s)
    else None
  | [] => None
  end.

(** An optional fraction [.digits]. *)
Definition scan_frac (s : str) : option (list N) * str :=
  match s with
  | c :: r =>
    if c =? 46 then
      match span_digits r with
      | ([], _) => (None, s)
      | (ds, rest) => (Some ds, rest)
      end
    else (None, s)
  | [] => (None, s)
  end.

(** An optional exponent [e], [E] with a sign and digits. *)
Definition scan_exp (s : str) : option Z * str :=
  match s with
  | c :: r =>
    if (c =? 101) || (c =? 69) then
      let (negative, r1) :=
        match r with
        | sg :: r' =>
          if sg =? 45 then (true, r')
          else if sg =? 43 then (false, r') else (false, r)
        | [] => (false, r)
        end in
      match span_digits r1 with
      | ([], _) => (None, s)
      | (ds, rest) =>
        let v := Z.of_N (digits_value ds) in
        (Some (if negative then (- v)%Z else v), rest)
      end
    else (None, s)
  | [] => (None, s)
  end.

(** The interpreter refuses to convert more than this many digits to an
    [int] (it raises [ValueError]). *)
Definition max_str_digits : nat := 4300.

Definition scan_number (s : str) : option (json * str) :=
  let (negative, r) :=
    match s with
    | c :: r' => if c =? 45 then (true, r') else (false, s)
    | [] => (false, s)
    end in
  match scan_int_part r with
  | None => None
  | Some (ids, r1) =>
    let (frac, r2) := scan_frac r1 in
    let (ex, r3) := scan_exp r2 in
    match frac, ex with
    | None, None =>
      if Nat.ltb max_str_digits (length ids) then None
      else
        let v := Z.of_N (digits_value ids) in
        Some (JInt (if negative then (- v)%Z else v), r3)
    | _, _ =>
      let fds := match frac with Some ds => ds | None => [] end in
      let e := match ex with Some e => e | None => 0%Z end in
      Some (JFloat negative (digits_value (ids ++ fds))
                   (e - Z.of_nat (length fds))%Z, r3)
    end
  end.

(** After a matched keyword: the rest of the text. *)
Definition after (s kw : str) : str := skipn (length kw) s.

(** The interpreter's recursion limit, [sys.getrecursionlimit()]: 1000
    unless a program changes it, which this one does not. *)
Definition recursion_limit : nat := 1000.

(** [scan_once], the object loop and the array loop.  [fuel] bounds the
    number of steps; [json_loads] supplies more than any text can use.
    [depth] is what is left of the recursion limit: the scanner enters one
    level for every object and every array it opens, and with none left
    the interpreter raises [RecursionError]. *)
Fixpoint scan_once (fuel depth : nat) (s : str) : option (json * str) :=
  match fuel with
  | O => None
  | S fuel' =>
    match s with
    | [] => None
    | c :: r =>
      if c =? 34 then
        match scanstring r with
        | Some (content, rest) => Some (JStr content, rest)
        | None => None
        end
      else if c =? 123 then
        match depth with
        | O => None
        | S depth' =>
          match skip_ws r with
          | c1 :: r1 =>
            if c1 =? 125 then Some (JDict [], r1)
            else if c1 =? 34 then scan_members fuel' depth' r1 []
            else None
          | [] => None
          end
        end
      else if c =? 91 then
        match depth with
        | O => None
        | S depth' =>
          match skip_ws r with
          | c1 :: r1 =>
            if c1 =? 93 then Some (JList [], r1)
            else scan_elements fuel' depth' (c1 :: r1) []
          | [] => None
          end
        end
      else if startswith s (lit "null") then Some (JNull, after s (lit "null"))
      else if startswith s (lit "true")
      then Some (JBool true, after s (lit "true"))
      else if startswith s (lit "false")
      then Some (JBool false, after s (lit "false"))
      else
        match scan_number s with
        | Some res => Some res
        | None =>
          if startswith s (lit "NaN") then Some (JNaN, after s (lit "NaN"))
          else if startswith s (lit "Infinity")
          then Some (JInf false, after s (lit "Infinity"))
          else if startswith s (lit "-Infinity")
          then Some (JInf true, after s (lit "-Infinity"))
          else None
        end
    end
  end

(** [s] starts just after the opening quote of a key. *)
with scan_members (fuel depth : nat) (s : str) (pairs : list (str * json))
  : option (json * str) :=
  match fuel with
  | O => None
  | S fuel' =>
    match scanstring s with
    | None => None
    | Some (key, r) =>
      match skip_ws r with
      | c :: r1 =>
        if c =? 58 then
          match scan_once fuel' depth (skip_ws r1) with
          | None => None
          | Some (v, r2) =>
            let pairs' := pairs ++ [(key, v)] in
            match skip_ws r2 with
            | c2 :: r3 =>
              if c2 =? 125 then Some (JDict (dict_of_pairs pairs'), r3)
              else if c2 =? 44 then
                match skip_ws r3 with
                | c3 :: r4 =>
                  if c3 =? 34 then scan_members fuel' depth r4 pairs'
                  else None
                | [] => None
                end
              else None
            | [] => None
            end
          end
        else None
      | [] => None
      end
    end
  end

(** [s] starts at an element. *)
with scan_elements (fuel depth : nat) (s : str) (items : list json)
  : option (json * str) :=
  match fuel with
  | O => None
  | S fuel' =>
    match scan_once fuel' depth s with
    | None => None
    | Some (v, r) =>
      let items' := items ++ [v] in
      match skip_ws r with
      | c :: r1 =>
        if c =? 93 then Some (JList items', r1)
        else if c =? 44 then scan_elements fuel' depth (skip_ws r1) items'
        else None
      | [] => None
      end
    end
  end.

(** [json.loads(s)]: one value, surrounded by JSON whitespace only.
    [None] stands for the exception raised: [JSONDecodeError] for a text
    that is not JSON, [ValueError] for an integer of too many digits and
    [RecursionError] for a text nested deeper than the recursion limit
    allows.  The frames of the running script use up some levels of that
    limit as well; they are not counted here. *)
Definition json_loads (s : str) : option json :=
  match scan_once (2 * length s + 2) recursion_limit (skip_ws s) with
  | Some (v, rest) =>
    match skip_ws rest with
    | [] => Some v
    | _ :: _ => None
    end
  | None => None
  end.

End Json.
Export Json.

(* ================================================================== *)
(** ** Python values at run time *)
(* ================================================================== *)

Module Py.

(** The exceptions the program can meet.  [ProviderError] is whatever
    [client.messages.create] raises (transport, authentication, quota),
    [ValueError] is raised for a text that could not be parsed as markup,
    and [JSONDecodeError] is what [json.loads] raised for the text [doc]. *)
Inductive exn : Type :=
| ProviderError (message : str)
| IndexError
| AttributeError
| TypeError
| KeyError (key : str)
| ValueError (text : str)
| JSONDecodeError (doc : str).

(** A computation returns a value or raises. *)
Inductive outcome (A : Type) : Type :=
| Ret (a : A)
| Raise (e : exn).
Arguments Ret {A} a.
Arguments Raise {A} e.

Definition obind {A B} (c : outcome A) (k : A -> outcome B) : outcome B :=
  match c with
  | Ret a => k a
  | Raise e => Raise e
  end.

(** What the interpreter and its libraries supply and the program only
    calls: Unicode case mapping, [repr] of floats and containers, the
    message [str(e)] of an exception, and whether reportlab's parser
    accepts a text as the markup of a paragraph. *)
Class PyRuntime : Type := {
  str_lower : str -> str;
  str_upper : str -> str;
  repr_value : json -> str;
  exn_str : exn -> str;
  markup_ok : str -> bool
}.

(** A double is zero when the decimal is, or when it rounds to zero:
    [m * 10^e <= 2^-1075]. *)
Definition float_is_zero (m : N) (e : Z) : bool :=
  (m =? 0)%N
  || (if (0 <=? e)%Z then false
      else (Z.of_N m * 2 ^ 1075 <=? 10 ^ (- e))%Z).

(** Truth value of an object in a condition. *)
Definition truthy (v : json) : bool :=
  match v with
  | JNull => false
  | JBool b => b
  | JInt z => negb (z =? 0)%Z
  | JFloat _ m e => negb (float_is_zero m e)
  | JNaN => true
  | JInf _ => true
  | JStr [] => false
  | JStr (_ :: _) => true
  | JList [] => false
  | JList (_ :: _) => true
  | JDict [] => false
  | JDict (_ :: _) => true
  end.

(** [v[k]] for a string key [k]. *)
Definition subscript (v : json) (k : str) : outcome json :=
  match v with
  | JDict d =>
    match dict_get k d with
    | Some x => Ret x
    | None => Raise (KeyError k)
    end
  | _ => Raise TypeError
  end.

(** The items a [for] loop sees. *)
Definition iterate (v : json) : outcome (list json) :=
  match v with
  | JList l => Ret l
  | JStr s => Ret (map (fun c => JStr [c]) s)
  | JDict d => Ret (map (fun kv => JStr (fst kv)) d)
  | _ => Raise TypeError
  end.

(** [len(v)] *)
Definition len (v : json) : outcome nat :=
  match v with
  | JList l => Ret (length l)
  | JStr s => Ret (length s)
  | JDict d => Ret (length d)
  | _ => Raise TypeError
  end.

(** [enumerate(l, start)] *)
Fixpoint enumerate {A} (start : nat) (l : list A) : list (nat * A) :=
  match l with
  | [] => []
  | x :: r => (start, x) :: enumerate (S start) r
  end.

Section Runtime.
Context {R : PyRuntime}.

(** [str(v)], as an f-string field formats it. *)
Definition py_str (v : json) : str :=
  match v with
  | JStr s => s
  | JInt z => str_of_Z z
  | JBool true => lit "True"
  | JBool false => lit "False"
  | JNull => lit "None"
  | JNaN => lit "nan"
  | JInf false => lit "inf"
  | JInf true => lit "-inf"
  | _ => repr_value v
  end.

(** [v.lower()] and [v.upper()]: only a [str] has them. *)
Definition lower (v : json) : outcome str :=
  match v with
  | JStr s => Ret (str_lower s)
  | _ => Raise AttributeError
  end.

Definition upper (v : json) : outcome str :=
  match v with
  | JStr s => Ret (str_upper s)
  | _ => Raise AttributeError
  end.

End Runtime.

End Py.
Export Py.

Declare Scope outcome_scope.
Delimit Scope outcome_scope with outcome.
Notation "x <- c ;; k" := (obind c (fun x => k))
  (at level 61, c at next level, right associativity) : outcome_scope.

(* ================================================================== *)
(** ** The report renderer: [generate_pdf_report] *)
(* ================================================================== *)

Module Report.

Local Open Scope outcome_scope.

Inductive style : Type :=
| title_style | heading_style | subheading_style | normal_style | footer_style.

(** The platypus flowables the report is made of.  A [Spacer] is one point
    wide; its height is kept in hundredths of an inch.  The table is the
    fit table, whose column widths and [TableStyle] are constants. *)
Inductive flowable : Type :=
| Paragraph (text : json) (st : style)
| Spacer (height : N)
| PageBreak
| Table (data : list (list json)).

Section Renderer.
Context {R : PyRuntime}.

(** [Paragraph(text, style)].  The constructor parses its text as markup:
    a text that is no [str] has no [split] ([AttributeError]), and markup
    the parser refuses is a [ValueError]. *)
Definition paragraph (text : json) (st : style) : outcome flowable :=
  match text with
  | JStr t =>
    if markup_ok t then Ret (Paragraph text st) else Raise (ValueError t)
  | _ => Raise AttributeError
  end.

(** [severity_symbol.get(key, '•')] *)
Definition severity_symbol (key : str) : str :=
  if str_eqb key (lit "high") then lit "●"
  else if str_eqb key (lit "medium") then lit "▲"
  else if str_eqb key (lit "low") then lit "○"
  else lit "•".

(** Body of the loop over [pain_data['potential_pain_points']]. *)
Definition pain_point_entry (idx : nat) (pain : json)
  : outcome (list flowable) :=
  s0 <- subscript pain (lit "severity") ;;
  key <- lower s0 ;;
  let symbol := severity_symbol key in
  p <- subscript pain (lit "pain_point") ;;
  title <- paragraph (JStr (lit "<b>" ++ symbol ++ lit " Pain Point "
                            ++ str_of_nat idx ++ lit ": " ++ py_str p
                            ++ lit "</b>")) subheading_style ;;
  s1 <- subscript pain (lit "severity") ;;
  sev <- upper s1 ;;
  severity <- paragraph (JStr (lit "<b>Severity:</b> " ++ sev))
                        normal_style ;;
  ev <- subscript pain (lit "evidence") ;;
  evidence <- paragraph (JStr (lit "<b>Evidence:</b> " ++ py_str ev))
                        normal_style ;;
  Ret [title; severity; evidence; Spacer 15].

(** Body of the loop over [pain_data['how_we_can_help']]. *)
Definition solution_entry (idx : nat) (solution : json)
  : outcome (list flowable) :=
  s <- subscript solution (lit "our_solution") ;;
  title <- paragraph (JStr (lit "<b>Solution " ++ str_of_nat idx ++ lit ": "
                            ++ py_str s ++ lit "</b>")) subheading_style ;;
  a <- subscript solution (lit "addresses_pain_point") ;;
  addresses <- paragraph (JStr (lit "<b>Addresses:</b> " ++ py_str a))
                         normal_style ;;
  v <- subscript solution (lit "value_proposition") ;;
  value <- paragraph (JStr (lit "<b>Value Proposition:</b> " ++ py_str v))
                     normal_style ;;
  i <- subscript solution (lit "implementation_approach") ;;
  approach <- paragraph (JStr (lit "<b>Implementation Approach:</b> "
                               ++ py_str i)) normal_style ;;
  Ret [title; addresses; value; approach; Spacer 15].

(** Body of the loop over [strategy['key_talking_points']]. *)
Definition talking_point_entry (point : json) : outcome (list flowable) :=
  bullet <- paragraph (JStr (lit "• " ++ py_str point)) normal_style ;;
  Ret [bullet].

(** Body of the loop over [pain_data['recommended_next_steps']]. *)
Definition next_step_entry (idx : nat) (step : json)
  : outcome (list flowable) :=
  line <- paragraph (JStr (str_of_nat idx ++ lit ". " ++ py_str step))
                    normal_style ;;
  Ret [line; Spacer 5].

(** A [for] loop whose body appends to the story: the flowables of every
    round, in order, unless a round raises. *)
Fixpoint for_each {A} (body : A -> outcome (list flowable)) (items : list A)
  : outcome (list flowable) :=
  match items with
  | [] => Ret []
  | x :: rest =>
    out <- body x ;;
    more <- for_each body rest ;;
    Ret (out ++ more)
  end.

(** The title (lines 85 to 88). *)
Definition title_section (now company_name : str) : outcome (list flowable) :=
  title <- paragraph (JStr (lit "Lead Analysis Report")) title_style ;;
  company <- paragraph (JStr (lit "<b>" ++ company_name ++ lit "</b>"))
                       heading_style ;;
  generated <- paragraph (JStr (lit "Generated: " ++ now)) normal_style ;;
  Ret [title; company; generated; Spacer 30].

(** Company overview, fit table and fit reasoning (lines 90 to 128).  The
    cells of the table are kept as they are given; a [Table] does not look
    at them before [doc.build]. *)
Definition fit_sections (fit_data : json) : outcome (list flowable) :=
  overview_heading <- paragraph (JStr (lit "Company Overview"))
                                heading_style ;;
  overview <- subscript fit_data (lit "brief_company_overview") ;;
  overview_text <- paragraph overview normal_style ;;
  fit_heading <- paragraph (JStr (lit "Fit Analysis")) heading_style ;;
  industry <- subscript fit_data (lit "industry") ;;
  sector <- subscript fit_data (lit "sector") ;;
  size <- subscript fit_data (lit "company_size") ;;
  score <- subscript fit_data (lit "fit_score") ;;
  good <- subscript fit_data (lit "is_good_fit") ;;
  let fit_table :=
    Table [ [JStr (lit "Metric"); JStr (lit "Value")];
            [JStr (lit "Industry"); industry];
            [JStr (lit "Sector"); sector];
            [JStr (lit "Company Size"); size];
            [JStr (lit "Fit Score"); JStr (py_str score ++ lit "/100")];
            [JStr (lit "Good Fit?");
             JStr (if truthy good then lit "Yes ✓" else lit "No ✗")] ] in
  reasoning_heading <- paragraph (JStr (lit "Fit Assessment Reasoning"))
                                 subheading_style ;;
  reasoning <- subscript fit_data (lit "fit_reasoning") ;;
  reasoning_text <- paragraph reasoning normal_style ;;
  Ret [ overview_heading; overview_text; Spacer 20;
        fit_heading; fit_table; Spacer 20;
        reasoning_heading; reasoning_text; Spacer 20 ].

(** The pain point entries (lines 135 to 142). *)
Definition pain_point_entries (pain_data : json) : outcome (list flowable) :=
  pts <- subscript pain_data (lit "potential_pain_points") ;;
  items <- iterate pts ;;
  for_each (fun ip => pain_point_entry (fst ip) (snd ip)) (enumerate 1 items).

(** Solutions, engagement strategy and next steps (lines 144 to 175). *)
Definition solution_sections (pain_data : json) : outcome (list flowable) :=
  help_heading <- paragraph (JStr (lit "How Can Help")) heading_style ;;
  sols <- subscript pain_data (lit "how_we_can_help") ;;
  sol_items <- iterate sols ;;
  solutions <- for_each (fun ip => solution_entry (fst ip) (snd ip))
                        (enumerate 1 sol_items) ;;
  strategy_heading <- paragraph (JStr (lit "Engagement Strategy"))
                                heading_style ;;
  strategy <- subscript pain_data (lit "engagement_strategy") ;;
  contact <- subscript strategy (lit "primary_contact") ;;
  contact_text <- paragraph (JStr (lit "<b>Primary Contact:</b> "
                                   ++ py_str contact)) normal_style ;;
  value0 <- subscript pain_data (lit "estimated_opportunity_value") ;;
  value <- upper value0 ;;
  value_text <- paragraph (JStr (lit "<b>Estimated Opportunity Value:</b> "
                                 ++ value)) normal_style ;;
  points_heading <- paragraph (JStr (lit "<b>Key Talking Points:</b>"))
                              subheading_style ;;
  points0 <- subscript strategy (lit "key_talking_points") ;;
  points <- iterate points0 ;;
  talking_points <- for_each talking_point_entry points ;;
  angle <- subscript strategy (lit "differentiation_angle") ;;
  angle_text <- paragraph (JStr (lit "<b>Differentiation Angle:</b> "
                                 ++ py_str angle)) normal_style ;;
  steps_heading <- paragraph (JStr (lit "Recommended Next Steps"))
                             heading_style ;;
  steps0 <- subscript pain_data (lit "recommended_next_steps") ;;
  steps <- iterate steps0 ;;
  next_steps <- for_each (fun ip => next_step_entry (fst ip) (snd ip))
                         (enumerate 1 steps) ;;
  Ret ([ help_heading ]
       ++ solutions
       ++ [ PageBreak; strategy_heading; contact_text; value_text;
            Spacer 10; points_heading ]
       ++ talking_points
       ++ [ Spacer 10; angle_text; Spacer 20; steps_heading ]
       ++ next_steps).

(** Everything under [if pain_data:]. *)
Definition pain_sections (pain_data : json) : outcome (list flowable) :=
  heading <- paragraph (JStr (lit "Pain Points Analysis")) heading_style ;;
  entries <- pain_point_entries pain_data ;;
  rest <- solution_sections pain_data ;;
  Ret ([ PageBreak; heading ] ++ entries ++ rest).

(** The footer (lines 177 to 186). *)
Definition footer_section : outcome (list flowable) :=
  line <- paragraph (JStr (lit "Generated by Lead Generation Agent | Powered by Claude AI"))
                    footer_style ;;
  Ret [ Spacer 30; line ].

(** [generate_pdf_report(company_name, fit_data, pain_data)].  The
    statements run in the order of the source, so the first one that
    raises decides the exception.  The result is the story handed to
    [doc.build]; [now] is what [time.strftime] returns during the call,
    and [JNull] is Python's [None]. *)
Definition generate_pdf_report (now company_name : str)
           (fit_data pain_data : json) : outcome (list flowable) :=
  title <- title_section now company_name ;;
  fit <- fit_sections fit_data ;;
  pain <- (if truthy pain_data then pain_sections pain_data else Ret []) ;;
  foot <- footer_section ;;
  Ret (title ++ fit ++ pain ++ foot).

End Renderer.

End Report.
Export Report.

(* ================================================================== *)
(** ** The provider, the session and the two analysis stages *)
(* ================================================================== *)

Module Pipeline.

(** A prompt is one of the two fixed templates with its fields filled in;
    the template text itself plays no part in what follows. *)
Inductive prompt : Type :=
| FitPrompt (target_sectors target_industries : list str)
            (our_services company_name : str)
| PainPrompt (company_name : str) (industry company_overview : json)
             (our_services : str).

(** One call of [client.messages.create]: a single user message. *)
Record request : Type := {
  req_api_key : str;
  req_model : str;
  req_max_tokens : nat;
  req_prompt : prompt
}.

(** A content block of the reply; only a text block has [.text]. *)
Inductive content_block : Type :=
| TextBlock (text : str)
| OtherBlock.

(** The provider answers the [n]-th call of the session with the content
    of a message, or the call raises. *)
Definition provider : Type := nat -> request -> outcome (list content_block).

(** What a stage returns: [{"success": True, "data": ...}] or
    [{"success": False, "error": ...}]. *)
Inductive stage_result : Type :=
| Success (data : json)
| Failure (error : str).

(** An entry of [st.session_state.analysis_history]; [pain_data] is a key
    that may be missing. *)
Record analysis_record : Type := {
  timestamp : str;
  rec_company_name : str;
  fit_data : json;
  pain_data : option json
}.

(** What the script puts on the page. *)
Inductive widget : Type :=
| st_error (body : str)
| st_success (body : str)
| st_warning (body : str)
| st_info (body : json)
| st_write (body : json)
| st_metric (label : str) (value : json)
| st_header (body : str)
| st_subheader (body : str)
| st_markdown (body : str)
| st_spinner (text : str)
| st_expander (label : str)
| st_download_button (label : str) (data : list flowable) (file_name : str)
                     (key : option str).

(** The state a script run works on: the session history, the requests
    sent to the provider so far, and the page. *)
Record world : Type := {
  analysis_history : list analysis_record;
  provider_calls : list request;
  page : list widget
}.

(** Lines 22 and 23. *)
Definition initial_world : world :=
  {| analysis_history := []; provider_calls := []; page := [] |}.

(** Effectful code: state passing, with exceptions. *)
Definition M (A : Type) : Type := world -> outcome A * world.

Definition ret {A} (a : A) : M A := fun w => (Ret a, w).

Definition bind {A B} (c : M A) (k : A -> M B) : M B :=
  fun w =>
    match c w with
    | (Ret a, w') => k a w'
    | (Raise e, w') => (Raise e, w')
    end.

Definition lift {A} (c : outcome A) : M A := fun w => (c, w).

(** [try: body except Exception as e: handler(e)] *)
Definition try_except {A} (body : M A) (handler : exn -> M A) : M A :=
  fun w =>
    match body w with
    | (Ret a, w') => (Ret a, w')
    | (Raise e, w') => handler e w'
    end.

Definition show (x : widget) : M unit :=
  fun w => (Ret tt, {| analysis_history := analysis_history w;
                       provider_calls := provider_calls w;
                       page := page w ++ [x] |}).

(** [st.session_state.analysis_history.append(r)] *)
Definition history_append (r : analysis_record) : M unit :=
  fun w => (Ret tt, {| analysis_history := analysis_history w ++ [r];
                       provider_calls := provider_calls w;
                       page := page w |}).

Definition get_history : M (list analysis_record) :=
  fun w => (Ret (analysis_history w), w).

Declare Scope M_scope.
Delimit Scope M_scope with M.
Notation "x <- c ;; k" := (bind c (fun x => k))
  (at level 61, c at next level, right associativity) : M_scope.
Notation "c ;; k" := (bind c (fun _ => k))
  (at level 61, right associativity) : M_scope.

Local Open Scope M_scope.

Fixpoint for_M {A} (body : A -> M unit) (items : list A) : M unit :=
  match items with
  | [] => ret tt
  | x :: rest => body x ;; for_M body rest
  end.

(** Lines 249 to 252 and 329 to 331: the text handed to [json.loads]. *)
Definition response_text (text : str) : str :=
  let response_text := strip text in
  if startswith response_text (lit "```json")
  then strip (replace (replace response_text (lit "```json") []) (lit "```") [])
  else response_text.

(** Lines 249 to 254: from the text of the reply to the parsed record. *)
Definition parse_response (text : str) : outcome json :=
  let doc := response_text text in
  match json_loads doc with
  | Some analysis => Ret analysis
  | None => Raise (JSONDecodeError doc)
  end.

Definition model_name : str := lit "claude-sonnet-4-20250514".

Section Stages.
Context {R : PyRuntime}.
Variable claude : provider.

(** [client.messages.create(...)]: one network call. *)
Definition messages_create (req : request) : M (list content_block) :=
  fun w =>
    (claude (length (provider_calls w)) req,
     {| analysis_history := analysis_history w;
        provider_calls := provider_calls w ++ [req];
        page := page w |}).

(** [message.content[0].text] *)
Definition first_text (content : list content_block) : outcome str :=
  match content with
  | [] => Raise IndexError
  | TextBlock t :: _ => Ret t
  | OtherBlock :: _ => Raise AttributeError
  end.

(** The [try] block shared by the two stages (lines 239 to 258 and 320 to
    337). *)
Definition ask (req : request) : M stage_result :=
  try_except
    (message <- messages_create req ;;
     text <- lift (first_text message) ;;
     analysis <- lift (parse_response text) ;;
     ret (Success analysis))
    (fun e => ret (Failure (exn_str e))).

(** In both functions the client and the prompt are built before the
    [try]; built from strings, they raise nothing. *)
Definition analyze_company_fit (company_name : str)
           (target_sectors target_industries : list str)
           (our_services api_key : str) : M stage_result :=
  let prompt :=
    FitPrompt target_sectors target_industries our_services company_name in
  ask {| req_api_key := api_key; req_model := model_name;
         req_max_tokens := 2000; req_prompt := prompt |}.

Definition generate_pain_point_analysis (company_name : str)
           (company_overview industry : json)
           (our_services api_key : str) : M stage_result :=
  let prompt :=
    PainPrompt company_name industry company_overview our_services in
  ask {| req_api_key := api_key; req_model := model_name;
         req_max_tokens := 3000; req_prompt := prompt |}.

End Stages.

End Pipeline.
Export Pipeline.

(* ================================================================== *)
(** ** The Streamlit script (lines 340 to 602) *)
(* ================================================================== *)

Module App.

Local Open Scope M_scope.

(** What [time.strftime] returns during a run, per format. *)
Record clock : Type := {
  now_report : str;    (* '%B %d, %Y at %I:%M %p' *)
  now_stamp : str;     (* '%Y-%m-%d %H:%M:%S' *)
  now_date : str       (* '%Y%m%d' *)
}.

(** The state of the input widgets when the script runs. *)
Record inputs : Type := {
  api_key : str;
  sectors_input : str;
  industries_input : str;
  our_services : str;
  company_name : str;
  analyze_button : bool;
  time : clock
}.

(** [[s.strip() for s in text.split("\n") if s.strip()]] *)
Definition stripped_lines (text : str) : list str :=
  flat_map (fun s => match strip s with [] => [] | t => [t] end)
           (split_on 10%N text).

Definition target_sectors (inp : inputs) : list str :=
  stripped_lines (sectors_input inp).

Definition target_industries (inp : inputs) : list str :=
  stripped_lines (industries_input inp).

Definition space : str := lit " ".

(** The name of the downloaded file. *)
Definition pdf_file_name (company_name date : str) : str :=
  lit "Lead_Analysis_" ++ replace company_name space (lit "_")
      ++ lit "_" ++ date ++ lit ".pdf".

(** What [st.metric] takes as its value: a number, a text or [None]. *)
Definition metric_value (v : json) : bool :=
  match v with
  | JList _ => false
  | JDict _ => false
  | _ => true
  end.

(** [st.metric(label, value)]: for a value of another type Streamlit
    raises [TypeError], which nothing in the script catches. *)
Definition metric (label : str) (value : json) : M unit :=
  if metric_value value then show (st_metric label value)
  else lift (Raise TypeError).

Section Script.
Context {R : PyRuntime}.
Variable claude : provider.

(** [severity_color.get(key, '⚪')] *)
Definition severity_color (key : str) : str :=
  if str_eqb key (lit "high") then lit "🔴"
  else if str_eqb key (lit "medium") then lit "🟡"
  else if str_eqb key (lit "low") then lit "🟢"
  else lit "⚪".

(** Lines 432 to 447: the fit analysis on the page. *)
Definition show_fit (fit_data : json) : M unit :=
  show (st_success (lit "✅ Step 1 Complete: Fit Analysis")) ;;
  score <- lift (subscript fit_data (lit "fit_score")) ;;
  metric (lit "Fit Score") (JStr (py_str score ++ lit "/100")) ;;
  industry <- lift (subscript fit_data (lit "industry")) ;;
  metric (lit "Industry") industry ;;
  good <- lift (subscript fit_data (lit "is_good_fit")) ;;
  metric (lit "Status")
         (JStr (if truthy good then lit "✅ Good Fit" else lit "❌ Poor Fit")) ;;
  show (st_subheader (lit "Company Overview")) ;;
  overview <- lift (subscript fit_data (lit "brief_company_overview")) ;;
  show (st_info overview) ;;
  show (st_subheader (lit "Fit Assessment")) ;;
  reasoning <- lift (subscript fit_data (lit "fit_reasoning")) ;;
  show (st_write reasoning).

(** Lines 469 to 477. *)
Definition show_pain_point (ip : nat * json) : M unit :=
  let pain := snd ip in
  s0 <- lift (subscript pain (lit "severity")) ;;
  key <- lift (lower s0) ;;
  p <- lift (subscript pain (lit "pain_point")) ;;
  show (st_expander (severity_color key ++ space ++ py_str p)) ;;
  s1 <- lift (subscript pain (lit "severity")) ;;
  sev <- lift (upper s1) ;;
  show (st_write (JStr (lit "**Severity:** " ++ sev))) ;;
  ev <- lift (subscript pain (lit "evidence")) ;;
  show (st_write (JStr (lit "**Evidence:** " ++ py_str ev))).

(** Lines 481 to 485. *)
Definition show_solution (ip : nat * json) : M unit :=
  let solution := snd ip in
  s <- lift (subscript solution (lit "our_solution")) ;;
  show (st_expander (lit "Solution " ++ str_of_nat (fst ip) ++ lit ": "
                     ++ py_str s)) ;;
  a <- lift (subscript solution (lit "addresses_pain_point")) ;;
  show (st_write (JStr (lit "**Addresses:** " ++ py_str a))) ;;
  v <- lift (subscript solution (lit "value_proposition")) ;;
  show (st_write (JStr (lit "**Value Proposition:** " ++ py_str v))) ;;
  i <- lift (subscript solution (lit "implementation_approach")) ;;
  show (st_write (JStr (lit "**Approach:** " ++ py_str i))).

(** Lines 465 to 505: the pain point analysis on the page. *)
Definition show_pain (pain_data : json) : M unit :=
  show (st_success (lit "✅ Step 2 Complete: Pain Point Analysis")) ;;
  show (st_subheader (lit "🎯 Identified Pain Points")) ;;
  pts <- lift (subscript pain_data (lit "potential_pain_points")) ;;
  items <- lift (iterate pts) ;;
  for_M show_pain_point (enumerate 1 items) ;;
  show (st_subheader (lit "💡 How We Can Help")) ;;
  sols <- lift (subscript pain_data (lit "how_we_can_help")) ;;
  sol_items <- lift (iterate sols) ;;
  for_M show_solution (enumerate 1 sol_items) ;;
  show (st_subheader (lit "📋 Engagement Strategy")) ;;
  strategy <- lift (subscript pain_data (lit "engagement_strategy")) ;;
  contact <- lift (subscript strategy (lit "primary_contact")) ;;
  show (st_write (JStr (lit "**Primary Contact:** " ++ py_str contact))) ;;
  value0 <- lift (subscript pain_data (lit "estimated_opportunity_value")) ;;
  value <- lift (upper value0) ;;
  show (st_write (JStr (lit "**Opportunity Value:** " ++ value))) ;;
  show (st_write (JStr (lit "**Key Talking Points:**"))) ;;
  points0 <- lift (subscript strategy (lit "key_talking_points")) ;;
  points <- lift (iterate points0) ;;
  for_M (fun point => show (st_write (JStr (lit "- " ++ py_str point))))
        points ;;
  angle <- lift (subscript strategy (lit "differentiation_angle")) ;;
  show (st_write (JStr (lit "**Differentiation:** " ++ py_str angle))) ;;
  show (st_subheader (lit "✅ Recommended Next Steps")) ;;
  steps0 <- lift (subscript pain_data (lit "recommended_next_steps")) ;;
  steps <- lift (iterate steps0) ;;
  for_M (fun ip => show (st_write (JStr (str_of_nat (fst ip) ++ lit ". "
                                          ++ py_str (snd ip)))))
        (enumerate 1 steps).

(** The export block: a report is built and offered, or the error is
    shown (lines 521 to 532, 541 to 552 and 576 to 590). *)
Definition export_report (inp : inputs) (label company : str)
           (fit_data pain_data : json) (key : option str) (prefix : str)
  : M unit :=
  try_except
    (pdf_bytes <- lift (generate_pdf_report (now_report (time inp)) company
                                             fit_data pain_data) ;;
     show (st_download_button label pdf_bytes
             (pdf_file_name company (now_date (time inp))) key))
    (fun e => show (st_error (prefix ++ exn_str e))).

(** Lines 460 to 532: what follows the second stage. *)
Definition after_pain (inp : inputs) (fit : json) (pain_result : stage_result)
  : M unit :=
  match pain_result with
  | Failure error =>
    show (st_error (lit "❌ Error in pain point analysis: " ++ error))
  | Success pain =>
    show_pain pain ;;
    history_append {| timestamp := now_stamp (time inp);
                      rec_company_name := company_name inp;
                      fit_data := fit;
                      pain_data := Some pain |} ;;
    show (st_success (lit "💾 Analysis saved to history!")) ;;
    show (st_markdown (lit "---")) ;;
    show (st_subheader (lit "📄 Export Report")) ;;
    export_report inp (lit "📥 Download PDF Report") (company_name inp)
                  fit pain None (lit "Error generating PDF: ")
  end.

(** Lines 426 to 552: what follows the first stage. *)
Definition after_fit (inp : inputs) (fit_result : stage_result) : M unit :=
  match fit_result with
  | Failure error =>
    show (st_error (lit "❌ Error in fit analysis: " ++ error))
  | Success fit =>
    show_fit fit ;;
    good <- lift (subscript fit (lit "is_good_fit")) ;;
    if truthy good then
      show (st_spinner (lit "🎯 Step 2/2: Analyzing pain points and opportunities...")) ;;
      overview <- lift (subscript fit (lit "brief_company_overview")) ;;
      industry <- lift (subscript fit (lit "industry")) ;;
      pain_result <- generate_pain_point_analysis claude (company_name inp)
                       overview industry (our_services inp) (api_key inp) ;;
      after_pain inp fit pain_result
    else
      show (st_warning (lit "⚠️ This company is not a good fit based on our target criteria. Pain point analysis skipped.")) ;;
      show (st_markdown (lit "---")) ;;
      show (st_subheader (lit "📄 Export Report")) ;;
      export_report inp (lit "📥 Download PDF Report") (company_name inp)
                    fit JNull None (lit "Error generating PDF: ")
  end.

(** Lines 395 to 552: the tab that analyses a new lead. *)
Definition analyze_tab (inp : inputs) : M unit :=
  show (st_header (lit "Analyze a New Company")) ;;
  if analyze_button inp then
    match api_key inp with
    | [] => show (st_error (lit "⚠️ Please enter your Claude API key in the sidebar"))
    | _ :: _ =>
      match company_name inp with
      | [] => show (st_error (lit "⚠️ Please enter a company name"))
      | _ :: _ =>
        show (st_spinner (lit "🔍 Step 1/2: Analyzing if " ++ company_name inp
                          ++ lit " is a good fit...")) ;;
        fit_result <- analyze_company_fit claude (company_name inp)
                        (target_sectors inp) (target_industries inp)
                        (our_services inp) (api_key inp) ;;
        after_fit inp fit_result
      end
    end
  else ret tt.

(** Line 560: the order in which the history is shown. *)
Definition history_view (history : list analysis_record)
  : list (nat * analysis_record) :=
  enumerate 0 (rev history).

(** [analysis.get('pain_data')] *)
Definition get_pain_data (analysis : analysis_record) : json :=
  match pain_data analysis with
  | Some pain => pain
  | None => JNull
  end.

(** Lines 561 to 590: one entry of the history. *)
Definition show_analysis (inp : inputs) (ia : nat * analysis_record) : M unit :=
  let analysis := snd ia in
  show (st_expander (lit "📊 " ++ rec_company_name analysis ++ lit " - "
                     ++ timestamp analysis)) ;;
  score <- lift (subscript (fit_data analysis) (lit "fit_score")) ;;
  show (st_write (JStr (lit "**Fit Score:** " ++ py_str score ++ lit "/100"))) ;;
  industry <- lift (subscript (fit_data analysis) (lit "industry")) ;;
  show (st_write (JStr (lit "**Industry:** " ++ py_str industry))) ;;
  good <- lift (subscript (fit_data analysis) (lit "is_good_fit")) ;;
  show (st_write (JStr (lit "**Good Fit:** "
                        ++ if truthy good then lit "Yes" else lit "No"))) ;;
  match pain_data analysis with
  | Some pain =>
    pts <- lift (subscript pain (lit "potential_pain_points")) ;;
    n <- lift (len pts) ;;
    show (st_write (JStr (lit "**Pain Points Identified:** " ++ str_of_nat n))) ;;
    sols <- lift (subscript pain (lit "how_we_can_help")) ;;
    m <- lift (len sols) ;;
    show (st_write (JStr (lit "**Solutions Proposed:** " ++ str_of_nat m))) ;;
    value <- lift (subscript pain (lit "estimated_opportunity_value")) ;;
    show (st_write (JStr (lit "**Opportunity Value:** " ++ py_str value)))
  | None => ret tt
  end ;;
  export_report inp (lit "📥 PDF") (rec_company_name analysis)
                (fit_data analysis) (get_pain_data analysis)
                (Some (lit "pdf_export_" ++ str_of_nat (fst ia)))
                (lit "PDF Error: ").

(** Lines 554 to 590: the history tab. *)
Definition history_tab (inp : inputs) : M unit :=
  show (st_header (lit "Analysis History")) ;;
  history <- get_history ;;
  match history with
  | [] => show (st_info (JStr (lit "No analyses yet. Analyze your first lead in the 'Analyze New Lead' tab!")))
  | _ :: _ => for_M (show_analysis inp) (history_view history)
  end.

(** The two tabs of the script, which Streamlit runs top to bottom on
    every interaction. *)
Definition script (inp : inputs) : M unit :=
  analyze_tab inp ;;
  history_tab inp.

(** One run: the page starts empty, the session state stays. *)
Definition run (inp : inputs) (w : world) : world :=
  snd (script inp {| analysis_history := analysis_history w;
                     provider_calls := provider_calls w;
                     page := [] |}).

End Script.

(** The states a session goes through: it starts with an empty history
    and every interaction runs the script once. *)
Inductive reachable {R : PyRuntime} (claude : provider) : world -> Prop :=
| reach_start : reachable claude initial_world
| reach_run inp w : reachable claude w -> reachable claude (run claude inp w).

End App.
Export App.

(* ================================================================== *)
(** ** A runtime and a provider for the examples *)
(* ================================================================== *)

Module Example.

Local Open Scope N_scope.

Definition ascii_lower (c : char) : char :=
  if (65 <=? c) && (c <=? 90) then c + 32 else c.

Definition ascii_upper (c : char) : char :=
  if (97 <=? c) && (c <=? 122) then c - 32 else c.

(** Where the reader of a text stands: in plain text or in bold, or
    inside the tag that opens or closes the bold. *)
Inductive markup_state : Type :=
| plain | bold | opening1 | opening2 | closing1 | closing2 | closing3.

Definition markup_step (st : markup_state) (c : char) : option markup_state :=
  match st with
  | plain =>
    if c =? 60 then Some opening1
    else if (c =? 62) || (c =? 38) then None else Some plain
  | bold =>
    if c =? 60 then Some closing1
    else if (c =? 62) || (c =? 38) then None else Some bold
  | opening1 => if c =? 98 then Some opening2 else None
  | opening2 => if c =? 62 then Some bold else None
  | closing1 => if c =? 47 then Some closing2 else None
  | closing2 => if c =? 98 then Some closing3 else None
  | closing3 => if c =? 62 then Some plain else None
  end.

Fixpoint markup_run (st : markup_state) (s : str) : bool :=
  match s with
  | [] => match st with plain => true | _ => false end
  | c :: r =>
    match markup_step st c with
    | Some st' => markup_run st' r
    | None => false
    end
  end.

(** Text with no [<], [>] or [&] other than the tags of bold runs, each
    opened by [<b>] and closed by [</b>]: markup that reportlab accepts. *)
Definition simple_markup (s : str) : bool := markup_run plain s.

(** Case mapping on the ASCII letters, which is what Python does on ASCII
    text; the examples use no other letters, floats or containers, and no
    markup but bold runs. *)
#[export] Instance ascii_runtime : PyRuntime := {|
  str_lower := map ascii_lower;
  str_upper := map ascii_upper;
  repr_value := fun _ => lit "...";
  exn_str := fun e =>
    match e with
    | ProviderError m => m
    | IndexError => lit "list index out of range"
    | AttributeError => lit "object has no attribute 'text'"
    | TypeError => lit "object is not subscriptable"
    | KeyError k => lit "'" ++ k ++ lit "'"
    | ValueError t => lit "Parse error: " ++ t
    | JSONDecodeError _ => lit "Expecting value"
    end;
  markup_ok := simple_markup
|}.

(** JSON text is written with [q] for a quoted string. *)
Definition q (s : string) : str := dquote :: lit s ++ [dquote].

(** A stage-1 reply with the eight fields of a FitAssessment. *)
Definition fit_reply (good : string) : str :=
  lit "{" ++ q "company_name" ++ lit ": " ++ q "Acme SaaS" ++ lit ", "
  ++ q "industry" ++ lit ": " ++ q "Software" ++ lit ", "
  ++ q "sector" ++ lit ": " ++ q "Technology" ++ lit ", "
  ++ q "company_size" ++ lit ": " ++ q "50-200" ++ lit ", "
  ++ q "is_good_fit" ++ lit ": " ++ lit good ++ lit ", "
  ++ q "fit_score" ++ lit ": 82, "
  ++ q "fit_reasoning" ++ lit ": " ++ q "Matches the target profile" ++ lit ", "
  ++ q "brief_company_overview" ++ lit ": " ++ q "Acme sells software"
  ++ lit "}".

(** A stage-2 reply with one pain point of the given severity. *)
Definition pain_reply (severity : string) : str :=
  lit "{" ++ q "potential_pain_points" ++ lit ": [{"
  ++ q "pain_point" ++ lit ": " ++ q "Manual reporting" ++ lit ", "
  ++ q "severity" ++ lit ": " ++ q severity ++ lit ", "
  ++ q "evidence" ++ lit ": " ++ q "Many analyst openings" ++ lit "}], "
  ++ q "how_we_can_help" ++ lit ": [{"
  ++ q "our_solution" ++ lit ": " ++ q "Power BI dashboards" ++ lit ", "
  ++ q "addresses_pain_point" ++ lit ": " ++ q "Manual reporting" ++ lit ", "
  ++ q "value_proposition" ++ lit ": " ++ q "Faster decisions" ++ lit ", "
  ++ q "implementation_approach" ++ lit ": " ++ q "Pilot" ++ lit "}], "
  ++ q "engagement_strategy" ++ lit ": {"
  ++ q "primary_contact" ++ lit ": " ++ q "CTO" ++ lit ", "
  ++ q "key_talking_points" ++ lit ": [" ++ q "speed" ++ lit ", "
  ++ q "cost" ++ lit "], "
  ++ q "differentiation_angle" ++ lit ": " ++ q "Domain focus" ++ lit "}, "
  ++ q "estimated_opportunity_value" ++ lit ": " ++ q "medium" ++ lit ", "
  ++ q "recommended_next_steps" ++ lit ": [" ++ q "call" ++ lit ", "
  ++ q "demo" ++ lit "]}".

(** A provider that answers stage 1 with [fit] and stage 2 with [pain]. *)
Definition scripted (fit pain : str) : provider :=
  fun _ req =>
    match req_prompt req with
    | FitPrompt _ _ _ _ => Ret [TextBlock fit]
    | PainPrompt _ _ _ _ => Ret [TextBlock pain]
    end.

Definition noon : clock :=
  {| now_report := lit "November 03, 2026 at 12:00 PM";
     now_stamp := lit "2026-11-03 12:00:00";
     now_date := lit "20261103" |}.

Definition click (company : string) : inputs :=
  {| api_key := lit "sk-test";
     sectors_input := lit "Technology
Healthcare";
     industries_input := lit "SaaS";
     our_services := lit "- Data Science Consulting";
     company_name := lit company;
     analyze_button := true;
     time := noon |}.

(** The parsed record of a reply text. *)
Definition parsed (text : str) : json :=
  match parse_response text with
  | Ret v => v
  | Raise _ => JNull
  end.

Definition good_fit : json := parsed (fit_reply "true").
Definition poor_fit : json := parsed (fit_reply "false").
Definition one_pain (severity : string) : json := parsed (pain_reply severity).


(** A reply whose JSON holds three backticks inside a string. *)
Definition backtick_note : str :=
  lit "{" ++ q "note" ++ lit ": " ++ q "use ``` for code" ++ lit "}".

(** The same reply inside a fence, on lines of its own. *)
Definition backtick_note_fenced : str :=
  lit "```json
" ++ backtick_note ++ lit "
```".

(** A bare fence around valid JSON. *)
Definition bare_fenced : str := lit "```
{}
```".

End Example.

Export Example.

(* ================================================================== *)
(** ** Vocabulary of the properties *)
(* ================================================================== *)

Module Props.

Local Open Scope outcome_scope.

(** The world after a request has been sent. *)
Definition sent (req : request) (w : world) : world :=
  {| analysis_history := analysis_history w;
     provider_calls := provider_calls w ++ [req];
     page := page w |}.

(** What the [n]-th call yields once the reply is read and parsed. *)
Definition reply (claude : provider) (n : nat) (req : request) : outcome json :=
  content <- claude n req ;;
  text <- first_text content ;;
  parse_response text.

Definition result_of {R : PyRuntime} (o : outcome json) : stage_result :=
  match o with
  | Ret data => Success data
  | Raise e => Failure (exn_str e)
  end.

(** The request of each stage in a run with inputs [inp]. *)
Definition fit_request (inp : inputs) : request :=
  {| req_api_key := api_key inp; req_model := model_name;
     req_max_tokens := 2000;
     req_prompt := FitPrompt (target_sectors inp) (target_industries inp)
                             (our_services inp) (company_name inp) |}.

Definition pain_request (inp : inputs) (overview industry : json) : request :=
  {| req_api_key := api_key inp; req_model := model_name;
     req_max_tokens := 3000;
     req_prompt := PainPrompt (company_name inp) industry overview
                              (our_services inp) |}.

(** The button was pressed with a key and a company name filled in. *)
Definition submitted (inp : inputs) : Prop :=
  analyze_button inp = true /\ api_key inp <> [] /\ company_name inp <> [].

(** The reply wrapped in a JSON code fence. *)
Definition fenced (t : str) : str := lit "```json" ++ t ++ lit "```".

(** [p in s]: the text [p] occurs somewhere in [s]. *)
Fixpoint occurs (p s : str) : bool :=
  match s with
  | [] => startswith [] p
  | _ :: r => startswith s p || occurs p r
  end.

(** The entry a run with inputs [inp] saves for [fit] and [pain]. *)
Definition record_of (inp : inputs) (fit pain : json) : analysis_record :=
  {| timestamp := now_stamp (time inp);
     rec_company_name := company_name inp;
     fit_data := fit;
     pain_data := Some pain |}.

(** The world with some more widgets on the page. *)
Definition shown (ws : list widget) (w : world) : world :=
  {| analysis_history := analysis_history w;
     provider_calls := provider_calls w;
     page := page w ++ ws |}.

Definition fresh_page (w : world) : world :=
  {| analysis_history := analysis_history w;
     provider_calls := provider_calls w;
     page := [] |}.

(** *** The fields of the data model *)

Definition has_key (k : str) (v : json) : bool :=
  match subscript v k with
  | Ret _ => true
  | Raise _ => false
  end.

Definition str_field (k : str) (v : json) : bool :=
  match subscript v k with
  | Ret (JStr _) => true
  | _ => false
  end.

Definition list_field (item_ok : json -> bool) (k : str) (v : json) : bool :=
  match subscript v k with
  | Ret (JList items) => forallb item_ok items
  | _ => false
  end.

(** A record with the eight fields of a FitAssessment. *)
Definition has_fit_fields (v : json) : bool :=
  has_key (lit "company_name") v && has_key (lit "industry") v
  && has_key (lit "sector") v && has_key (lit "company_size") v
  && has_key (lit "is_good_fit") v && has_key (lit "fit_score") v
  && has_key (lit "fit_reasoning") v
  && has_key (lit "brief_company_overview") v.

Definition is_pain_point (v : json) : bool :=
  has_key (lit "pain_point") v && str_field (lit "severity") v
  && has_key (lit "evidence") v.

Definition is_solution (v : json) : bool :=
  has_key (lit "our_solution") v && has_key (lit "addresses_pain_point") v
  && has_key (lit "value_proposition") v
  && has_key (lit "implementation_approach") v.

Definition is_strategy (v : json) : bool :=
  has_key (lit "primary_contact") v
  && list_field (fun _ => true) (lit "key_talking_points") v
  && has_key (lit "differentiation_angle") v.

(** A record with the five fields of a PainAnalysis, each of its shape. *)
Definition has_pain_fields (v : json) : bool :=
  list_field is_pain_point (lit "potential_pain_points") v
  && list_field is_solution (lit "how_we_can_help") v
  && match subscript v (lit "engagement_strategy") with
     | Ret e => is_strategy e
     | Raise _ => false
     end
  && str_field (lit "estimated_opportunity_value") v
  && list_field (fun _ => true) (lit "recommended_next_steps") v.

(** A field that is known to be there. *)
Definition field (k : str) (v : json) : json :=
  match subscript v k with
  | Ret x => x
  | Raise _ => JNull
  end.

(** *** The report, by its parts *)

Section Blocks.
Context {R : PyRuntime}.

Definition str_of (v : json) : str :=
  match v with
  | JStr s => s
  | _ => []
  end.

(** The heading of the entry of a pain point, and the whole entry. *)
Definition pain_point_title (idx : nat) (pain : json) : flowable :=
  Paragraph
    (JStr (lit "<b>"
           ++ severity_symbol (str_lower (str_of (field (lit "severity") pain)))
           ++ lit " Pain Point " ++ str_of_nat idx ++ lit ": "
           ++ py_str (field (lit "pain_point") pain) ++ lit "</b>"))
    subheading_style.

Definition pain_point_block (idx : nat) (pain : json) : list flowable :=
  [ pain_point_title idx pain;
    Paragraph (JStr (lit "<b>Severity:</b> "
                     ++ str_upper (str_of (field (lit "severity") pain))))
              normal_style;
    Paragraph (JStr (lit "<b>Evidence:</b> "
                     ++ py_str (field (lit "evidence") pain))) normal_style;
    Spacer 15 ].

Definition solution_block (idx : nat) (solution : json) : list flowable :=
  [ Paragraph (JStr (lit "<b>Solution " ++ str_of_nat idx ++ lit ": "
                     ++ py_str (field (lit "our_solution") solution)
                     ++ lit "</b>")) subheading_style;
    Paragraph (JStr (lit "<b>Addresses:</b> "
                     ++ py_str (field (lit "addresses_pain_point") solution)))
              normal_style;
    Paragraph (JStr (lit "<b>Value Proposition:</b> "
                     ++ py_str (field (lit "value_proposition") solution)))
              normal_style;
    Paragraph (JStr (lit "<b>Implementation Approach:</b> "
                     ++ py_str (field (lit "implementation_approach") solution)))
              normal_style;
    Spacer 15 ].

Definition fit_block (fit : json) : list flowable :=
  [ Paragraph (JStr (lit "Company Overview")) heading_style;
    Paragraph (field (lit "brief_company_overview") fit) normal_style;
    Spacer 20;
    Paragraph (JStr (lit "Fit Analysis")) heading_style;
    Table [ [JStr (lit "Metric"); JStr (lit "Value")];
            [JStr (lit "Industry"); field (lit "industry") fit];
            [JStr (lit "Sector"); field (lit "sector") fit];
            [JStr (lit "Company Size"); field (lit "company_size") fit];
            [JStr (lit "Fit Score");
             JStr (py_str (field (lit "fit_score") fit) ++ lit "/100")];
            [JStr (lit "Good Fit?");
             JStr (if truthy (field (lit "is_good_fit") fit)
                   then lit "Yes ✓" else lit "No ✗")] ];
    Spacer 20;
    Paragraph (JStr (lit "Fit Assessment Reasoning")) subheading_style;
    Paragraph (field (lit "fit_reasoning") fit) normal_style;
    Spacer 20 ].

Definition title_block (now company_name : str) : list flowable :=
  [ Paragraph (JStr (lit "Lead Analysis Report")) title_style;
    Paragraph (JStr (lit "<b>" ++ company_name ++ lit "</b>")) heading_style;
    Paragraph (JStr (lit "Generated: " ++ now)) normal_style;
    Spacer 30 ].

Definition footer : list flowable :=
  [ Spacer 30;
    Paragraph (JStr (lit "Generated by Lead Generation Agent | Powered by Claude AI"))
              footer_style ].

Definition pain_heading : list flowable :=
  [ PageBreak; Paragraph (JStr (lit "Pain Points Analysis")) heading_style ].

Definition talking_point_block (point : json) : list flowable :=
  [ Paragraph (JStr (lit "• " ++ py_str point)) normal_style ].

Definition next_step_block (idx : nat) (step : json) : list flowable :=
  [ Paragraph (JStr (str_of_nat idx ++ lit ". " ++ py_str step)) normal_style;
    Spacer 5 ].

Definition items_of (v : json) : list json :=
  match v with
  | JList items => items
  | _ => []
  end.

(** The engagement strategy and the next steps of a report. *)
Definition strategy_block (pain : json) : list flowable :=
  let strategy := field (lit "engagement_strategy") pain in
  [ PageBreak;
    Paragraph (JStr (lit "Engagement Strategy")) heading_style;
    Paragraph (JStr (lit "<b>Primary Contact:</b> "
                     ++ py_str (field (lit "primary_contact") strategy)))
              normal_style;
    Paragraph (JStr (lit "<b>Estimated Opportunity Value:</b> "
                     ++ str_upper
                          (str_of (field (lit "estimated_opportunity_value")
                                         pain)))) normal_style;
    Spacer 10;
    Paragraph (JStr (lit "<b>Key Talking Points:</b>")) subheading_style ]
  ++ flat_map talking_point_block
              (items_of (field (lit "key_talking_points") strategy))
  ++ [ Spacer 10;
       Paragraph (JStr (lit "<b>Differentiation Angle:</b> "
                        ++ py_str (field (lit "differentiation_angle") strategy)))
                 normal_style;
       Spacer 20;
       Paragraph (JStr (lit "Recommended Next Steps")) heading_style ]
  ++ flat_map (fun ip => next_step_block (fst ip) (snd ip))
              (enumerate 1 (items_of (field (lit "recommended_next_steps") pain))).

(** Everything a report holds for a pain analysis. *)
Definition pain_story (pain : json) : list flowable :=
  pain_heading
  ++ flat_map (fun ip => pain_point_block (fst ip) (snd ip))
              (enumerate 1 (items_of (field (lit "potential_pain_points") pain)))
  ++ [ Paragraph (JStr (lit "How Can Help")) heading_style ]
  ++ flat_map (fun ip => solution_block (fst ip) (snd ip))
              (enumerate 1 (items_of (field (lit "how_we_can_help") pain)))
  ++ strategy_block pain.

(** The story of a report, by its parts. *)
Definition report_story (now company_name : str) (fit pain : json)
  : list flowable :=
  title_block now company_name ++ fit_block fit
  ++ (if truthy pain then pain_story pain else []) ++ footer.

(** A flowable that can be built: a paragraph needs a text that is a
    [str] and that the markup parser accepts. *)
Definition accepted (f : flowable) : bool :=
  match f with
  | Paragraph (JStr t) _ => markup_ok t
  | Paragraph _ _ => false
  | _ => true
  end.

End Blocks.




(** Two worlds with the same history and the same requests sent. *)
Definition same_session (w w' : world) : Prop :=
  analysis_history w' = analysis_history w
  /\ provider_calls w' = provider_calls w.

(** Code that touches nothing but the page. *)
Definition quiet {A} (c : M A) : Prop :=
  forall w, same_session w (snd (c w)).


End Props.
Export Props.

(* ================================================================== *)
(** ** Vocabulary of the further properties *)
(* ================================================================== *)

Module Further.

(** The five fields of the fit record the result page reads. *)
Definition shows_fit (fit : json) : bool :=
  has_key (lit "fit_score") fit && has_key (lit "industry") fit
  && has_key (lit "is_good_fit") fit
  && has_key (lit "brief_company_overview") fit
  && has_key (lit "fit_reasoning") fit.

(** A fit record the result page can show: the five fields, with an
    industry that [st.metric] takes. *)
Definition page_shows_fit (fit : json) : bool :=
  shows_fit fit && metric_value (field (lit "industry") fit).

Definition is_header (x : widget) : bool :=
  match x with
  | st_header _ => true
  | _ => false
  end.

(** The exceptions of the statements of the report: a lookup in a
    record, and the building of a paragraph. *)
Definition report_error (e : exn) : bool :=
  match e with
  | TypeError => true
  | KeyError _ => true
  | AttributeError => true
  | ValueError _ => true
  | _ => false
  end.

(** The seven fields of the fit record the report reads. *)
Definition report_fit_fields (fit : json) : bool :=
  has_key (lit "brief_company_overview") fit && has_key (lit "industry") fit
  && has_key (lit "sector") fit && has_key (lit "company_size") fit
  && has_key (lit "fit_score") fit && has_key (lit "is_good_fit") fit
  && has_key (lit "fit_reasoning") fit.

(** The first two widgets of a submitted analysis. *)
Definition analysis_started (inp : inputs) : list widget :=
  [ st_header (lit "Analyze a New Company");
    st_spinner (lit "🔍 Step 1/2: Analyzing if " ++ company_name inp
                ++ lit " is a good fit...") ].

(** What the tab shows when the form is not submitted. *)
Definition idle_page (inp : inputs) : list widget :=
  st_header (lit "Analyze a New Company")
  :: (if analyze_button inp then
        match api_key inp with
        | [] => [st_error (lit "⚠️ Please enter your Claude API key in the sidebar")]
        | _ :: _ => [st_error (lit "⚠️ Please enter a company name")]
        end
      else []).

(** A request as the two stages send them: the fixed model, a key and a
    company name that are not empty, and the token limit of its stage. *)
Definition stage_request (req : request) : Prop :=
  req_model req = model_name
  /\ req_api_key req <> []
  /\ match req_prompt req with
     | FitPrompt _ _ _ company => req_max_tokens req = 2000 /\ company <> []
     | PainPrompt company _ _ _ => req_max_tokens req = 3000 /\ company <> []
     end.

(** The world once an entry is saved. *)
Definition saved (r : analysis_record) (w : world) : world :=
  {| analysis_history := analysis_history w ++ [r];
     provider_calls := provider_calls w;
     page := page w |}.

(** A field on which [len] works. *)
Definition sized (k : str) (v : json) : bool :=
  match subscript v k with
  | Ret x => match len x with Ret _ => true | Raise _ => false end
  | Raise _ => false
  end.

Definition size_of (v : json) : nat :=
  match len v with
  | Ret n => n
  | Raise _ => 0
  end.

(** An entry with everything the history tab reads. *)
Definition viewable (r : analysis_record) : bool :=
  has_key (lit "fit_score") (fit_data r) && has_key (lit "industry") (fit_data r)
  && has_key (lit "is_good_fit") (fit_data r)
  && match pain_data r with
     | Some pain =>
       sized (lit "potential_pain_points") pain
       && sized (lit "how_we_can_help") pain
       && has_key (lit "estimated_opportunity_value") pain
     | None => true
     end.

Section Widgets.
Context {R : PyRuntime}.

(** What an export block puts on the page: the download button, or the
    error of the report. *)
Definition export_widget (inp : inputs) (label company : str)
           (fit pain : json) (key : option str) (prefix : str) : widget :=
  match generate_pdf_report (now_report (time inp)) company fit pain with
  | Ret story =>
    st_download_button label story (pdf_file_name company (now_date (time inp)))
                       key
  | Raise e => st_error (prefix ++ exn_str e)
  end.

Definition expander_label (r : analysis_record) : str :=
  lit "📊 " ++ rec_company_name r ++ lit " - " ++ timestamp r.

(** What the history tab shows for the entry at position [idx]. *)
Definition analysis_entry (inp : inputs) (idx : nat) (r : analysis_record)
  : list widget :=
  [ st_expander (expander_label r);
    st_write (JStr (lit "**Fit Score:** "
                    ++ py_str (field (lit "fit_score") (fit_data r))
                    ++ lit "/100"));
    st_write (JStr (lit "**Industry:** "
                    ++ py_str (field (lit "industry") (fit_data r))));
    st_write (JStr (lit "**Good Fit:** "
                    ++ if truthy (field (lit "is_good_fit") (fit_data r))
                       then lit "Yes" else lit "No")) ]
  ++ match pain_data r with
     | Some pain =>
       [ st_write (JStr (lit "**Pain Points Identified:** "
                         ++ str_of_nat
                              (size_of (field (lit "potential_pain_points") pain))));
         st_write (JStr (lit "**Solutions Proposed:** "
                         ++ str_of_nat
                              (size_of (field (lit "how_we_can_help") pain))));
         st_write (JStr (lit "**Opportunity Value:** "
                         ++ py_str (field (lit "estimated_opportunity_value")
                                          pain))) ]
     | None => []
     end
  ++ [ export_widget inp (lit "📥 PDF") (rec_company_name r) (fit_data r)
                     (get_pain_data r)
                     (Some (lit "pdf_export_" ++ str_of_nat idx))
                     (lit "PDF Error: ") ].

(** What the history tab shows for a history. *)
Definition history_page (inp : inputs) (history : list analysis_record)
  : list widget :=
  st_header (lit "Analysis History")
  :: match history with
     | [] => [st_info (JStr (lit "No analyses yet. Analyze your first lead in the 'Analyze New Lead' tab!"))]
     | _ :: _ =>
       flat_map (fun ia => analysis_entry inp (fst ia) (snd ia))
                (history_view history)
     end.

End Widgets.

(** The characters a JSON value can start with. *)
Definition json_start (c : char) : bool :=
  ((c =? 34) || (c =? 123) || (c =? 91) || (c =? 110) || (c =? 116)
   || (c =? 102) || (c =? 78) || (c =? 73) || (c =? 45) || is_digit c)%N.

(** A text of white space only. *)
Definition blank (s : str) : bool := forallb isspace s.

(** The key given to a widget, if any. *)
Definition widget_keys (x : widget) : list str :=
  match x with
  | st_download_button _ _ _ (Some k) => [k]
  | _ => []
  end.

(** A reply with prose before the JSON. *)
Definition chatty_reply : str := lit "Here is the analysis: {}".


Definition is_expander (x : widget) : bool :=
  match x with
  | st_expander _ => true
  | _ => false
  end.

(** Code that opens no expander on the page. *)
Definition opens_none {A} (c : M A) : Prop :=
  forall w, filter is_expander (page (snd (c w)))
            = filter is_expander (page w).

End Further.
Export Further.

(** Further examples. *)
Module Example2.

(** A provider whose every call fails. *)
Definition unreachable_provider : provider :=
  fun _ _ => Raise (ProviderError (lit "Connection error."))%N.

(** A stage-1 reply with the given JSON text as [is_good_fit]. *)
Definition fit_reply_text (good : str) : str :=
  lit "{" ++ q "company_name" ++ lit ": " ++ q "Acme SaaS" ++ lit ", "
  ++ q "industry" ++ lit ": " ++ q "Software" ++ lit ", "
  ++ q "sector" ++ lit ": " ++ q "Technology" ++ lit ", "
  ++ q "company_size" ++ lit ": " ++ q "50-200" ++ lit ", "
  ++ q "is_good_fit" ++ lit ": " ++ good ++ lit ", "
  ++ q "fit_score" ++ lit ": 82, "
  ++ q "fit_reasoning" ++ lit ": " ++ q "Matches the target profile" ++ lit ", "
  ++ q "brief_company_overview" ++ lit ": " ++ q "Acme sells software"
  ++ lit "}".

(** The button pressed with a key but no company name. *)
Definition click_without_company : inputs :=
  {| api_key := lit "sk-test";
     sectors_input := lit "Technology";
     industries_input := lit "SaaS";
     our_services := lit "- Data Science Consulting";
     company_name := [];
     analyze_button := true;
     time := noon |}.

End Example2.
Export Example2.

(* ================================================================== *)
(** ** Strings *)
(* ================================================================== *)



Lemma startswith_app (a b p : str) :
  startswith a p = true -> startswith (a ++ b) p = true.
Proof.
  revert a; induction p as [|c p IH]; intros a H; [reflexivity|].
  destruct a as [|d a]; simpl in *; [discriminate|].
  apply andb_true_iff in H as [H1 H2].
  rewrite H1, (IH _ H2); reflexivity.
Qed.

(** [rstrip] only removes a suffix. *)
Lemma rstrip_prefix (s : str) : exists ws, s = rstrip s ++ ws.
Proof.
  induction s as [|c s [ws IH]]; [exists []; reflexivity|].
  simpl. destruct (rstrip s) as [|d r'] eqn:E.
  - destruct (isspace c).
    + exists (c :: s); reflexivity.
    + exists s; reflexivity.
  - exists ws. simpl in *. congruence.
Qed.

Lemma rstrip_head (c : char) (r : str) :
  isspace c = false -> exists r', rstrip (c :: r) = c :: r'.
Proof.
  intros H; simpl. destruct (rstrip r) as [|d r'].
  - rewrite H; eexists; reflexivity.
  - eexists; reflexivity.
Qed.

(** Trimming keeps a first character that is not white space, and
    introduces no prefix the text did not have. *)
Lemma strip_head (c : char) (r : str) :
  isspace c = false -> exists r', strip (c :: r) = c :: r'.
Proof.
  intros H; unfold strip; simpl; rewrite H. apply rstrip_head, H.
Qed.

Lemma strip_startswith (c : char) (r p : str) :
  isspace c = false ->
  startswith (strip (c :: r)) p = true -> startswith (c :: r) p = true.
Proof.
  intros H Hp. unfold strip in Hp. simpl lstrip in Hp. rewrite H in Hp.
  destruct (rstrip_prefix (c :: r)) as [ws E].
  rewrite E. apply startswith_app, Hp.
Qed.

(* ================================================================== *)
(** ** The string operations and the decoder on examples *)
(* ================================================================== *)

Example strip_example :
  strip (lit "  
{ }	 ") = lit "{ }".
Proof. vm_compute; reflexivity. Qed.

Example replace_all_occurrences :
  replace (lit "a``````b```") (lit "```") [] = lit "ab"
  /\ replace (lit "x````") (lit "```") [] = lit "x`"
  /\ replace (lit "a b  c") (lit " ") (lit "_") = lit "a_b__c".
Proof. repeat split; vm_compute; reflexivity. Qed.

Example stripped_lines_example :
  stripped_lines (lit "Technology
  Financial Services  

Retail") = [lit "Technology"; lit "Financial Services"; lit "Retail"].
Proof. vm_compute; reflexivity. Qed.

Example loads_scalars :
  json_loads (lit " [1, -20, 3.25, 1e2, -0.0, true, false, null, NaN, -Infinity] ")
  = Some (JList [JInt 1; JInt (-20); JFloat false 325 (-2); JFloat false 1 2;
                 JFloat true 0 (-1); JBool true; JBool false; JNull; JNaN;
                 JInf true]).
Proof. vm_compute; reflexivity. Qed.

Example loads_nested_object :
  json_loads (lit "{" ++ q "a" ++ lit ": {" ++ q "b" ++ lit ": [[], {}, ["
              ++ q "c" ++ lit "]]}, " ++ q "d" ++ lit ": 1, " ++ q "a"
              ++ lit ": 2}")
  = Some (JDict [(lit "a", JInt 2); (lit "d", JInt 1)]).
Proof. vm_compute; reflexivity. Qed.

Example loads_string_escapes :
  json_loads (q "tab\t e-acute \u00e9 face \ud83d\ude00 slash \/")
  = Some (JStr (lit "tab	 e-acute é face 😀 slash /")).
Proof. vm_compute; reflexivity. Qed.

Example loads_rejects :
  json_loads (lit "[1, 2,]") = None
  /\ json_loads (lit "01") = None
  /\ json_loads (lit "{'a': 1}") = None
  /\ json_loads (lit "{" ++ q "a" ++ lit ": 1} trailing") = None
  /\ json_loads (dquote :: lit "no end") = None
  /\ json_loads (q "raw
newline") = None
  /\ json_loads (lit "") = None.
Proof. repeat split; vm_compute; reflexivity. Qed.

Example truthy_examples :
  truthy (JStr (lit "false")) = true
  /\ truthy (JBool false) = false
  /\ truthy (JInt 0) = false
  /\ truthy (JFloat false 1 (-400)) = false
  /\ truthy (JFloat false 1 (-300)) = true
  /\ truthy (JDict []) = false
  /\ truthy JNull = false.
Proof. repeat split; vm_compute; reflexivity. Qed.

(* ================================================================== *)
(** ** The decoder refuses a text that starts with a backtick *)
(* ================================================================== *)

Lemma scan_once_backtick (fuel depth : nat) (r : str) :
  scan_once fuel depth (backtick :: r) = None.
Proof. destruct fuel; reflexivity. Qed.

Lemma json_loads_backtick (r : str) : json_loads (backtick :: r) = None.
Proof.
  unfold json_loads.
  change (skip_ws (backtick :: r)) with (backtick :: r).
  rewrite scan_once_backtick; reflexivity.
Qed.

(* ================================================================== *)
(** ** The two stages *)
(* ================================================================== *)

Section StageFacts.
Context {R : PyRuntime}.
Variable claude : provider.

(** A stage sends exactly one request and turns whatever happens in its
    [try] block into a result. *)
Lemma ask_spec (req : request) (w : world) :
  ask claude req w
  = (Ret (result_of (reply claude (length (provider_calls w)) req)),
     sent req w).
Proof.
  unfold ask, try_except, bind, messages_create, lift, ret, reply, sent.
  destruct (claude (length (provider_calls w)) req) as [content|e];
    simpl; [|reflexivity].
  destruct (first_text content) as [text|e]; simpl; [|reflexivity].
  destruct (parse_response text) as [data|e]; reflexivity.
Qed.

Lemma analyze_company_fit_spec (inp : inputs) (w : world) :
  analyze_company_fit claude (company_name inp) (target_sectors inp)
                      (target_industries inp) (our_services inp) (api_key inp) w
  = (Ret (result_of (reply claude (length (provider_calls w))
                           (fit_request inp))),
     sent (fit_request inp) w).
Proof. apply ask_spec. Qed.

Lemma generate_pain_point_analysis_spec (inp : inputs) (overview industry : json)
      (w : world) :
  generate_pain_point_analysis claude (company_name inp) overview industry
                               (our_services inp) (api_key inp) w
  = (Ret (result_of (reply claude (length (provider_calls w))
                           (pain_request inp overview industry))),
     sent (pain_request inp overview industry) w).
Proof. apply ask_spec. Qed.

End StageFacts.

(** C3.  Whatever the arguments, the session state and the provider's
    behaviour (a raised error, an empty message, a block without text, any
    text at all), each of the two stage functions returns: its outcome is
    never a raised exception, and the value returned is either
    [{success: True, data}], exactly when the reply was read and parsed, or
    [{success: False, error}] with the message of the exception caught. *)
Theorem C3_stages_return_structured_result
        {R : PyRuntime} (claude : provider)
        (company_name our_services api_key : str)
        (target_sectors target_industries : list str)
        (company_overview industry : json) (w : world) :
  (exists r w',
      analyze_company_fit claude company_name target_sectors target_industries
                          our_services api_key w = (Ret r, w')
      /\ ((exists data, r = Success data
                        /\ reply claude (length (provider_calls w))
                                 {| req_api_key := api_key;
                                    req_model := model_name;
                                    req_max_tokens := 2000;
                                    req_prompt :=
                                      FitPrompt target_sectors target_industries
                                                our_services company_name |}
                           = Ret data)
          \/ (exists e, r = Failure (exn_str e))))
  /\ (exists r w',
         generate_pain_point_analysis claude company_name company_overview
                                      industry our_services api_key w
         = (Ret r, w')
         /\ ((exists data, r = Success data
                           /\ reply claude (length (provider_calls w))
                                    {| req_api_key := api_key;
                                       req_model := model_name;
                                       req_max_tokens := 3000;
                                       req_prompt :=
                                         PainPrompt company_name industry
                                                    company_overview
                                                    our_services |}
                              = Ret data)
             \/ (exists e, r = Failure (exn_str e)))).
Proof.
  split.
  - unfold analyze_company_fit. rewrite ask_spec.
    eexists; eexists; split; [reflexivity|].
    destruct (reply _ _ _) as [data|e]; simpl.
    + left; exists data; split; reflexivity.
    + right; exists e; reflexivity.
  - unfold generate_pain_point_analysis. rewrite ask_spec.
    eexists; eexists; split; [reflexivity|].
    destruct (reply _ _ _) as [data|e]; simpl.
    + left; exists data; split; reflexivity.
    + right; exists e; reflexivity.
Qed.

(* ================================================================== *)
(** ** A bare fence *)
(* ================================================================== *)

Lemma backtick_not_space : isspace backtick = false.
Proof. reflexivity. Qed.

Lemma bare_fence_text (t : str) :
  startswith t (lit "```") = true ->
  startswith t (lit "```json") = false ->
  response_text t = strip t /\ exists r, strip t = backtick :: r.
Proof.
  intros H3 H7.
  destruct t as [|c r]; [discriminate|].
  assert (c = backtick) as ->.
  { change (lit "```") with [backtick; backtick; backtick] in H3.
    simpl in H3. apply andb_true_iff in H3 as [H _].
    apply N.eqb_eq, H. }
  split; [|apply strip_head, backtick_not_space].
  unfold response_text.
  destruct (startswith (strip (backtick :: r)) (lit "```json")) eqn:E;
    [|reflexivity].
  apply strip_startswith in E; [congruence | apply backtick_not_space].
Qed.

(** C9.  When the reply begins with three backticks that are not followed
    by [json], the parser strips no fence: the text handed to [json.loads]
    is the reply itself, trimmed of surrounding white space only, fence
    included.  The decoder refuses it, whatever is inside the fence, and
    both stages return [{success: False}]. *)
Theorem C9_bare_fence_is_parse_failure
        {R : PyRuntime} (claude : provider)
        (company_name our_services api_key : str)
        (target_sectors target_industries : list str)
        (company_overview industry : json) (w : world)
        (t : str) (more more' : list content_block) :
  startswith t (lit "```") = true ->
  startswith t (lit "```json") = false ->
  claude (length (provider_calls w))
         {| req_api_key := api_key; req_model := model_name;
            req_max_tokens := 2000;
            req_prompt := FitPrompt target_sectors target_industries
                                    our_services company_name |}
  = Ret (TextBlock t :: more) ->
  claude (length (provider_calls w))
         {| req_api_key := api_key; req_model := model_name;
            req_max_tokens := 3000;
            req_prompt := PainPrompt company_name industry company_overview
                                     our_services |}
  = Ret (TextBlock t :: more') ->
  response_text t = strip t
  /\ parse_response t = Raise (JSONDecodeError (strip t))
  /\ fst (analyze_company_fit claude company_name target_sectors
                              target_industries our_services api_key w)
     = Ret (Failure (exn_str (JSONDecodeError (strip t))))
  /\ fst (generate_pain_point_analysis claude company_name company_overview
                                       industry our_services api_key w)
     = Ret (Failure (exn_str (JSONDecodeError (strip t)))).
Proof.
  intros H3 H7 Hfit Hpain.
  destruct (bare_fence_text t H3 H7) as [Htext [r Hr]].
  assert (Hparse : parse_response t = Raise (JSONDecodeError (strip t))).
  { unfold parse_response. rewrite Htext, Hr, json_loads_backtick.
    reflexivity. }
  repeat split; try assumption.
  - unfold analyze_company_fit. rewrite ask_spec. unfold reply.
    rewrite Hfit. simpl. rewrite Hparse. reflexivity.
  - unfold generate_pain_point_analysis. rewrite ask_spec. unfold reply.
    rewrite Hpain. simpl. rewrite Hparse. reflexivity.
Qed.

(* ================================================================== *)
(** ** Code that only writes on the page *)
(* ================================================================== *)

Lemma same_session_refl (w : world) : same_session w w.
Proof. split; reflexivity. Qed.

Lemma same_session_trans (a b c : world) :
  same_session a b -> same_session b c -> same_session a c.
Proof. intros [H1 H2] [H3 H4]; split; congruence. Qed.

Lemma bind_ret {A B} (c : M A) (k : A -> M B) (w w1 : world) (a : A) :
  c w = (Ret a, w1) -> bind c k w = k a w1.
Proof. intros H; unfold bind; rewrite H; reflexivity. Qed.

Lemma bind_raise {A B} (c : M A) (k : A -> M B) (w w1 : world) (e : exn) :
  c w = (Raise e, w1) -> bind c k w = (Raise e, w1).
Proof. intros H; unfold bind; rewrite H; reflexivity. Qed.

Lemma bind_show {B} (x : widget) (k : unit -> M B) (w : world) :
  bind (show x) k w = k tt (shown [x] w).
Proof. reflexivity. Qed.

Lemma bind_history_append {B} (r : analysis_record) (k : unit -> M B)
      (w : world) :
  bind (history_append r) k w
  = k tt {| analysis_history := analysis_history w ++ [r];
            provider_calls := provider_calls w;
            page := page w |}.
Proof. reflexivity. Qed.

Lemma bind_lift_ret {A B} (a : A) (k : A -> M B) (w : world) :
  bind (lift (Ret a)) k w = k a w.
Proof. reflexivity. Qed.

Lemma quiet_ret {A} (a : A) : quiet (ret a).
Proof. intros w; apply same_session_refl. Qed.

Lemma quiet_lift {A} (c : outcome A) : quiet (lift c).
Proof. intros w; apply same_session_refl. Qed.

Lemma quiet_show (x : widget) : quiet (show x).
Proof. intros w; split; reflexivity. Qed.

Lemma quiet_get_history : quiet get_history.
Proof. intros w; apply same_session_refl. Qed.

Lemma quiet_bind {A B} (c : M A) (k : A -> M B) :
  quiet c -> (forall a, quiet (k a)) -> quiet (bind c k).
Proof.
  intros Hc Hk w. unfold bind. specialize (Hc w).
  destruct (c w) as [[a|e] w1]; simpl in *; [|exact Hc].
  eapply same_session_trans; [exact Hc | apply Hk].
Qed.

Lemma quiet_try {A} (body : M A) (handler : exn -> M A) :
  quiet body -> (forall e, quiet (handler e)) -> quiet (try_except body handler).
Proof.
  intros Hb Hh w. unfold try_except. specialize (Hb w).
  destruct (body w) as [[a|e] w1]; simpl in *; [exact Hb|].
  eapply same_session_trans; [exact Hb | apply Hh].
Qed.

Lemma quiet_for_M {A} (body : A -> M unit) (items : list A) :
  (forall x, quiet (body x)) -> quiet (for_M body items).
Proof.
  intros Hb; induction items as [|x items IH]; simpl.
  - apply quiet_ret.
  - apply quiet_bind; [apply Hb | intros _; exact IH].
Qed.

(** After quiet code has run, the session is as the first part left it. *)
Lemma bind_quiet_tail {A B} (c : M A) (k : A -> M B) (w : world) :
  (forall a, quiet (k a)) -> same_session (snd (c w)) (snd (bind c k w)).
Proof.
  intros Hk. unfold bind.
  destruct (c w) as [[a|e] w1]; simpl; [apply Hk | apply same_session_refl].
Qed.

Lemma quiet_metric (label : str) (value : json) : quiet (metric label value).
Proof.
  unfold metric. destruct (metric_value value);
    [apply quiet_show | apply quiet_lift].
Qed.

(** A value the widget takes is shown. *)
Lemma metric_shown (label : str) (value : json) :
  metric_value value = true -> metric label value = show (st_metric label value).
Proof. unfold metric. intros ->. reflexivity. Qed.

Ltac quiet_step :=
  first [ apply quiet_show | apply quiet_lift | apply quiet_ret
        | apply quiet_metric
        | apply quiet_get_history
        | apply quiet_bind; [|intros ?]
        | apply quiet_try; [|intros ?]
        | apply quiet_for_M; intros ? ].

Ltac quiet_all := repeat quiet_step.

Section QuietScript.
Context {R : PyRuntime}.
Variable claude : provider.

Lemma quiet_show_fit (fit : json) : quiet (show_fit fit).
Proof. unfold show_fit; quiet_all. Qed.

Lemma quiet_show_pain (pain : json) : quiet (show_pain pain).
Proof. unfold show_pain, show_pain_point, show_solution; quiet_all. Qed.

Lemma quiet_export_report (inp : inputs) (label company : str)
      (fit pain : json) (key : option str) (prefix : str) :
  quiet (export_report inp label company fit pain key prefix).
Proof. unfold export_report; quiet_all. Qed.

Lemma quiet_show_analysis (inp : inputs) (ia : nat * analysis_record) :
  quiet (show_analysis inp ia).
Proof.
  unfold show_analysis. quiet_all; try apply quiet_export_report.
  destruct (pain_data (snd ia)); quiet_all.
Qed.

Lemma quiet_history_tab (inp : inputs) : quiet (history_tab inp).
Proof.
  unfold history_tab.
  apply quiet_bind; [apply quiet_show|intros _].
  apply quiet_bind; [apply quiet_get_history|intros history].
  destruct history; [apply quiet_show|].
  apply quiet_for_M; intros ia. apply quiet_show_analysis.
Qed.

End QuietScript.

(* ================================================================== *)
(** ** What a run does to the session *)
(* ================================================================== *)

Section RunFacts.
Context {R : PyRuntime}.
Variable claude : provider.

(** What follows the second stage sends nothing, and saves the analysis
    exactly when the stage succeeded and its result could be shown. *)
Lemma after_pain_effect (inp : inputs) (fit : json) (r : stage_result)
      (w : world) :
  provider_calls (snd (after_pain inp fit r w)) = provider_calls w
  /\ analysis_history (snd (after_pain inp fit r w))
     = match r with
       | Success pain =>
         match fst (show_pain pain w) with
         | Ret _ => analysis_history w ++ [record_of inp fit pain]
         | Raise _ => analysis_history w
         end
       | Failure _ => analysis_history w
       end.
Proof.
  destruct r as [pain|error]; simpl.
  2:{ split; reflexivity. }
  pose proof (quiet_show_pain pain w) as [Hh Hc].
  destruct (show_pain pain w) as [[[]|e] w1] eqn:E; simpl in *.
  - erewrite bind_ret by exact E.
    rewrite !bind_history_append.
    match goal with
    | |- context [snd (?c ?w2)] =>
      assert (Hq : same_session w2 (snd (c w2)))
    end.
    { apply quiet_bind; [apply quiet_show|intros _].
      apply quiet_bind; [apply quiet_show|intros _].
      apply quiet_bind; [apply quiet_show|intros _].
      apply quiet_export_report. }
    destruct Hq as [Hh' Hc']. simpl in *.
    rewrite Hh', Hc', Hh, Hc. split; reflexivity.
  - erewrite bind_raise by exact E. simpl. split; assumption.
Qed.

(** A poor fit: nothing is sent and nothing is saved. *)
Lemma after_fit_poor (inp : inputs) (fit good : json) (w : world) :
  subscript fit (lit "is_good_fit") = Ret good ->
  truthy good = false ->
  same_session w (snd (after_fit claude inp (Success fit) w)).
Proof.
  intros Hgood Hfalse. simpl.
  pose proof (quiet_show_fit fit w) as Hq.
  destruct (show_fit fit w) as [[[]|e] w1] eqn:E; simpl in Hq.
  - erewrite bind_ret by exact E. rewrite Hgood, bind_lift_ret, Hfalse.
    eapply same_session_trans; [exact Hq|].
    apply quiet_bind; [apply quiet_show|intros _].
    apply quiet_bind; [apply quiet_show|intros _].
    apply quiet_bind; [apply quiet_show|intros _].
    apply quiet_export_report.
  - erewrite bind_raise by exact E. exact Hq.
Qed.

(** A failed first stage: the error is shown. *)
Lemma after_fit_failure (inp : inputs) (error : str) (w : world) :
  same_session w (snd (after_fit claude inp (Failure error) w)).
Proof. split; reflexivity. Qed.

(** Once the form is submitted, the tab sends the stage-1 request and
    goes on with its result. *)
Lemma analyze_tab_submitted (inp : inputs) (w : world) :
  submitted inp ->
  analyze_tab claude inp w
  = after_fit claude inp
      (result_of (reply claude (length (provider_calls w)) (fit_request inp)))
      (sent (fit_request inp)
         (shown [st_header (lit "Analyze a New Company");
                 st_spinner (lit "🔍 Step 1/2: Analyzing if "
                             ++ company_name inp ++ lit " is a good fit...")]
                w)).
Proof.
  intros (Hb & Hk & Hn). unfold analyze_tab.
  rewrite Hb.
  destruct (api_key inp) as [|k0 k] eqn:Ek; [congruence|].
  destruct (company_name inp) as [|c0 c] eqn:Ec; [congruence|].
  rewrite <- Ek, <- Ec.
  rewrite !bind_show.
  unfold bind at 1. rewrite analyze_company_fit_spec.
  unfold shown, sent; simpl. rewrite <- app_assoc. reflexivity.
Qed.

(** Without a submitted form the tab sends and saves nothing. *)
Lemma analyze_tab_idle (inp : inputs) (w : world) :
  ~ submitted inp -> same_session w (snd (analyze_tab claude inp w)).
Proof.
  intros Hn. unfold analyze_tab.
  destruct (analyze_button inp) eqn:Hb.
  - destruct (api_key inp) as [|k0 k] eqn:Ek.
    + split; reflexivity.
    + destruct (company_name inp) as [|c0 c] eqn:Ec.
      * split; reflexivity.
      * exfalso; apply Hn; repeat split; congruence.
  - split; reflexivity.
Qed.

(** The history tab changes nothing: a run leaves the session as the
    analysis tab left it. *)
Lemma run_session (inp : inputs) (w : world) :
  same_session (snd (analyze_tab claude inp (fresh_page w)))
               (run claude inp w).
Proof.
  unfold run, script. apply bind_quiet_tail.
  intros _; apply quiet_history_tab.
Qed.

End RunFacts.

(** C4.  In a run whose stage-1 result is a record with
    [is_good_fit = false], the only request sent to the provider is the
    stage-1 request: one call, and no stage-2 request. *)
Theorem C4_poor_fit_sends_one_request
        {R : PyRuntime} (claude : provider) (inp : inputs) (w : world)
        (fit : json) :
  submitted inp ->
  reply claude (length (provider_calls w)) (fit_request inp) = Ret fit ->
  subscript fit (lit "is_good_fit") = Ret (JBool false) ->
  provider_calls (run claude inp w) = provider_calls w ++ [fit_request inp].
Proof.
  intros Hsub Hfit Hgood.
  destruct (run_session claude inp w) as [_ Hc]. rewrite Hc.
  rewrite (analyze_tab_submitted claude (fresh_page w) Hsub).
  simpl provider_calls at 2. rewrite Hfit. simpl result_of.
  destruct (after_fit_poor claude inp fit
              (sent (fit_request inp)
                 (shown [st_header (lit "Analyze a New Company");
                         st_spinner (lit "🔍 Step 1/2: Analyzing if "
                                     ++ company_name inp
                                     ++ lit " is a good fit...")]
                        (fresh_page w)))
              Hgood eq_refl) as [_ Hc'].
  rewrite Hc'. reflexivity.
Qed.

Lemma C4_poor_fit_sends_one_request_witness :
  provider_calls (run (scripted (fit_reply "false") (pain_reply "high"))
                      (click "Acme SaaS") initial_world)
  = provider_calls initial_world ++ [fit_request (click "Acme SaaS")].
Proof.
  apply (@C4_poor_fit_sends_one_request ascii_runtime
           (scripted (fit_reply "false") (pain_reply "high"))
           (click "Acme SaaS") initial_world poor_fit).
  - repeat split; discriminate.
  - vm_compute. reflexivity.
  - vm_compute. reflexivity.
Defined.

(* ================================================================== *)
(** ** Records with the fields of the data model can be shown *)
(* ================================================================== *)

Lemma has_key_field (k : str) (v : json) :
  has_key k v = true -> subscript v k = Ret (field k v).
Proof.
  unfold has_key, field. destruct (subscript v k); [reflexivity|discriminate].
Qed.


Lemma list_field_field (ok : json -> bool) (k : str) (v : json) :
  list_field ok k v = true ->
  exists items, subscript v k = Ret (JList items) /\ forallb ok items = true.
Proof.
  unfold list_field. destruct (subscript v k) as [[]|]; try discriminate.
  intros H; eexists; split; [reflexivity|exact H].
Qed.

Lemma in_enumerate {A} (items : list A) (n i : nat) (x : A) :
  In (i, x) (enumerate n items) -> In x items.
Proof.
  revert n; induction items as [|y items IH]; intros n; simpl; [tauto|].
  intros [H|H]; [left; congruence | right; eapply IH, H].
Qed.







(** Splits a conjunction of field tests into its parts. *)
Ltac fields H :=
  repeat match type of H with
         | (_ && _) = true =>
           let H' := fresh "Hf" in apply andb_true_iff in H as [H H']
         end.


Section Shown.
Context {R : PyRuntime}.





End Shown.

(* ================================================================== *)
(** ** Which runs save an analysis *)
(* ================================================================== *)

Section Saving.
Context {R : PyRuntime}.
Variable claude : provider.


(** Whatever the first stage returned, what follows saves nothing or
    saves one entry, and then the fit was good. *)
Lemma after_fit_history (inp : inputs) (r : stage_result) (w : world) :
  analysis_history (snd (after_fit claude inp r w)) = analysis_history w
  \/ exists fit pain good,
      analysis_history (snd (after_fit claude inp r w))
      = analysis_history w ++ [record_of inp fit pain]
      /\ subscript fit (lit "is_good_fit") = Ret good
      /\ truthy good = true.
Proof.
  destruct r as [fit|error]; [|left; reflexivity].
  simpl after_fit.
  pose proof (quiet_show_fit fit w) as [Hh _].
  destruct (show_fit fit w) as [[[]|e] w1] eqn:E; simpl in Hh.
  2:{ erewrite bind_raise by exact E. left; exact Hh. }
  erewrite bind_ret by exact E.
  destruct (subscript fit (lit "is_good_fit")) as [good|e] eqn:Hgood.
  2:{ left; exact Hh. }
  rewrite bind_lift_ret.
  destruct (truthy good) eqn:Htrue.
  - rewrite bind_show.
    destruct (subscript fit (lit "brief_company_overview")) as [ov|e];
      [|left; exact Hh].
    rewrite bind_lift_ret.
    destruct (subscript fit (lit "industry")) as [ind|e]; [|left; exact Hh].
    rewrite bind_lift_ret.
    erewrite bind_ret by apply generate_pain_point_analysis_spec.
    match goal with
    | |- context [after_pain inp fit ?r ?w2] =>
      destruct (after_pain_effect inp fit r w2) as [_ Hsave];
        destruct r as [pain|error]
    end.
    + destruct (fst (show_pain pain _)).
      * right. exists fit, pain, good. rewrite Hsave. simpl.
        rewrite Hh. repeat split; assumption.
      * left. rewrite Hsave. simpl. exact Hh.
    + left. rewrite Hsave. simpl. exact Hh.
  - left.
    match goal with
    | |- analysis_history (snd (?c ?w2)) = _ =>
      assert (Hq : same_session w2 (snd (c w2)))
    end.
    { apply quiet_bind; [apply quiet_show|intros _].
      apply quiet_bind; [apply quiet_show|intros _].
      apply quiet_bind; [apply quiet_show|intros _].
      apply quiet_export_report. }
    destruct Hq as [Hq _]. rewrite Hq. exact Hh.
Qed.

Lemma submitted_dec (inp : inputs) : submitted inp \/ ~ submitted inp.
Proof.
  unfold submitted.
  destruct (analyze_button inp); [|right; intros (H & _); discriminate].
  destruct (api_key inp); [right; intros (_ & H & _); congruence|].
  destruct (company_name inp); [right; intros (_ & _ & H); congruence|].
  left; repeat split; discriminate.
Qed.

(** A run keeps the history, or adds one entry with a pain analysis and
    a fit that was judged good. *)
Lemma run_history (inp : inputs) (w : world) :
  analysis_history (run claude inp w) = analysis_history w
  \/ exists fit pain good,
      analysis_history (run claude inp w)
      = analysis_history w ++ [record_of inp fit pain]
      /\ subscript fit (lit "is_good_fit") = Ret good
      /\ truthy good = true.
Proof.
  destruct (run_session claude inp w) as [Hh _]. rewrite Hh.
  destruct (submitted_dec inp) as [Hsub|Hidle].
  - rewrite (analyze_tab_submitted claude (fresh_page w) Hsub).
    match goal with
    | |- context [after_fit claude inp ?r ?w1] =>
      destruct (after_fit_history inp r w1) as [H|H]
    end.
    + left. rewrite H. reflexivity.
    + right. exact H.
  - left. destruct (analyze_tab_idle claude (fresh_page w) Hidle) as [H _].
    exact H.
Qed.

End Saving.



(** C1.  A run that ends in partial success, on an empty history: the
    form is submitted, the first stage returns a FitAssessment with
    [is_good_fit = false], and the second stage is skipped.  The run
    sends its one request and returns, and the history is as empty as
    before: no entry is appended for this run. *)
Theorem C1_poor_fit_is_not_saved :
  submitted (click "Acme SaaS")
  /\ reply (scripted (fit_reply "false") (pain_reply "high")) 0
           (fit_request (click "Acme SaaS")) = Ret poor_fit
  /\ has_fit_fields poor_fit = true
  /\ subscript poor_fit (lit "is_good_fit") = Ret (JBool false)
  /\ fst (script (scripted (fit_reply "false") (pain_reply "high"))
                 (click "Acme SaaS") initial_world) = Ret tt
  /\ provider_calls
       (run (scripted (fit_reply "false") (pain_reply "high"))
            (click "Acme SaaS") initial_world)
     = [fit_request (click "Acme SaaS")]
  /\ analysis_history
       (run (scripted (fit_reply "false") (pain_reply "high"))
            (click "Acme SaaS") initial_world)
     = [].
Proof.
  split; [repeat split; discriminate|].
  repeat split; vm_compute; reflexivity.
Qed.

(* ================================================================== *)
(** ** The history *)
(* ================================================================== *)

(** C6.  In every state a session can reach, an entry of the history that
    holds a pain analysis holds a fit record whose [is_good_fit] field is
    there and counts as true in a condition: the test of line 450 held
    for it.  A boolean that passes this test is [true]; a number other
    than zero and a text that is not empty pass it as well. *)
Theorem C6_pain_analysis_only_with_good_fit
        {R : PyRuntime} (claude : provider) (w : world) (r : analysis_record) :
  reachable claude w ->
  In r (analysis_history w) ->
  pain_data r <> None ->
  exists good,
    subscript (fit_data r) (lit "is_good_fit") = Ret good
    /\ truthy good = true
    /\ (forall b, good = JBool b -> b = true).
Proof.
  intros Hreach. revert r.
  induction Hreach as [|inp w Hreach IH]; intros r Hin Hpain.
  - destruct Hin.
  - destruct (run_history claude inp w) as [H|(fit & pain & good & H & Hg & Ht)].
    + rewrite H in Hin. apply IH; assumption.
    + rewrite H in Hin. apply in_app_or in Hin as [Hin|[<-|[]]].
      * apply IH; assumption.
      * exists good. simpl. repeat split; try assumption.
        intros b ->. exact Ht.
Qed.

Lemma C6_pain_analysis_only_with_good_fit_witness :
  exists good,
    subscript good_fit (lit "is_good_fit") = Ret good
    /\ truthy good = true
    /\ (forall b, good = JBool b -> b = true).
Proof.
  apply (@C6_pain_analysis_only_with_good_fit ascii_runtime
           (scripted (fit_reply "true") (pain_reply "high"))
           (run (scripted (fit_reply "true") (pain_reply "high"))
                (click "Acme SaaS") initial_world)
           (record_of (click "Acme SaaS") good_fit (one_pain "high"))).
  - apply reach_run, reach_start.
  - vm_compute. left. reflexivity.
  - discriminate.
Defined.

(** C6, the claim as worded.  The provider answers the first stage with
    the text ["false"] for [is_good_fit].  A text that is not empty passes
    the test of line 450, so the second stage runs and the run saves an
    entry with a pain analysis whose fit record does not hold
    [is_good_fit = true]. *)
Lemma C6_pain_analysis_with_a_text_for_good_fit :
  exists w r,
    @reachable ascii_runtime
               (scripted (fit_reply_text (q "false")) (pain_reply "high")) w
    /\ In r (analysis_history w)
    /\ pain_data r <> None
    /\ subscript (fit_data r) (lit "is_good_fit") = Ret (JStr (lit "false"))
    /\ JStr (lit "false") <> JBool true.
Proof.
  exists (run (scripted (fit_reply_text (q "false")) (pain_reply "high"))
              (click "Acme SaaS") initial_world).
  exists (record_of (click "Acme SaaS") (parsed (fit_reply_text (q "false")))
                    (one_pain "high")).
  split; [apply reach_run, reach_start|].
  split; [vm_compute; left; reflexivity|].
  split; [discriminate|].
  split; [vm_compute; reflexivity|discriminate].
Qed.

Lemma C9_bare_fence_is_parse_failure_witness :
  json_loads (lit "{}") = Some (JDict [])
  /\ response_text bare_fenced = strip bare_fenced
  /\ parse_response bare_fenced = Raise (JSONDecodeError (strip bare_fenced))
  /\ fst (analyze_company_fit (scripted bare_fenced bare_fenced)
            (lit "Acme SaaS") [lit "Technology"] [lit "SaaS"]
            (lit "Consulting") (lit "sk-test") initial_world)
     = Ret (Failure (exn_str (JSONDecodeError (strip bare_fenced))))
  /\ fst (generate_pain_point_analysis (scripted bare_fenced bare_fenced)
            (lit "Acme SaaS") (JStr (lit "Acme sells software"))
            (JStr (lit "Software")) (lit "Consulting") (lit "sk-test")
            initial_world)
     = Ret (Failure (exn_str (JSONDecodeError (strip bare_fenced)))).
Proof.
  split; [vm_compute; reflexivity|].
  apply (@C9_bare_fence_is_parse_failure ascii_runtime
           (scripted bare_fenced bare_fenced)
           (lit "Acme SaaS") (lit "Consulting") (lit "sk-test")
           [lit "Technology"] [lit "SaaS"]
           (JStr (lit "Acme sells software")) (JStr (lit "Software"))
           initial_world bare_fenced [] []).
  - vm_compute; reflexivity.
  - vm_compute; reflexivity.
  - reflexivity.
  - reflexivity.
Defined.

(* ================================================================== *)
(** ** The story of a report *)
(* ================================================================== *)

Lemma str_field_str_of (k : str) (v : json) :
  str_field k v = true -> subscript v k = Ret (JStr (str_of (field k v))).
Proof.
  unfold str_field, field.
  destruct (subscript v k) as [[]|]; try discriminate. reflexivity.
Qed.

(** A record that has a key is a dict with an item: it counts as true. *)
Lemma has_key_truthy (k : str) (v : json) : has_key k v = true -> truthy v = true.
Proof.
  unfold has_key, subscript. destruct v; try discriminate.
  destruct d; [discriminate|reflexivity].
Qed.

Lemma for_each_blocks {A} (body : A -> outcome (list flowable))
      (block : A -> list flowable) (items : list A) :
  (forall x, In x items -> body x = Ret (block x)) ->
  for_each body items = Ret (flat_map block items).
Proof.
  induction items as [|x items IH]; intros Hb; simpl; [reflexivity|].
  rewrite (Hb x (or_introl eq_refl)). simpl.
  rewrite IH; [reflexivity|]. intros y Hy; apply Hb; right; exact Hy.
Qed.




(** Looks a field up with the fact that is at hand for it. *)
Ltac lookup_step :=
  match goal with
  | |- context [subscript ?v ?k] =>
    match goal with
    | H : subscript ?v' ?k' = Ret _ |- _ =>
      constr_eq v v'; constr_eq k k'; rewrite H
    | H : has_key ?k' ?v' = true |- _ =>
      constr_eq v v'; constr_eq k k'; rewrite (has_key_field k v H)
    | H : str_field ?k' ?v' = true |- _ =>
      constr_eq v v'; constr_eq k k'; rewrite (str_field_str_of k v H)
    end
  end; cbn [obind lower upper iterate].

Lemma subscript_field (k : str) (v x : json) :
  subscript v k = Ret x -> field k v = x.
Proof. unfold field. intros ->. reflexivity. Qed.

(** A paragraph whose text is accepted is built. *)
Lemma paragraph_accepted {R : PyRuntime} (text : json) (st : style) :
  accepted (Paragraph text st) = true ->
  paragraph text st = Ret (Paragraph text st).
Proof.
  unfold accepted, paragraph. destruct text; try discriminate.
  intros ->. reflexivity.
Qed.

(** A paragraph that is not built raises for its text. *)
Lemma paragraph_raises {R : PyRuntime} (text : json) (st : style) (e : exn) :
  paragraph text st = Raise e ->
  accepted (Paragraph text st) = false
  /\ (e = AttributeError \/ exists t, text = JStr t /\ e = ValueError t).
Proof.
  unfold accepted, paragraph. destruct text; try (intros [= <-]; auto).
  destruct (markup_ok s); [discriminate|].
  intros [= <-]. split; [reflexivity|]. right. eexists; split; reflexivity.
Qed.

Lemma paragraph_returns {R : PyRuntime} (text : json) (st : style)
      (f : flowable) :
  paragraph text st = Ret f ->
  f = Paragraph text st /\ accepted (Paragraph text st) = true.
Proof.
  unfold accepted, paragraph. destruct text; try discriminate.
  destruct (markup_ok s); [|discriminate].
  intros [= <-]. split; reflexivity.
Qed.

Lemma forallb_flat_map {A B} (p : B -> bool) (f : A -> list B) (l : list A) :
  forallb p (flat_map f l) = true ->
  forall x, In x l -> forallb p (f x) = true.
Proof.
  induction l as [|y l IH]; simpl; intros H x Hin; [destruct Hin|].
  rewrite forallb_app in H. apply andb_true_iff in H as [Hy Hl].
  destruct Hin as [<-|Hin]; [exact Hy | apply IH; assumption].
Qed.

(** Splits the acceptance of a block into that of its flowables. *)
Ltac accepted_parts H :=
  cbn [forallb] in H;
  repeat match type of H with
         | (_ && _) = true =>
           let H' := fresh "Ha" in apply andb_true_iff in H as [H' H]
         end.

(** Builds the next paragraph with the fact that is at hand for it. *)
Ltac paragraph_step :=
  match goal with
  | |- context [paragraph ?text ?st] =>
    match goal with
    | H : accepted (Paragraph ?text' ?st') = true |- _ =>
      constr_eq text text'; constr_eq st st';
      rewrite (paragraph_accepted text st H)
    end
  end; cbn [obind].

Ltac story_steps := repeat first [paragraph_step | lookup_step].

Section Story.
Context {R : PyRuntime}.

Lemma title_section_block (now company : str) :
  forallb accepted (title_block now company) = true ->
  title_section now company = Ret (title_block now company).
Proof.
  intros Ha. unfold title_block in Ha. accepted_parts Ha.
  unfold title_section. story_steps. reflexivity.
Qed.

Lemma footer_section_block :
  forallb accepted footer = true -> footer_section = Ret footer.
Proof.
  intros Ha. unfold footer in Ha. accepted_parts Ha.
  unfold footer_section. story_steps. reflexivity.
Qed.

Lemma fit_sections_block (fit : json) :
  report_fit_fields fit = true ->
  forallb accepted (fit_block fit) = true ->
  fit_sections fit = Ret (fit_block fit).
Proof.
  intros H Ha. unfold report_fit_fields in H. fields H.
  unfold fit_block in Ha. accepted_parts Ha.
  unfold fit_sections. story_steps. reflexivity.
Qed.


Lemma pain_point_entry_block (idx : nat) (pain : json) :
  is_pain_point pain = true ->
  forallb accepted (pain_point_block idx pain) = true ->
  pain_point_entry idx pain = Ret (pain_point_block idx pain).
Proof.
  intros H Ha. unfold is_pain_point in H. fields H.
  unfold pain_point_block, pain_point_title in Ha. accepted_parts Ha.
  unfold pain_point_entry. story_steps. reflexivity.
Qed.

Lemma solution_entry_block (idx : nat) (solution : json) :
  is_solution solution = true ->
  forallb accepted (solution_block idx solution) = true ->
  solution_entry idx solution = Ret (solution_block idx solution).
Proof.
  intros H Ha. unfold is_solution in H. fields H.
  unfold solution_block in Ha. accepted_parts Ha.
  unfold solution_entry. story_steps. reflexivity.
Qed.

Lemma talking_point_entry_block (point : json) :
  forallb accepted (talking_point_block point) = true ->
  talking_point_entry point = Ret (talking_point_block point).
Proof.
  intros Ha. unfold talking_point_block in Ha. accepted_parts Ha.
  unfold talking_point_entry. story_steps. reflexivity.
Qed.

Lemma next_step_entry_block (idx : nat) (step : json) :
  forallb accepted (next_step_block idx step) = true ->
  next_step_entry idx step = Ret (next_step_block idx step).
Proof.
  intros Ha. unfold next_step_block in Ha. accepted_parts Ha.
  unfold next_step_entry. story_steps. reflexivity.
Qed.







End Story.

Section Reports.
Context {R : PyRuntime}.

(** Everything under [if pain_data:], for a pain analysis with the fields
    of the data model whose texts are accepted. *)
Lemma pain_sections_story (pain : json) :
  has_pain_fields pain = true ->
  forallb accepted (pain_story pain) = true ->
  pain_sections pain = Ret (pain_story pain).
Proof.
  intros H Ha. unfold has_pain_fields in H. fields H.
  apply list_field_field in H as (pts & Hpts & Hall).
  apply list_field_field in Hf2 as (sols & Hsols & Hsall).
  destruct (subscript pain (lit "engagement_strategy")) as [strategy|] eqn:Hst;
    [|discriminate].
  unfold is_strategy in Hf1. fields Hf1.
  apply list_field_field in Hf3 as (points & Hpoints & _).
  apply list_field_field in Hf as (steps & Hsteps & _).
  unfold pain_story, strategy_block, pain_heading in *.
  rewrite (subscript_field _ _ Hpts), (subscript_field _ _ Hsols),
    (subscript_field _ _ Hst), (subscript_field _ _ Hpoints),
    (subscript_field _ _ Hsteps) in *.
  cbn [items_of] in *. cbv zeta in Ha.
  rewrite !forallb_app in Ha.
  apply andb_true_iff in Ha as [Hhead Ha].
  apply andb_true_iff in Ha as [Hentries Ha].
  apply andb_true_iff in Ha as [Hhelp Ha].
  apply andb_true_iff in Ha as [Hsolutions Ha].
  apply andb_true_iff in Ha as [Hstrategy Ha].
  apply andb_true_iff in Ha as [Htalking Ha].
  apply andb_true_iff in Ha as [Hangle Hnext].
  accepted_parts Hhead. accepted_parts Hhelp. accepted_parts Hstrategy.
  accepted_parts Hangle.
  unfold pain_sections, pain_point_entries, solution_sections.
  story_steps.
  rewrite (for_each_blocks (fun ip => pain_point_entry (fst ip) (snd ip))
                           (fun ip => pain_point_block (fst ip) (snd ip))).
  2:{ intros [i p] Hin. apply pain_point_entry_block.
      - rewrite forallb_forall in Hall. eapply Hall, in_enumerate, Hin.
      - apply (forallb_flat_map _ _ _ Hentries (i, p) Hin). }
  cbn [obind]. story_steps.
  rewrite (for_each_blocks (fun ip => solution_entry (fst ip) (snd ip))
                           (fun ip => solution_block (fst ip) (snd ip))).
  2:{ intros [i p] Hin. apply solution_entry_block.
      - rewrite forallb_forall in Hsall. eapply Hsall, in_enumerate, Hin.
      - apply (forallb_flat_map _ _ _ Hsolutions (i, p) Hin). }
  cbn [obind]. story_steps.
  rewrite (for_each_blocks talking_point_entry talking_point_block).
  2:{ intros x Hin. apply talking_point_entry_block.
      apply (forallb_flat_map _ _ _ Htalking x Hin). }
  cbn [obind]. story_steps.
  rewrite (for_each_blocks (fun ip => next_step_entry (fst ip) (snd ip))
                           (fun ip => next_step_block (fst ip) (snd ip))).
  2:{ intros [i p] Hin. apply next_step_entry_block.
      apply (forallb_flat_map _ _ _ Hnext (i, p) Hin). }
  cbn [obind]. rewrite <- ?app_assoc. reflexivity.
Qed.

(** The report of records with the fields the renderer reads and with
    texts it accepts is the story made of the blocks. *)
Lemma report_built (now company : str) (fit pain : json) :
  report_fit_fields fit = true ->
  (truthy pain = true -> has_pain_fields pain = true) ->
  forallb accepted (report_story now company fit pain) = true ->
  generate_pdf_report now company fit pain
  = Ret (report_story now company fit pain).
Proof.
  intros Hfit Hpain Ha. unfold report_story in *.
  rewrite !forallb_app in Ha.
  apply andb_true_iff in Ha as [Htitle Ha].
  apply andb_true_iff in Ha as [Hblock Ha].
  apply andb_true_iff in Ha as [Hstory Hfoot].
  unfold generate_pdf_report.
  rewrite (title_section_block now company Htitle). cbn [obind].
  rewrite (fit_sections_block fit Hfit Hblock). cbn [obind].
  rewrite (footer_section_block Hfoot).
  destruct (truthy pain).
  - rewrite (pain_sections_story pain (Hpain eq_refl) Hstory). reflexivity.
  - reflexivity.
Qed.

(** A pain analysis with its fields counts as true. *)
Lemma has_pain_fields_truthy (pain : json) :
  has_pain_fields pain = true -> truthy pain = true.
Proof.
  intros H. unfold has_pain_fields in H. fields H.
  apply list_field_field in H as (pts & Hpts & _).
  apply (has_key_truthy (lit "potential_pain_points")).
  unfold has_key. rewrite Hpts. reflexivity.
Qed.




End Reports.







(* ================================================================== *)
(** ** The fence markers and [replace] *)
(* ================================================================== *)

Lemma startswith_self_app (p s : str) : startswith (p ++ s) p = true.
Proof.
  induction p as [|c p IH]; simpl; [reflexivity|].
  rewrite N.eqb_refl, IH. reflexivity.
Qed.

Lemma startswith_prefix (s a b : str) :
  startswith s (a ++ b) = true -> startswith s a = true.
Proof.
  revert s; induction a as [|c a IH]; intros s H; [reflexivity|].
  destruct s as [|d s]; simpl in *; [discriminate|].
  apply andb_true_iff in H as [H1 H2]. rewrite H1, (IH _ H2). reflexivity.
Qed.

Lemma startswith_occurs (p s : str) : startswith s p = true -> occurs p s = true.
Proof.
  destruct s; simpl; intros H; [exact H | rewrite H; reflexivity].
Qed.

Lemma occurs_lstrip (p s : str) : occurs p (lstrip s) = true -> occurs p s = true.
Proof.
  induction s as [|c s IH]; simpl; [tauto|].
  destruct (isspace c); [|tauto].
  intros H. rewrite (IH H). apply orb_true_r.
Qed.

(** The characters of a match that are still to be passed over are passed
    over. *)
Lemma replace_scan_skip (old new pre s : str) :
  replace_scan old new (length pre) (pre ++ s) = replace_scan old new 0 s.
Proof.
  induction pre as [|c pre IH]; simpl; [reflexivity|exact IH].
Qed.

(** At an occurrence, the scan puts the new text and resumes after it. *)
Lemma replace_scan_match (c : char) (old new s : str) :
  replace_scan (c :: old) new 0 ((c :: old) ++ s)
  = new ++ replace_scan (c :: old) new 0 s.
Proof.
  change ((c :: old) ++ s) with (c :: (old ++ s)).
  cbn [replace_scan].
  change (c :: (old ++ s)) with ((c :: old) ++ s).
  rewrite startswith_self_app. cbn [length pred].
  rewrite replace_scan_skip. reflexivity.
Qed.

(** A text without occurrence is left as it is. *)
Lemma replace_scan_absent (old new s : str) :
  occurs old s = false -> replace_scan old new 0 s = s.
Proof.
  induction s as [|c s IH]; intros H; [reflexivity|].
  cbn [occurs] in H. apply orb_false_iff in H as [H1 H2].
  cbn [replace_scan]. rewrite H1, (IH H2). reflexivity.
Qed.

Lemma rstrip_app (a b : str) : rstrip b <> [] -> rstrip (a ++ b) = a ++ rstrip b.
Proof.
  intros Hb; induction a as [|c a IH]; [reflexivity|].
  simpl. rewrite IH. destruct (a ++ rstrip b) eqn:E; [|reflexivity].
  apply app_eq_nil in E as [_ E]. contradiction.
Qed.

Lemma startswith_length (s p : str) :
  startswith s p = true -> length p <= length s.
Proof.
  revert s; induction p as [|c p IH]; intros s H; simpl; [lia|].
  destruct s as [|d s]; simpl in *; [discriminate|].
  apply andb_true_iff in H as [_ H]. apply IH in H. lia.
Qed.

(** A prefix test looks at no more characters than the prefix has. *)
Lemma startswith_app_long (a b p : str) :
  length p <= length a -> startswith (a ++ b) p = startswith a p.
Proof.
  revert a; induction p as [|c p IH]; intros a H; [reflexivity|].
  destruct a as [|d a]; simpl in *; [lia|].
  rewrite IH by lia. reflexivity.
Qed.

Lemma lit_close : lit "```" = [backtick; backtick; backtick].
Proof. reflexivity. Qed.

Lemma lit_open : lit "```json" = lit "```" ++ lit "json".
Proof. reflexivity. Qed.

(** Closing a text that has no triple backtick creates no opening marker. *)
Lemma no_opening_marker (t : str) :
  occurs (lit "```") t = false -> occurs (lit "```json") (t ++ lit "```") = false.
Proof.
  induction t as [|c r IH]; intros H; [reflexivity|].
  cbn [occurs] in H. apply orb_false_iff in H as [H1 H2].
  change ((c :: r) ++ lit "```") with (c :: (r ++ lit "```")).
  cbn [occurs]. rewrite (IH H2), orb_false_r.
  change (c :: (r ++ lit "```")) with ((c :: r) ++ lit "```").
  destruct (startswith ((c :: r) ++ lit "```") (lit "```json")) eqn:E;
    [|reflexivity].
  exfalso.
  pose proof (startswith_length _ _ E) as Hlen.
  rewrite length_app in Hlen.
  change (length (lit "```json")) with 7 in Hlen.
  change (length (lit "```")) with 3 in Hlen.
  rewrite lit_open in E. apply startswith_prefix in E.
  rewrite startswith_app_long in E
    by (change (length (lit "```")) with 3; lia).
  congruence.
Qed.

(** Removing the closing marker of a text that has no triple backtick
    gives the text back, also when it ends in backticks. *)
Lemma remove_closing_marker (t : str) :
  occurs (lit "```") t = false ->
  replace_scan (lit "```") [] 0 (t ++ lit "```") = t.
Proof.
  induction t as [|c r IH]; intros H; [reflexivity|].
  cbn [occurs] in H. apply orb_false_iff in H as [H1 H2].
  destruct (startswith ((c :: r) ++ lit "```") (lit "```")) eqn:E.
  - destruct r as [|d [|e r']].
    + rewrite lit_close in E. simpl in E.
      apply andb_true_iff in E as [E _]. apply N.eqb_eq in E. subst c.
      reflexivity.
    + rewrite lit_close in E. simpl in E.
      apply andb_true_iff in E as [Ec E].
      apply andb_true_iff in E as [Ed _].
      apply N.eqb_eq in Ec, Ed. subst c d. reflexivity.
    + rewrite startswith_app_long in E
        by (change (length (lit "```")) with 3; simpl; lia).
      congruence.
  - change ((c :: r) ++ lit "```") with (c :: (r ++ lit "```")) in *.
    cbn [replace_scan]. rewrite E, (IH H2). reflexivity.
Qed.

Lemma strip_fenced (t : str) : strip (fenced t) = fenced t.
Proof.
  unfold strip, fenced.
  change (lstrip (lit "```json" ++ t ++ lit "```"))
    with (lit "```json" ++ t ++ lit "```").
  rewrite app_assoc. rewrite rstrip_app; [reflexivity|].
  discriminate.
Qed.

Lemma replace_open (s : str) :
  replace s (lit "```json") [] = replace_scan (lit "```json") [] 0 s.
Proof. reflexivity. Qed.

Lemma replace_close (s : str) :
  replace s (lit "```") [] = replace_scan (lit "```") [] 0 s.
Proof. reflexivity. Qed.

Lemma replace_scan_open (s : str) :
  replace_scan (lit "```json") [] 0 (lit "```json" ++ s)
  = replace_scan (lit "```json") [] 0 s.
Proof. exact (replace_scan_match backtick (lit "``json") [] s). Qed.

Section FenceRoundTrip.

Variable t : str.
Hypothesis no_backticks : occurs (lit "```") t = false.

(** The text handed to the decoder for a fenced reply is the reply. *)
Lemma response_text_fenced : response_text (fenced t) = strip t.
Proof.
  unfold response_text. rewrite strip_fenced.
  unfold fenced. rewrite startswith_self_app.
  rewrite replace_open, replace_close, replace_scan_open.
  rewrite (replace_scan_absent _ _ _ (no_opening_marker t no_backticks)).
  rewrite (remove_closing_marker t no_backticks). reflexivity.
Qed.

(** Without a fence the reply is only trimmed. *)
Lemma response_text_unfenced : response_text t = strip t.
Proof.
  unfold response_text.
  destruct (startswith (strip t) (lit "```json")) eqn:E; [|reflexivity].
  exfalso. unfold strip in E.
  destruct (rstrip_prefix (lstrip t)) as [ws Hws].
  apply (startswith_app _ ws) in E. rewrite <- Hws in E.
  rewrite lit_open in E. apply startswith_prefix in E.
  apply startswith_occurs, occurs_lstrip in E. congruence.
Qed.

(** A reply without a triple backtick parses to the same record with and
    without the fence. *)
Lemma fence_round_trip : parse_response (fenced t) = parse_response t.
Proof.
  unfold parse_response.
  rewrite response_text_fenced, response_text_unfenced. reflexivity.
Qed.

End FenceRoundTrip.

(** C2, at a reply the code does not treat as the claim says.  The reply
    [{"note": "use ``` for code"}] parses, and so does the same reply
    inside a JSON code fence, but to another record: the fence handling
    has taken the three backticks out of the string. *)
Theorem C2_fence_changes_record_with_backticks :
  parse_response backtick_note
  = Ret (JDict [(lit "note", JStr (lit "use ``` for code"))])
  /\ parse_response (fenced backtick_note)
     = Ret (JDict [(lit "note", JStr (lit "use  for code"))])
  /\ parse_response (fenced backtick_note) <> parse_response backtick_note.
Proof.
  split; [vm_compute; reflexivity|].
  split; [vm_compute; reflexivity|].
  vm_compute. discriminate.
Qed.

(** C8, at a reply the code does not treat as the claim says.  For the
    fenced reply whose enclosed text is [{"note": "use ``` for code"}],
    the text handed to the decoder is not the enclosed text: the three
    backticks inside the string are gone, and so they are from the parsed
    record. *)
Theorem C8_fence_handling_alters_interior :
  response_text backtick_note_fenced
  = lit "{" ++ q "note" ++ lit ": " ++ q "use  for code" ++ lit "}"
  /\ response_text backtick_note_fenced <> backtick_note
  /\ parse_response backtick_note_fenced
     = Ret (JDict [(lit "note", JStr (lit "use  for code"))])
  /\ json_loads backtick_note
     = Some (JDict [(lit "note", JStr (lit "use ``` for code"))]).
Proof.
  split; [vm_compute; reflexivity|].
  split; [vm_compute; discriminate|].
  split; vm_compute; reflexivity.
Qed.

(* ================================================================== *)
(** ** Further properties: the requests of a run *)
(* ================================================================== *)

Section Requests.
Context {R : PyRuntime}.
Variable claude : provider.

(** What follows the first stage sends nothing, or sends the stage-2
    request built from the overview and the industry of the fit record,
    which was then judged good. *)
Lemma after_fit_calls (inp : inputs) (r : stage_result) (w : world) :
  provider_calls (snd (after_fit claude inp r w)) = provider_calls w
  \/ exists fit good overview industry,
      r = Success fit
      /\ subscript fit (lit "is_good_fit") = Ret good
      /\ truthy good = true
      /\ subscript fit (lit "brief_company_overview") = Ret overview
      /\ subscript fit (lit "industry") = Ret industry
      /\ provider_calls (snd (after_fit claude inp r w))
         = provider_calls w ++ [pain_request inp overview industry].
Proof.
  destruct r as [fit|error]; [|left; reflexivity].
  simpl after_fit.
  pose proof (quiet_show_fit fit w) as [_ Hc].
  destruct (show_fit fit w) as [[[]|e] w1] eqn:E; simpl in Hc.
  2:{ erewrite bind_raise by exact E. left; exact Hc. }
  erewrite bind_ret by exact E.
  destruct (subscript fit (lit "is_good_fit")) as [good|e] eqn:Hgood.
  2:{ left; exact Hc. }
  rewrite bind_lift_ret.
  destruct (truthy good) eqn:Htrue.
  - rewrite bind_show.
    destruct (subscript fit (lit "brief_company_overview")) as [ov|e] eqn:Hov;
      [|left; exact Hc].
    rewrite bind_lift_ret.
    destruct (subscript fit (lit "industry")) as [ind|e] eqn:Hind;
      [|left; exact Hc].
    rewrite bind_lift_ret.
    erewrite bind_ret by apply generate_pain_point_analysis_spec.
    right. exists fit, good, ov, ind.
    repeat split; try assumption.
    match goal with
    | |- context [after_pain inp fit ?r ?w2] =>
      destruct (after_pain_effect inp fit r w2) as [Hsent _]
    end.
    rewrite Hsent. simpl. rewrite Hc. reflexivity.
  - left.
    match goal with
    | |- provider_calls (snd (?c ?w2)) = _ =>
      assert (Hq : same_session w2 (snd (c w2)))
    end.
    { apply quiet_bind; [apply quiet_show|intros _].
      apply quiet_bind; [apply quiet_show|intros _].
      apply quiet_bind; [apply quiet_show|intros _].
      apply quiet_export_report. }
    destruct Hq as [_ Hq]. rewrite Hq. exact Hc.
Qed.

End Requests.

(** The requests a run adds to those sent before. *)
Lemma run_calls {R : PyRuntime} (claude : provider) (inp : inputs) (w : world) :
  (~ submitted inp /\ provider_calls (run claude inp w) = provider_calls w)
  \/ (submitted inp
      /\ provider_calls (run claude inp w)
         = provider_calls w ++ [fit_request inp])
  \/ (submitted inp
      /\ exists fit good overview industry,
          reply claude (length (provider_calls w)) (fit_request inp) = Ret fit
          /\ subscript fit (lit "is_good_fit") = Ret good
          /\ truthy good = true
          /\ subscript fit (lit "brief_company_overview") = Ret overview
          /\ subscript fit (lit "industry") = Ret industry
          /\ provider_calls (run claude inp w)
             = provider_calls w
               ++ [fit_request inp; pain_request inp overview industry]).
Proof.
  destruct (run_session claude inp w) as [_ Hc]. rewrite Hc.
  destruct (submitted_dec inp) as [Hsub|Hidle].
  - right.
    rewrite (analyze_tab_submitted claude (fresh_page w) Hsub).
    change (provider_calls (fresh_page w)) with (provider_calls w).
    match goal with
    | |- context [after_fit claude inp ?r ?w1] =>
      destruct (after_fit_calls claude inp r w1)
        as [H|(fit & good & ov & ind & Hr & Hg & Ht & Hov & Hind & H)]
    end.
    + left. split; [exact Hsub|]. rewrite H. reflexivity.
    + right. split; [exact Hsub|]. exists fit, good, ov, ind.
      destruct (reply claude (length (provider_calls w)) (fit_request inp))
        as [fit'|e]; simpl in Hr; [|discriminate].
      injection Hr as ->.
      repeat split; try assumption.
      rewrite H. simpl. rewrite <- app_assoc. reflexivity.
  - left. split; [exact Hidle|].
    destruct (analyze_tab_idle claude (fresh_page w) Hidle) as [_ H].
    exact H.
Qed.

(** X1.  A run sends no request (the form was not submitted), or the
    stage-1 request alone, or the stage-1 request followed by the stage-2
    request; the second is built from the overview and the industry of the
    record the first stage returned, whose [is_good_fit] counted as true.
    What was sent before stays in place. *)
Theorem run_sends_at_most_two_requests
        {R : PyRuntime} (claude : provider) (inp : inputs) (w : world) :
  (~ submitted inp /\ provider_calls (run claude inp w) = provider_calls w)
  \/ (submitted inp
      /\ provider_calls (run claude inp w)
         = provider_calls w ++ [fit_request inp])
  \/ (submitted inp
      /\ exists fit good overview industry,
          reply claude (length (provider_calls w)) (fit_request inp) = Ret fit
          /\ subscript fit (lit "is_good_fit") = Ret good
          /\ truthy good = true
          /\ subscript fit (lit "brief_company_overview") = Ret overview
          /\ subscript fit (lit "industry") = Ret industry
          /\ provider_calls (run claude inp w)
             = provider_calls w
               ++ [fit_request inp; pain_request inp overview industry]).
Proof. apply run_calls. Qed.

(** X2.  Unless the button is pressed with a key and a company name, the
    run calls nobody and saves nothing; the tab shows its header and, when
    the button was pressed, one error: the missing key is reported before
    the missing company name. *)
Theorem idle_run_sends_nothing
        {R : PyRuntime} (claude : provider) (inp : inputs) (w : world) :
  ~ submitted inp ->
  analyze_tab claude inp w = (Ret tt, shown (idle_page inp) w)
  /\ provider_calls (run claude inp w) = provider_calls w
  /\ analysis_history (run claude inp w) = analysis_history w.
Proof.
  intros Hidle. split.
  - unfold analyze_tab, idle_page. rewrite bind_show.
    destruct (analyze_button inp) eqn:Hb.
    + destruct (api_key inp) as [|k0 k] eqn:Ek.
      * unfold show, shown; simpl. rewrite <- app_assoc. reflexivity.
      * destruct (company_name inp) as [|c0 c] eqn:Ec.
        -- unfold show, shown; simpl. rewrite <- app_assoc. reflexivity.
        -- exfalso; apply Hidle; repeat split; congruence.
    + reflexivity.
  - destruct (run_session claude inp w) as [Hh Hc].
    destruct (analyze_tab_idle claude (fresh_page w) Hidle) as [Hh' Hc'].
    simpl in Hh', Hc'. split; congruence.
Qed.

Lemma idle_run_sends_nothing_witness :
  analyze_tab (scripted (fit_reply "true") (pain_reply "high"))
              click_without_company initial_world
  = (Ret tt, shown (idle_page click_without_company) initial_world)
  /\ provider_calls (run (scripted (fit_reply "true") (pain_reply "high"))
                         click_without_company initial_world)
     = provider_calls initial_world
  /\ analysis_history (run (scripted (fit_reply "true") (pain_reply "high"))
                           click_without_company initial_world)
     = analysis_history initial_world.
Proof.
  apply (@idle_run_sends_nothing ascii_runtime).
  intros (_ & _ & H). apply H. reflexivity.
Defined.

(** X3.  When the first stage fails (the call raises, the message is
    empty or has no text, or the text does not parse), the run stops
    there: the tab shows the error with its message and returns, one
    request was sent, no second stage is tried and nothing is saved. *)
Theorem fit_failure_stops_the_run
        {R : PyRuntime} (claude : provider) (inp : inputs) (w : world)
        (e : exn) :
  submitted inp ->
  reply claude (length (provider_calls w)) (fit_request inp) = Raise e ->
  analyze_tab claude inp (fresh_page w)
  = (Ret tt,
     shown [st_error (lit "❌ Error in fit analysis: " ++ exn_str e)]
           (sent (fit_request inp)
                 (shown (analysis_started inp) (fresh_page w))))
  /\ provider_calls (run claude inp w) = provider_calls w ++ [fit_request inp]
  /\ analysis_history (run claude inp w) = analysis_history w.
Proof.
  intros Hsub Hfail.
  assert (Htab : analyze_tab claude inp (fresh_page w)
                 = (Ret tt,
                    shown [st_error (lit "❌ Error in fit analysis: "
                                     ++ exn_str e)]
                          (sent (fit_request inp)
                                (shown (analysis_started inp) (fresh_page w))))).
  { rewrite (analyze_tab_submitted claude (fresh_page w) Hsub).
    change (provider_calls (fresh_page w)) with (provider_calls w).
    rewrite Hfail. reflexivity. }
  split; [exact Htab|].
  destruct (run_session claude inp w) as [Hh Hc].
  rewrite Hh, Hc, Htab. split; reflexivity.
Qed.

Lemma fit_failure_stops_the_run_witness :
  analyze_tab unreachable_provider (click "Acme SaaS") (fresh_page initial_world)
  = (Ret tt,
     shown [st_error (lit "❌ Error in fit analysis: "
                      ++ exn_str (ProviderError (lit "Connection error.")))]
           (sent (fit_request (click "Acme SaaS"))
                 (shown (analysis_started (click "Acme SaaS"))
                        (fresh_page initial_world))))
  /\ provider_calls (run unreachable_provider (click "Acme SaaS") initial_world)
     = provider_calls initial_world ++ [fit_request (click "Acme SaaS")]
  /\ analysis_history (run unreachable_provider (click "Acme SaaS")
                           initial_world)
     = analysis_history initial_world.
Proof.
  apply (@fit_failure_stops_the_run ascii_runtime unreachable_provider
           (click "Acme SaaS") initial_world
           (ProviderError (lit "Connection error."))).
  - repeat split; discriminate.
  - reflexivity.
Defined.



(* ================================================================== *)
(** ** Further properties: a reply without the expected fields *)
(* ================================================================== *)

Lemma subscript_raises (v : json) (k : str) (e : exn) :
  subscript v k = Raise e -> e = TypeError \/ e = KeyError k.
Proof.
  unfold subscript. destruct v; try (intros [= <-]; left; reflexivity).
  destruct (dict_get k d); [discriminate|].
  intros [= <-]; right; reflexivity.
Qed.

Lemma subscript_has_key (v : json) (k : str) (x : json) :
  subscript v k = Ret x -> has_key k v = true.
Proof. unfold has_key. intros ->. reflexivity. Qed.

(** What a block wrote on the page is no header. *)
Ltac header_before Hin :=
  simpl in Hin;
  repeat (apply in_app_or in Hin as [Hin|Hin]);
  [exact Hin | simpl in Hin; destruct Hin as [Hin|[]]; discriminate Hin ..].

(** The page of the fit analysis cannot be written without its five
    fields and an industry the metric takes: the first statement that
    fails raises, and what was written before it is no header. *)
Lemma show_fit_raises {R : PyRuntime} (fit : json) (w : world) :
  page_shows_fit fit = false ->
  exists e w',
    show_fit fit w = (Raise e, w')
    /\ (e = TypeError \/ exists k, e = KeyError k)
    /\ forall title, In (st_header title) (page w')
                     -> In (st_header title) (page w).
Proof.
  intros H. unfold show_fit. rewrite bind_show.
  destruct (subscript fit (lit "fit_score")) as [x1|e] eqn:E1.
  2:{ exists e; eexists; split; [reflexivity|]. split.
      - destruct (subscript_raises _ _ E1); eauto.
      - intros title Hin. header_before Hin. }
  rewrite bind_lift_ret.
  change (metric (lit "Fit Score") (JStr (py_str x1 ++ lit "/100")))
    with (show (st_metric (lit "Fit Score") (JStr (py_str x1 ++ lit "/100")))).
  rewrite bind_show.
  destruct (subscript fit (lit "industry")) as [x2|e] eqn:E2.
  2:{ exists e; eexists; split; [reflexivity|]. split.
      - destruct (subscript_raises _ _ E2); eauto.
      - intros title Hin. header_before Hin. }
  rewrite bind_lift_ret.
  destruct (metric_value x2) eqn:Em.
  2:{ unfold metric at 1. rewrite Em.
      exists TypeError; eexists; split; [reflexivity|]. split.
      - left; reflexivity.
      - intros title Hin. header_before Hin. }
  rewrite (metric_shown (lit "Industry") x2 Em), bind_show.
  destruct (subscript fit (lit "is_good_fit")) as [x3|e] eqn:E3.
  2:{ exists e; eexists; split; [reflexivity|]. split.
      - destruct (subscript_raises _ _ E3); eauto.
      - intros title Hin. header_before Hin. }
  rewrite bind_lift_ret.
  match goal with
  | |- context [metric ?l (JStr ?s)] =>
    change (metric l (JStr s)) with (show (st_metric l (JStr s)))
  end.
  rewrite !bind_show.
  destruct (subscript fit (lit "brief_company_overview")) as [x4|e] eqn:E4.
  2:{ exists e; eexists; split; [reflexivity|]. split.
      - destruct (subscript_raises _ _ E4); eauto.
      - intros title Hin. header_before Hin. }
  rewrite bind_lift_ret, !bind_show.
  destruct (subscript fit (lit "fit_reasoning")) as [x5|e] eqn:E5.
  2:{ exists e; eexists; split; [reflexivity|]. split.
      - destruct (subscript_raises _ _ E5); eauto.
      - intros title Hin. header_before Hin. }
  exfalso. unfold page_shows_fit, shows_fit in H.
  rewrite (subscript_has_key _ _ E1), (subscript_has_key _ _ E2),
    (subscript_has_key _ _ E3), (subscript_has_key _ _ E4),
    (subscript_has_key _ _ E5), (subscript_field _ _ E2), Em in H.
  discriminate.
Qed.



(** X6.  Every request a session ever sends names the fixed model,
    carries a key and a company name that are not empty, and asks for at
    most 2000 tokens in the first stage and 3000 in the second. *)
Theorem session_requests_are_stage_requests
        {R : PyRuntime} (claude : provider) (w : world) (req : request) :
  reachable claude w ->
  In req (provider_calls w) ->
  stage_request req.
Proof.
  intros Hreach. revert req.
  induction Hreach as [|inp w Hreach IH]; intros req Hin; [destruct Hin|].
  assert (Hfit : submitted inp -> stage_request (fit_request inp)).
  { intros (_ & Hk & Hn). repeat split; assumption. }
  assert (Hpain : forall ov ind,
             submitted inp -> stage_request (pain_request inp ov ind)).
  { intros ov ind (_ & Hk & Hn). repeat split; assumption. }
  destruct (run_calls claude inp w)
    as [[_ H] | [[Hsub H] | [Hsub (fit & good & ov & ind & _ & _ & _ & _ & _ & H)]]];
    rewrite H in Hin.
  - apply IH, Hin.
  - apply in_app_or in Hin as [Hin|[<-|[]]]; [apply IH, Hin | apply Hfit, Hsub].
  - apply in_app_or in Hin as [Hin|[<-|[<-|[]]]];
      [apply IH, Hin | apply Hfit, Hsub | apply Hpain, Hsub].
Qed.

Lemma session_requests_are_stage_requests_witness :
  stage_request (fit_request (click "Acme SaaS")).
Proof.
  apply (@session_requests_are_stage_requests ascii_runtime
           (scripted (fit_reply "false") (pain_reply "high"))
           (run (scripted (fit_reply "false") (pain_reply "high"))
                (click "Acme SaaS") initial_world)).
  - apply reach_run, reach_start.
  - vm_compute. left. reflexivity.
Defined.

(* ================================================================== *)
(** ** Further properties: saving and the report *)
(* ================================================================== *)

Section ExportBlock.
Context {R : PyRuntime}.

(** An export block never raises: it adds one widget to the page. *)
Lemma export_report_effect (inp : inputs) (label company : str)
      (fit pain : json) (key : option str) (prefix : str) (w : world) :
  export_report inp label company fit pain key prefix w
  = (Ret tt,
     shown [export_widget inp label company fit pain key prefix] w).
Proof.
  unfold export_report, export_widget, try_except.
  destruct (generate_pdf_report (now_report (time inp)) company fit pain)
    as [story|e]; reflexivity.
Qed.

End ExportBlock.

(** X7.  Once the pain analysis is on the page, the entry is saved and
    the block returns, whether or not the report can be built: after the
    entry come the confirmation, the export heading and either the
    download button or the line "Error generating PDF: ..." with the
    message of the failure.  A report that fails takes nothing back. *)
Theorem saving_does_not_depend_on_the_report
        {R : PyRuntime} (inp : inputs) (fit pain : json) (w w1 : world) :
  show_pain pain w = (Ret tt, w1) ->
  after_pain inp fit (Success pain) w
  = (Ret tt,
     shown [ st_success (lit "💾 Analysis saved to history!");
             st_markdown (lit "---");
             st_subheader (lit "📄 Export Report");
             export_widget inp (lit "📥 Download PDF Report") (company_name inp)
                           fit pain None (lit "Error generating PDF: ") ]
           (saved (record_of inp fit pain) w1)).
Proof.
  intros E. simpl after_pain. erewrite bind_ret by exact E.
  rewrite bind_history_append, !bind_show, export_report_effect.
  unfold shown, saved; simpl. rewrite <- !app_assoc. reflexivity.
Qed.

Lemma saving_does_not_depend_on_the_report_witness :
  exists w1,
    after_pain (click "Acme SaaS") (JDict []) (Success (one_pain "high"))
               initial_world
    = (Ret tt,
       shown [ st_success (lit "💾 Analysis saved to history!");
               st_markdown (lit "---");
               st_subheader (lit "📄 Export Report");
               st_error (lit "Error generating PDF: "
                         ++ exn_str (KeyError (lit "brief_company_overview"))) ]
             (saved (record_of (click "Acme SaaS") (JDict [])
                               (one_pain "high")) w1)).
Proof.
  eexists.
  refine (@saving_does_not_depend_on_the_report ascii_runtime
            (click "Acme SaaS") (JDict []) (one_pain "high") initial_world _ _).
  vm_compute. reflexivity.
Defined.

(* ================================================================== *)
(** ** Further properties: the entries of the history *)
(* ================================================================== *)

Lemma iterate_sized (v : json) (items : list json) :
  iterate v = Ret items -> exists n, len v = Ret n.
Proof. destruct v; try discriminate; intros _; eexists; reflexivity. Qed.

Section Saved.
Context {R : PyRuntime}.
Variable claude : provider.

Lemma show_fit_shows (fit : json) (w w1 : world) :
  show_fit fit w = (Ret tt, w1) -> shows_fit fit = true.
Proof.
  intros E. destruct (page_shows_fit fit) eqn:H.
  - unfold page_shows_fit in H. apply andb_true_iff in H as [H _]. exact H.
  - destruct (show_fit_raises fit w H) as (e & w' & E' & _). congruence.
Qed.

(** A pain analysis that was shown has what the history tab reads. *)
Lemma show_pain_sized (pain : json) (w w1 : world) :
  show_pain pain w = (Ret tt, w1) ->
  sized (lit "potential_pain_points") pain = true
  /\ sized (lit "how_we_can_help") pain = true
  /\ has_key (lit "estimated_opportunity_value") pain = true.
Proof.
  unfold show_pain. rewrite !bind_show.
  destruct (subscript pain (lit "potential_pain_points")) as [pts|e] eqn:Hpts;
    [rewrite bind_lift_ret | discriminate].
  destruct (iterate pts) as [items|e] eqn:Hitems;
    [rewrite bind_lift_ret | discriminate].
  match goal with
  | |- context [bind (for_M ?b ?l) ?k ?w0] =>
    destruct (for_M b l w0) as [[[]|e] w2] eqn:E1;
      [erewrite (@bind_ret _ _ (for_M b l) k w0 w2 tt) by exact E1
      | erewrite (@bind_raise _ _ (for_M b l) k w0 w2 e) by exact E1;
        discriminate]
  end.
  rewrite bind_show.
  destruct (subscript pain (lit "how_we_can_help")) as [sols|e] eqn:Hsols;
    [rewrite bind_lift_ret | discriminate].
  destruct (iterate sols) as [sitems|e] eqn:Hsitems;
    [rewrite bind_lift_ret | discriminate].
  match goal with
  | |- context [bind (for_M ?b ?l) ?k ?w0] =>
    destruct (for_M b l w0) as [[[]|e] w3] eqn:E2;
      [erewrite (@bind_ret _ _ (for_M b l) k w0 w3 tt) by exact E2
      | erewrite (@bind_raise _ _ (for_M b l) k w0 w3 e) by exact E2;
        discriminate]
  end.
  rewrite bind_show.
  destruct (subscript pain (lit "engagement_strategy")) as [strategy|e];
    [rewrite bind_lift_ret | discriminate].
  destruct (subscript strategy (lit "primary_contact")) as [contact|e];
    [rewrite bind_lift_ret, bind_show | discriminate].
  destruct (subscript pain (lit "estimated_opportunity_value"))
    as [value|e] eqn:Hvalue; [|discriminate].
  intros _.
  destruct (iterate_sized _ Hitems) as [n Hn].
  destruct (iterate_sized _ Hsitems) as [m Hm].
  unfold sized, has_key. rewrite Hpts, Hn, Hsols, Hm, Hvalue.
  repeat split; reflexivity.
Qed.

(** What follows the first stage saves nothing, or saves one entry, which
    holds a pain analysis and everything the history tab reads. *)
Lemma after_fit_saves_viewable (inp : inputs) (r : stage_result) (w : world) :
  analysis_history (snd (after_fit claude inp r w)) = analysis_history w
  \/ exists entry,
      analysis_history (snd (after_fit claude inp r w))
      = analysis_history w ++ [entry]
      /\ pain_data entry <> None
      /\ viewable entry = true
      /\ timestamp entry = now_stamp (time inp)
      /\ rec_company_name entry = company_name inp.
Proof.
  destruct (after_fit_history claude inp r w)
    as [H|(fit & pain & good & H & Hg & Ht)]; [left; exact H|].
  right. exists (record_of inp fit pain).
  split; [exact H|]. split; [discriminate|].
  split; [|split; reflexivity].
  (* the entry was shown before it was saved *)
  destruct r as [fit'|error].
  2:{ simpl in H. exfalso. apply (f_equal (@length _)) in H.
      rewrite length_app in H. simpl in H. lia. }
  revert H. simpl after_fit.
  pose proof (quiet_show_fit fit' w) as [Hh _].
  destruct (show_fit fit' w) as [[[]|e] w1] eqn:E; simpl in Hh.
  2:{ erewrite bind_raise by exact E. simpl. rewrite Hh. intros H.
      exfalso. apply (f_equal (@length _)) in H.
      rewrite length_app in H. simpl in H. lia. }
  erewrite bind_ret by exact E.
  assert (Hstuck : forall h : list analysis_record,
             h = analysis_history w ->
             h = analysis_history w ++ [record_of inp fit pain] -> False).
  { intros h -> H. apply (f_equal (@length _)) in H.
    rewrite length_app in H. simpl in H. lia. }
  destruct (subscript fit' (lit "is_good_fit")) as [good'|e];
    [rewrite bind_lift_ret | intros H; exfalso; exact (Hstuck _ Hh H)].
  destruct (truthy good').
  - rewrite bind_show.
    destruct (subscript fit' (lit "brief_company_overview")) as [ov|e];
      [rewrite bind_lift_ret | intros H; exfalso; exact (Hstuck _ Hh H)].
    destruct (subscript fit' (lit "industry")) as [ind|e];
      [rewrite bind_lift_ret | intros H; exfalso; exact (Hstuck _ Hh H)].
    erewrite bind_ret by apply generate_pain_point_analysis_spec.
    match goal with
    | |- context [after_pain inp fit' ?r ?w2] =>
      destruct (after_pain_effect inp fit' r w2) as [_ Hsave];
        destruct r as [pain'|error]
    end.
    + rewrite Hsave. simpl analysis_history.
      match goal with
      | |- context [show_pain pain' ?w2] =>
        destruct (show_pain pain' w2) as [[[]|e] w3] eqn:E3
      end; simpl; rewrite Hh.
      * intros H. apply app_inj_tail in H as [_ H].
        injection H as -> ->.
        apply show_fit_shows in E. unfold shows_fit in E. fields E.
        destruct (show_pain_sized _ _ E3) as (S1 & S2 & S3).
        unfold viewable, record_of; simpl.
        rewrite E, Hf2, Hf1, S1, S2, S3. reflexivity.
      * intros H. exfalso. exact (Hstuck _ eq_refl H).
    + rewrite Hsave. simpl. rewrite Hh.
      intros H. exfalso. exact (Hstuck _ eq_refl H).
  - match goal with
    | |- analysis_history (snd (?c ?w2)) = _ -> _ =>
      assert (Hq : same_session w2 (snd (c w2)))
    end.
    { apply quiet_bind; [apply quiet_show|intros _].
      apply quiet_bind; [apply quiet_show|intros _].
      apply quiet_bind; [apply quiet_show|intros _].
      apply quiet_export_report. }
    destruct Hq as [Hq _]. rewrite Hq, Hh.
    intros H. exfalso. exact (Hstuck _ eq_refl H).
Qed.

(** A run keeps the history, or adds one such entry at its end. *)
Lemma run_saves_viewable (inp : inputs) (w : world) :
  analysis_history (run claude inp w) = analysis_history w
  \/ exists entry,
      analysis_history (run claude inp w) = analysis_history w ++ [entry]
      /\ pain_data entry <> None
      /\ viewable entry = true
      /\ timestamp entry = now_stamp (time inp)
      /\ rec_company_name entry = company_name inp.
Proof.
  destruct (run_session claude inp w) as [Hh _]. rewrite Hh.
  destruct (submitted_dec inp) as [Hsub|Hidle].
  - rewrite (analyze_tab_submitted claude (fresh_page w) Hsub).
    match goal with
    | |- context [after_fit claude inp ?r ?w1] =>
      destruct (after_fit_saves_viewable inp r w1) as [H|H]
    end.
    + left. rewrite H. reflexivity.
    + right. exact H.
  - left. destruct (analyze_tab_idle claude (fresh_page w) Hidle) as [H _].
    exact H.
Qed.

End Saved.

(** X8.  The history only grows at its end: a run leaves the entries
    that were there as they were and in place, and adds at most one, with
    the company name of the form and the time of the run. *)
Theorem history_is_append_only
        {R : PyRuntime} (claude : provider) (inp : inputs) (w : world) :
  exists added,
    analysis_history (run claude inp w) = analysis_history w ++ added
    /\ length added <= 1
    /\ forall entry, In entry added ->
         rec_company_name entry = company_name inp
         /\ timestamp entry = now_stamp (time inp).
Proof.
  destruct (run_saves_viewable claude inp w)
    as [H|(entry & H & _ & _ & Ht & Hn)].
  - exists []. rewrite app_nil_r. split; [exact H|].
    split; [simpl; lia | intros entry []].
  - exists [entry]. split; [exact H|]. split; [simpl; lia|].
    intros entry' [<-|[]]. split; assumption.
Qed.

Lemma reachable_viewable {R : PyRuntime} (claude : provider) (w : world)
      (r : analysis_record) :
  reachable claude w -> In r (analysis_history w) ->
  pain_data r <> None /\ viewable r = true.
Proof.
  intros Hreach. revert r.
  induction Hreach as [|inp w Hreach IH]; intros r Hin; [destruct Hin|].
  destruct (run_saves_viewable claude inp w)
    as [H|(entry & H & Hp & Hv & _)]; rewrite H in Hin.
  - apply IH, Hin.
  - apply in_app_or in Hin as [Hin|[<-|[]]]; [apply IH, Hin|].
    split; assumption.
Qed.

(** X9.  Every entry of the history of a session holds a pain analysis,
    together with the fields the history tab reads from it and from its
    fit record: the entries without pain analysis that the tab allows for
    never occur. *)
Theorem saved_entries_are_complete
        {R : PyRuntime} (claude : provider) (w : world) (r : analysis_record) :
  reachable claude w ->
  In r (analysis_history w) ->
  pain_data r <> None /\ viewable r = true.
Proof. apply reachable_viewable. Qed.

Lemma saved_entries_are_complete_witness :
  pain_data (record_of (click "Acme SaaS") good_fit (one_pain "high")) <> None
  /\ viewable (record_of (click "Acme SaaS") good_fit (one_pain "high")) = true.
Proof.
  apply (@saved_entries_are_complete ascii_runtime
           (scripted (fit_reply "true") (pain_reply "high"))
           (run (scripted (fit_reply "true") (pain_reply "high"))
                (click "Acme SaaS") initial_world)).
  - apply reach_run, reach_start.
  - vm_compute. left. reflexivity.
Defined.

(* ================================================================== *)
(** ** Further properties: the history tab *)
(* ================================================================== *)

Lemma shown_nil (w : world) : shown [] w = w.
Proof. destruct w; unfold shown; simpl; rewrite app_nil_r; reflexivity. Qed.

Lemma shown_app (a b : list widget) (w : world) :
  shown b (shown a w) = shown (a ++ b) w.
Proof. unfold shown; simpl; rewrite app_assoc; reflexivity. Qed.

(** A loop whose rounds only write on the page writes their widgets in
    order. *)
Lemma for_M_shown {A} (body : A -> M unit) (out : A -> list widget)
      (items : list A) (w : world) :
  (forall x w0, In x items -> body x w0 = (Ret tt, shown (out x) w0)) ->
  for_M body items w = (Ret tt, shown (flat_map out items) w).
Proof.
  revert w; induction items as [|x items IH]; intros w Hb; simpl.
  - rewrite shown_nil. reflexivity.
  - erewrite bind_ret by (apply Hb; left; reflexivity).
    rewrite IH by (intros y w0 Hy; apply Hb; right; exact Hy).
    rewrite shown_app. reflexivity.
Qed.

Lemma sized_field (k : str) (v : json) :
  sized k v = true ->
  subscript v k = Ret (field k v) /\ len (field k v) = Ret (size_of (field k v)).
Proof.
  unfold sized, field, size_of.
  destruct (subscript v k) as [x|]; [|discriminate].
  destruct (len x); [|discriminate]. split; reflexivity.
Qed.

Section HistoryTab.
Context {R : PyRuntime}.

Lemma show_analysis_entry (inp : inputs) (idx : nat) (r : analysis_record)
      (w : world) :
  viewable r = true ->
  show_analysis inp (idx, r) w = (Ret tt, shown (analysis_entry inp idx r) w).
Proof.
  intros H. unfold viewable in H. fields H.
  unfold show_analysis, analysis_entry, expander_label. cbn [fst snd].
  rewrite bind_show.
  rewrite (has_key_field _ _ H), bind_lift_ret, bind_show.
  rewrite (has_key_field _ _ Hf1), bind_lift_ret, bind_show.
  rewrite (has_key_field _ _ Hf0), bind_lift_ret, bind_show.
  destruct (pain_data r) as [pain|] eqn:Hp.
  - fields Hf.
    destruct (sized_field _ _ Hf) as [S1 L1].
    destruct (sized_field _ _ Hf3) as [S2 L2].
    unfold bind at 1.
    rewrite S1, bind_lift_ret, L1, bind_lift_ret, bind_show.
    rewrite S2, bind_lift_ret, L2, bind_lift_ret, bind_show.
    rewrite (has_key_field _ _ Hf2), bind_lift_ret.
    unfold show at 1. cbn beta iota.
    rewrite export_report_effect.
    unfold shown; simpl. rewrite <- !app_assoc. reflexivity.
  - unfold bind at 1, ret. cbn beta iota.
    rewrite export_report_effect.
    unfold shown; simpl. rewrite <- !app_assoc. reflexivity.
Qed.

Lemma history_tab_page (inp : inputs) (w : world) :
  forallb viewable (analysis_history w) = true ->
  history_tab inp w
  = (Ret tt, shown (history_page inp (analysis_history w)) w).
Proof.
  intros Hall. unfold history_tab, history_page.
  rewrite bind_show. unfold bind at 1, get_history. cbn beta iota.
  change (analysis_history (shown [st_header (lit "Analysis History")] w))
    with (analysis_history w).
  destruct (analysis_history w) as [|r0 h] eqn:Hh.
  - unfold show, shown; simpl. rewrite <- app_assoc. reflexivity.
  - rewrite (for_M_shown (show_analysis inp)
               (fun ia => analysis_entry inp (fst ia) (snd ia))).
    + rewrite shown_app. reflexivity.
    + intros [i r] w0 Hin. apply show_analysis_entry.
      rewrite forallb_forall in Hall. apply Hall.
      unfold history_view in Hin. apply in_enumerate in Hin.
      apply in_rev in Hin. exact Hin.
Qed.

Lemma analysis_entry_expander (inp : inputs) (idx : nat) (r : analysis_record) :
  filter is_expander (analysis_entry inp idx r)
  = [st_expander (expander_label r)].
Proof.
  unfold analysis_entry, export_widget. rewrite !filter_app.
  destruct (pain_data r);
    destruct (generate_pdf_report _ _ _ _); reflexivity.
Qed.

Lemma history_page_expanders (inp : inputs) (history : list analysis_record) :
  filter is_expander (history_page inp history)
  = map (fun r => st_expander (expander_label r)) (rev history).
Proof.
  unfold history_page, history_view. cbn [filter is_expander].
  destruct history as [|r0 h]; [reflexivity|].
  generalize (rev (r0 :: h)) as l. generalize 0 as n.
  intros n l; revert n; induction l as [|r l IH]; intros n; [reflexivity|].
  cbn [enumerate flat_map map fst snd].
  rewrite filter_app, analysis_entry_expander, IH. reflexivity.
Qed.

End HistoryTab.

(* ================================================================== *)
(** ** The order in which the history tab goes through the entries *)
(* ================================================================== *)

Lemma opens_none_ret {A} (a : A) : opens_none (ret a).
Proof. intros w; reflexivity. Qed.

Lemma opens_none_lift {A} (c : outcome A) : opens_none (lift c).
Proof. intros w; reflexivity. Qed.

Lemma opens_none_show (x : widget) :
  is_expander x = false -> opens_none (show x).
Proof.
  intros H w. simpl. rewrite filter_app. simpl. rewrite H.
  apply app_nil_r.
Qed.

Lemma opens_none_bind {A B} (c : M A) (k : A -> M B) :
  opens_none c -> (forall a, opens_none (k a)) -> opens_none (bind c k).
Proof.
  intros Hc Hk w. unfold bind. specialize (Hc w).
  destruct (c w) as [[a|e] w1]; simpl in *; [|exact Hc].
  rewrite Hk. exact Hc.
Qed.

Lemma opens_none_try {A} (body : M A) (handler : exn -> M A) :
  opens_none body -> (forall e, opens_none (handler e)) ->
  opens_none (try_except body handler).
Proof.
  intros Hb Hh w. unfold try_except. specialize (Hb w).
  destruct (body w) as [[a|e] w1]; simpl in *; [exact Hb|].
  rewrite Hh. exact Hb.
Qed.

Ltac opens_step :=
  first [ apply opens_none_show; reflexivity | apply opens_none_lift
        | apply opens_none_ret
        | apply opens_none_bind; [|intros ?]
        | apply opens_none_try; [|intros ?] ].

Lemma length_enumerate {A} (n : nat) (l : list A) :
  length (enumerate n l) = length l.
Proof.
  revert n; induction l as [|x l IH]; intros n; simpl;
    [reflexivity | rewrite IH; reflexivity].
Qed.

Lemma firstn_enumerate {A} (k n : nat) (l : list A) :
  map snd (firstn k (enumerate n l)) = firstn k l.
Proof.
  revert k n; induction l as [|x l IH]; intros [|k] n; simpl;
    try reflexivity.
  rewrite IH. reflexivity.
Qed.

Section Iteration.
Context {R : PyRuntime}.

(** One round of the loop of the history tab opens the expander of its
    entry and no other, whether it returns or raises. *)
Lemma show_analysis_opens (inp : inputs) (ia : nat * analysis_record)
      (w : world) :
  filter is_expander (page (snd (show_analysis inp ia w)))
  = filter is_expander (page w) ++ [st_expander (expander_label (snd ia))].
Proof.
  unfold show_analysis. rewrite bind_show. cbv beta.
  match goal with
  | |- context [snd (?c (shown ?x w))] =>
    assert (H : opens_none c)
  end.
  { repeat opens_step;
      try (destruct (pain_data (snd ia)); repeat opens_step);
      unfold export_report; repeat opens_step. }
  rewrite H. simpl. rewrite filter_app. reflexivity.
Qed.

(** The loop opens the expanders of the entries it is given, in their
    order, up to the round that raises, if one does. *)
Lemma for_M_show_analysis_opens (inp : inputs)
      (l : list (nat * analysis_record)) (w : world) :
  exists k,
    filter is_expander (page (snd (for_M (show_analysis inp) l w)))
    = filter is_expander (page w)
      ++ map (fun r => st_expander (expander_label r))
             (map snd (firstn k l))
    /\ (fst (for_M (show_analysis inp) l w) = Ret tt -> k = length l).
Proof.
  revert w; induction l as [|ia l IH]; intros w.
  - exists 0. simpl. rewrite app_nil_r. split; reflexivity.
  - cbn [for_M].
    pose proof (show_analysis_opens inp ia w) as Hone.
    destruct (show_analysis inp ia w) as [[[]|e] w1] eqn:E; simpl in Hone.
    + erewrite bind_ret by exact E.
      destruct (IH w1) as (k & Hk & Hall).
      exists (S k). rewrite Hk, Hone, <- app_assoc. split; [reflexivity|].
      intros Hret. simpl. rewrite (Hall Hret). reflexivity.
    + erewrite bind_raise by exact E.
      exists 1. simpl. split; [exact Hone|discriminate].
Qed.

(** The history tab opens the expanders of the entries of the history,
    newest first. *)
Lemma history_tab_opens (inp : inputs) (w : world) :
  exists k,
    filter is_expander (page (snd (history_tab inp w)))
    = filter is_expander (page w)
      ++ map (fun r => st_expander (expander_label r))
             (firstn k (rev (analysis_history w)))
    /\ (fst (history_tab inp w) = Ret tt -> k = length (analysis_history w)).
Proof.
  assert (Htab : history_tab inp w
                 = match analysis_history w with
                   | [] => show (st_info (JStr (lit "No analyses yet. Analyze your first lead in the 'Analyze New Lead' tab!")))
                   | _ :: _ =>
                     for_M (show_analysis inp)
                           (history_view (analysis_history w))
                   end (shown [st_header (lit "Analysis History")] w)).
  { unfold history_tab. rewrite bind_show.
    unfold bind at 1, get_history. cbn beta iota.
    change (analysis_history (shown [st_header (lit "Analysis History")] w))
      with (analysis_history w).
    destruct (analysis_history w); reflexivity. }
  rewrite Htab. clear Htab.
  destruct (analysis_history w) as [|r0 h] eqn:Hh.
  - exists 0. simpl. rewrite !filter_app. simpl. rewrite !app_nil_r.
    split; reflexivity.
  - destruct (for_M_show_analysis_opens inp (history_view (r0 :: h))
                (shown [st_header (lit "Analysis History")] w))
      as (k & Hk & Hall).
    exists k. rewrite Hk. unfold history_view.
    rewrite firstn_enumerate. simpl page. rewrite filter_app. simpl filter.
    rewrite app_nil_r. split; [reflexivity|].
    intros Hret. rewrite (Hall Hret). unfold history_view.
    rewrite length_enumerate, length_rev. reflexivity.
Qed.

(** Appending entries one after the other. *)
Lemma for_M_history_append (rs : list analysis_record) (w : world) :
  fst (for_M history_append rs w) = Ret tt
  /\ analysis_history (snd (for_M history_append rs w))
     = analysis_history w ++ rs
  /\ page (snd (for_M history_append rs w)) = page w.
Proof.
  revert w; induction rs as [|x rs IH]; intros w; simpl.
  - rewrite app_nil_r; repeat split; reflexivity.
  - rewrite bind_history_append.
    destruct (IH {| analysis_history := analysis_history w ++ [x];
                    provider_calls := provider_calls w;
                    page := page w |}) as (H1 & H2 & H3).
    split; [exact H1|]. rewrite H2, H3. simpl. rewrite <- app_assoc.
    split; reflexivity.
Qed.

End Iteration.

(** C7.  Whatever entries are appended to the history, in whatever
    state, the history tab then goes through the entries in the reverse
    of the order of appending, and after them through the older ones,
    newest first: the expanders it opens are those of the first [k]
    entries of that reversed sequence, where [k] counts all of them when
    the tab returns (a round that raises ends the script; an entry a run
    has saved raises in no round).  After [R1], [R2], [R3] on an empty
    history the tab shows [R3], [R2], [R1]. *)
Theorem C7_history_is_shown_newest_first
        {R : PyRuntime} (inp : inputs) (rs : list analysis_record) (w : world) :
  let w' := snd (for_M history_append rs w) in
  fst (for_M history_append rs w) = Ret tt
  /\ (exists k,
         filter is_expander (page (snd (history_tab inp w')))
         = filter is_expander (page w)
           ++ map (fun r => st_expander (expander_label r))
                  (firstn k (rev rs ++ rev (analysis_history w)))
         /\ (fst (history_tab inp w') = Ret tt
             -> k = length rs + length (analysis_history w)))
  /\ (forallb viewable (analysis_history w ++ rs) = true ->
      history_tab inp w'
      = (Ret tt, shown (history_page inp (analysis_history w ++ rs)) w')
      /\ filter is_expander (history_page inp (analysis_history w ++ rs))
         = map (fun r => st_expander (expander_label r))
               (rev rs ++ rev (analysis_history w)))
  /\ forall r1 r2 r3,
      let w3 := snd (for_M history_append [r1; r2; r3] initial_world) in
      fst (history_tab inp w3) = Ret tt ->
      filter is_expander (page (snd (history_tab inp w3)))
      = [ st_expander (expander_label r3);
          st_expander (expander_label r2);
          st_expander (expander_label r1) ].
Proof.
  intros w'.
  destruct (for_M_history_append rs w) as (Hret & Hh & Hp).
  fold w' in Hh, Hp.
  split; [exact Hret|]. split; [|split].
  - destruct (history_tab_opens inp w') as (k & Hk & Hall).
    exists k. rewrite Hk, Hh, Hp, rev_app_distr. split; [reflexivity|].
    intros Hr. rewrite (Hall Hr), Hh, length_app. lia.
  - intros Hall. rewrite <- Hh. split.
    + apply history_tab_page. rewrite Hh. exact Hall.
    + rewrite history_page_expanders, Hh, rev_app_distr. reflexivity.
  - intros r1 r2 r3 w3 Hr.
    destruct (history_tab_opens inp w3) as (k & Hk & Hall).
    rewrite Hk, (Hall Hr). reflexivity.
Qed.

(** Three analyses saved one after the other, and the tab that shows
    them. *)
Lemma C7_history_is_shown_newest_first_witness :
  filter is_expander
    (page (snd (history_tab (click "Acme SaaS")
                  (snd (for_M history_append
                          [ record_of (click "Acme SaaS") good_fit
                                      (one_pain "high");
                            record_of (click "Beta Corp") good_fit
                                      (one_pain "low");
                            record_of (click "Gamma Ltd") good_fit
                                      (one_pain "medium") ]
                          initial_world)))))
  = [ st_expander (lit "📊 Gamma Ltd - 2026-11-03 12:00:00");
      st_expander (lit "📊 Beta Corp - 2026-11-03 12:00:00");
      st_expander (lit "📊 Acme SaaS - 2026-11-03 12:00:00") ].
Proof.
  refine (proj2 (proj2 (proj2
            (@C7_history_is_shown_newest_first ascii_runtime
               (click "Acme SaaS") [] initial_world)))
            (record_of (click "Acme SaaS") good_fit (one_pain "high"))
            (record_of (click "Beta Corp") good_fit (one_pain "low"))
            (record_of (click "Gamma Ltd") good_fit (one_pain "medium"))
            _).
  vm_compute. reflexivity.
Defined.

(** X10.  In a session the history tab never fails: on the history of
    any state a session can reach it returns, having shown, for every
    entry, newest first, one expander "company - time", the three fit
    lines, the three pain analysis lines and the download button or the
    report error; for an empty history it shows the notice instead. *)
Theorem history_tab_shows_every_entry
        {R : PyRuntime} (claude : provider) (inp : inputs) (w w1 : world) :
  reachable claude w ->
  analysis_history w1 = analysis_history w ->
  history_tab inp w1
  = (Ret tt, shown (history_page inp (analysis_history w)) w1)
  /\ filter is_expander (history_page inp (analysis_history w))
     = map (fun r => st_expander (expander_label r)) (rev (analysis_history w)).
Proof.
  intros Hreach Hsame. split; [|apply history_page_expanders].
  rewrite <- Hsame. apply history_tab_page.
  rewrite Hsame. apply forallb_forall. intros r Hin.
  destruct (@reachable_viewable R claude w r Hreach Hin) as [_ H]. exact H.
Qed.

Lemma history_tab_shows_every_entry_witness :
  history_tab (click "Acme SaaS")
              (run (scripted (fit_reply "true") (pain_reply "high"))
                   (click "Acme SaaS") initial_world)
  = (Ret tt,
     shown (history_page (click "Acme SaaS")
              (analysis_history
                 (run (scripted (fit_reply "true") (pain_reply "high"))
                      (click "Acme SaaS") initial_world)))
           (run (scripted (fit_reply "true") (pain_reply "high"))
                (click "Acme SaaS") initial_world))
  /\ filter is_expander
            (history_page (click "Acme SaaS")
               (analysis_history
                  (run (scripted (fit_reply "true") (pain_reply "high"))
                       (click "Acme SaaS") initial_world)))
     = map (fun r => st_expander (expander_label r))
           (rev (analysis_history
                   (run (scripted (fit_reply "true") (pain_reply "high"))
                        (click "Acme SaaS") initial_world))).
Proof.
  apply (@history_tab_shows_every_entry ascii_runtime
           (scripted (fit_reply "true") (pain_reply "high"))).
  - apply reach_run, reach_start.
  - reflexivity.
Defined.

(** X11.  In a session a run can only fail in the analysis tab: when
    that tab returns, the script returns, for the history tab finds every
    entry complete. *)
Theorem script_fails_only_in_the_analysis
        {R : PyRuntime} (claude : provider) (inp : inputs) (w : world) :
  reachable claude w ->
  fst (script claude inp (fresh_page w))
  = fst (analyze_tab claude inp (fresh_page w)).
Proof.
  intros Hreach. unfold script.
  destruct (analyze_tab claude inp (fresh_page w)) as [[[]|e] w1] eqn:E.
  - erewrite bind_ret by exact E.
    destruct (run_session claude inp w) as [Hh _]. rewrite E in Hh.
    simpl in Hh.
    rewrite history_tab_page; [reflexivity|].
    rewrite <- Hh. apply forallb_forall. intros r Hin.
    destruct (@reachable_viewable R claude (run claude inp w) r
                (reach_run inp Hreach) Hin) as [_ H].
    exact H.
  - erewrite bind_raise by exact E. reflexivity.
Qed.

Lemma script_fails_only_in_the_analysis_witness :
  fst (script (scripted (fit_reply "true") (pain_reply "high"))
              (click "Acme SaaS")
              (fresh_page (run (scripted (fit_reply "true") (pain_reply "high"))
                               (click "Acme SaaS") initial_world)))
  = fst (analyze_tab (scripted (fit_reply "true") (pain_reply "high"))
                     (click "Acme SaaS")
                     (fresh_page
                        (run (scripted (fit_reply "true") (pain_reply "high"))
                             (click "Acme SaaS") initial_world))).
Proof.
  apply (@script_fails_only_in_the_analysis ascii_runtime).
  apply reach_run, reach_start.
Defined.

(* ================================================================== *)
(** ** Further properties: the layout of the report *)
(* ================================================================== *)

Lemma length_flat_map_const {A B} (f : A -> list B) (k : nat) (l : list A) :
  (forall x, length (f x) = k) -> length (flat_map f l) = k * length l.
Proof.
  intros H; induction l as [|x l IH]; simpl; [lia|].
  rewrite length_app, H, IH. lia.
Qed.

Section LayoutFacts.
Context {R : PyRuntime}.

Lemma paragraph_error (text : json) (st : style) (e : exn) :
  paragraph text st = Raise e -> report_error e = true.
Proof.
  intros P. apply paragraph_raises in P as [_ [->|(t & _ & ->)]]; reflexivity.
Qed.

Lemma subscript_error (v : json) (k : str) (e : exn) :
  subscript v k = Raise e -> report_error e = true.
Proof. intros E. apply subscript_raises in E as [->| ->]; reflexivity. Qed.

(** The title is built, or the first text that is refused raises. *)
Lemma title_section_cases (now company : str) :
  (title_section now company = Ret (title_block now company)
   /\ forallb accepted (title_block now company) = true)
  \/ (exists t, title_section now company = Raise (ValueError t)
                /\ forallb accepted (title_block now company) = false).
Proof.
  destruct (forallb accepted (title_block now company)) eqn:Ha.
  - left. split; [apply title_section_block, Ha|reflexivity].
  - right. unfold title_section, title_block, paragraph in *.
    cbn [forallb accepted] in Ha.
    destruct (markup_ok (lit "Lead Analysis Report"));
      [|eexists; split; reflexivity].
    destruct (markup_ok (lit "<b>" ++ company ++ lit "</b>"));
      [|eexists; split; reflexivity].
    destruct (markup_ok (lit "Generated: " ++ now));
      [discriminate|eexists; split; reflexivity].
Qed.

(** Runs the next statement of the fit part, which may raise. *)
Ltac raise_step :=
  match goal with
  | |- exists e, obind (paragraph ?t ?st) _ = Raise e /\ _ =>
    let P := fresh "P" in
    destruct (paragraph t st) as [?|?e] eqn:P; cbn [obind];
    [|eexists; split; [reflexivity|exact (paragraph_error _ _ P)]]
  | |- exists e, obind (subscript ?v ?k) _ = Raise e /\ _ =>
    let E := fresh "E" in
    destruct (subscript v k) as [?|?e] eqn:E; cbn [obind];
    [apply subscript_has_key in E
    |eexists; split; [reflexivity|exact (subscript_error _ _ E)]]
  end.

(** Without one of its seven fields the fit part raises. *)
Lemma fit_sections_raises (fit : json) :
  report_fit_fields fit = false ->
  exists e, fit_sections fit = Raise e /\ report_error e = true.
Proof.
  intros H. unfold fit_sections. repeat raise_step.
  exfalso. unfold report_fit_fields in H.
  repeat match goal with
         | E : has_key _ fit = true |- _ => rewrite E in H; clear E
         end.
  discriminate.
Qed.

End LayoutFacts.

(** X12.  For a fit record with the seven fields the report reads and a
    pain analysis with the fields of the data model, all with texts that
    the markup parser accepts, the report is the title block, the fit
    sections, the pain point entries, the solution entries, the
    engagement strategy with one bullet for every talking point and the
    numbered next steps, then the footer, in this order; nothing else is
    in it: 28 flowables, 4 more for every pain point, 5 for every
    solution, 1 for every talking point, 2 for every step. *)
Theorem report_layout
        {R : PyRuntime} (now company : str) (fit pain : json) :
  report_fit_fields fit = true ->
  has_pain_fields pain = true ->
  forallb accepted (report_story now company fit pain) = true ->
  generate_pdf_report now company fit pain
  = Ret (title_block now company ++ fit_block fit ++ pain_story pain ++ footer)
  /\ length (title_block now company ++ fit_block fit ++ pain_story pain
             ++ footer)
     = 28
       + 4 * length (items_of (field (lit "potential_pain_points") pain))
       + 5 * length (items_of (field (lit "how_we_can_help") pain))
       + length (items_of (field (lit "key_talking_points")
                                 (field (lit "engagement_strategy") pain)))
       + 2 * length (items_of (field (lit "recommended_next_steps") pain)).
Proof.
  intros Hfit Hpain Ha. split.
  - rewrite (report_built now company fit pain Hfit (fun _ => Hpain) Ha).
    unfold report_story.
    rewrite (has_pain_fields_truthy pain Hpain). reflexivity.
  - unfold pain_story, strategy_block.
    rewrite !length_app.
    rewrite (@length_flat_map_const _ _
               (fun ip => pain_point_block (fst ip) (snd ip)) 4)
      by (intros; reflexivity).
    rewrite (@length_flat_map_const _ _
               (fun ip => solution_block (fst ip) (snd ip)) 5)
      by (intros; reflexivity).
    rewrite (@length_flat_map_const _ _ talking_point_block 1)
      by (intros; reflexivity).
    rewrite (@length_flat_map_const _ _
               (fun ip => next_step_block (fst ip) (snd ip)) 2)
      by (intros; reflexivity).
    rewrite !length_enumerate. simpl length. lia.
Qed.

Lemma report_layout_witness :
  generate_pdf_report (now_report noon) (lit "Acme SaaS") good_fit
                      (one_pain "high")
  = Ret (title_block (now_report noon) (lit "Acme SaaS") ++ fit_block good_fit
         ++ pain_story (one_pain "high") ++ footer)
  /\ length (title_block (now_report noon) (lit "Acme SaaS")
             ++ fit_block good_fit ++ pain_story (one_pain "high") ++ footer)
     = 28
       + 4 * length (items_of (field (lit "potential_pain_points")
                                     (one_pain "high")))
       + 5 * length (items_of (field (lit "how_we_can_help") (one_pain "high")))
       + length (items_of (field (lit "key_talking_points")
                                 (field (lit "engagement_strategy")
                                        (one_pain "high"))))
       + 2 * length (items_of (field (lit "recommended_next_steps")
                                     (one_pain "high"))).
Proof.
  apply (@report_layout ascii_runtime).
  - vm_compute; reflexivity.
  - vm_compute; reflexivity.
  - vm_compute; reflexivity.
Defined.

(** X13.  A pain analysis that counts as false in a condition ([None],
    but also an empty object, an empty list, zero or an empty text) gives
    the report of a rejected lead, when the texts of that report are
    accepted by the markup parser: title block, fit sections and footer,
    with nothing read from the pain analysis. *)
Theorem empty_pain_analysis_is_left_out
        {R : PyRuntime} (now company : str) (fit pain : json) :
  report_fit_fields fit = true ->
  truthy pain = false ->
  forallb accepted (title_block now company ++ fit_block fit ++ footer) = true ->
  generate_pdf_report now company fit pain
  = Ret (title_block now company ++ fit_block fit ++ footer).
Proof.
  intros Hfit Hfalse Ha.
  assert (Hstory : report_story now company fit pain
                   = title_block now company ++ fit_block fit ++ footer).
  { unfold report_story. rewrite Hfalse. reflexivity. }
  rewrite <- Hstory in *. apply report_built; [exact Hfit| |exact Ha].
  rewrite Hfalse. discriminate.
Qed.

Lemma empty_pain_analysis_is_left_out_witness :
  generate_pdf_report (now_report noon) (lit "Acme SaaS") poor_fit (JDict [])
  = Ret (title_block (now_report noon) (lit "Acme SaaS") ++ fit_block poor_fit
         ++ footer).
Proof.
  apply (@empty_pain_analysis_is_left_out ascii_runtime).
  - vm_compute; reflexivity.
  - reflexivity.
  - vm_compute; reflexivity.
Defined.

(** X14.  The report needs seven fields of the fit record (overview,
    industry, sector, company size, fit score, good fit and reasoning;
    not the company name, which comes from the form): when one is
    missing, or the record is no object, no report is produced, whatever
    the pain analysis, and the export block shows the error in place of
    the download button.  The error is that of the first statement that
    fails: the [ValueError] of a title line whose text the markup parser
    refuses, since the title is built before the fit record is read;
    otherwise a [KeyError] or [TypeError] of a lookup, or the
    [AttributeError] or [ValueError] of a paragraph of the fit part. *)
Theorem report_needs_the_fit_fields
        {R : PyRuntime} (inp : inputs) (label company : str) (fit pain : json)
        (key : option str) (prefix : str) (w : world) :
  report_fit_fields fit = false ->
  exists e,
    generate_pdf_report (now_report (time inp)) company fit pain = Raise e
    /\ report_error e = true
    /\ (forallb accepted (title_block (now_report (time inp)) company) = false
        -> exists t, e = ValueError t)
    /\ export_report inp label company fit pain key prefix w
       = (Ret tt, shown [st_error (prefix ++ exn_str e)] w).
Proof.
  intros H.
  assert (Hgen : exists e,
             generate_pdf_report (now_report (time inp)) company fit pain
             = Raise e
             /\ report_error e = true
             /\ (forallb accepted (title_block (now_report (time inp)) company)
                 = false -> exists t, e = ValueError t)).
  { unfold generate_pdf_report.
    destruct (title_section_cases (now_report (time inp)) company)
      as [[-> Ha]|(t & -> & Ha)]; cbn [obind].
    - destruct (fit_sections_raises fit H) as (e & -> & Hkind).
      exists e. repeat split; [exact Hkind|]. rewrite Ha. discriminate.
    - exists (ValueError t). repeat split. intros _. eexists; reflexivity. }
  destruct Hgen as (e & Hgen & Hkind & Htitle).
  exists e. repeat split; try assumption.
  rewrite export_report_effect. unfold export_widget. rewrite Hgen.
  reflexivity.
Qed.

Lemma report_needs_the_fit_fields_witness :
  exists e,
    generate_pdf_report (now_report (time (click "Acme SaaS"))) (lit "Acme SaaS")
                        (JDict [(lit "industry", JStr (lit "Software"))])
                        JNull = Raise e
    /\ report_error e = true
    /\ (forallb accepted (title_block (now_report (time (click "Acme SaaS")))
                                      (lit "Acme SaaS")) = false
        -> exists t, e = ValueError t)
    /\ export_report (click "Acme SaaS") (lit "📥 PDF") (lit "Acme SaaS")
                     (JDict [(lit "industry", JStr (lit "Software"))]) JNull
                     None (lit "PDF Error: ") initial_world
       = (Ret tt,
          shown [st_error (lit "PDF Error: " ++ exn_str e)] initial_world).
Proof.
  apply (@report_needs_the_fit_fields ascii_runtime).
  vm_compute; reflexivity.
Defined.

(* ================================================================== *)
(** ** Further properties: white space and prose around the reply *)
(* ================================================================== *)

Lemma space_not_backtick (c : char) : isspace c = true -> (c =? backtick)%N = false.
Proof.
  intros H. destruct (N.eqb_spec c backtick) as [->|]; [discriminate|reflexivity].
Qed.

Lemma lstrip_blank (ws t : str) : blank ws = true -> lstrip (ws ++ t) = lstrip t.
Proof.
  unfold blank. induction ws as [|c ws IH]; intros H; [reflexivity|].
  simpl in *. apply andb_true_iff in H as [Hc H]. rewrite Hc. apply IH, H.
Qed.

Lemma rstrip_blank (t ws : str) : blank ws = true -> rstrip (t ++ ws) = rstrip t.
Proof.
  unfold blank. intros H. induction t as [|c t IH].
  - simpl. induction ws as [|d ws IHw]; [reflexivity|].
    simpl in *. apply andb_true_iff in H as [Hd H].
    rewrite (IHw H), Hd. reflexivity.
  - simpl. rewrite IH. reflexivity.
Qed.

Lemma lstrip_app (t b : str) :
  lstrip (t ++ b) = match lstrip t with [] => lstrip b | u => u ++ b end.
Proof.
  induction t as [|c t IH]; simpl.
  - destruct (lstrip b); reflexivity.
  - destruct (isspace c); [exact IH|reflexivity].
Qed.

(** Trimming does not see white space added around a text. *)
Lemma strip_blank (ws1 t ws2 : str) :
  blank ws1 = true -> blank ws2 = true -> strip (ws1 ++ t ++ ws2) = strip t.
Proof.
  intros H1 H2. unfold strip. rewrite (lstrip_blank _ _ H1), lstrip_app.
  destruct (lstrip t) as [|c u] eqn:E.
  - pose proof (lstrip_blank ws2 [] H2) as Hb. rewrite app_nil_r in Hb.
    rewrite Hb. reflexivity.
  - apply rstrip_blank, H2.
Qed.

Lemma response_text_strip (x y : str) :
  strip x = strip y -> response_text x = response_text y.
Proof. unfold response_text. intros ->. reflexivity. Qed.

Lemma startswith_close_space (c : char) (s : str) :
  isspace c = true -> startswith (c :: s) (lit "```") = false.
Proof.
  intros H. rewrite lit_close. simpl. rewrite (space_not_backtick _ H).
  reflexivity.
Qed.

Lemma occurs_blank_l (ws t : str) :
  blank ws = true -> occurs (lit "```") (ws ++ t) = occurs (lit "```") t.
Proof.
  unfold blank. induction ws as [|c ws IH]; intros H; [reflexivity|].
  simpl in H. apply andb_true_iff in H as [Hc H].
  change ((c :: ws) ++ t) with (c :: (ws ++ t)). cbn [occurs].
  rewrite (startswith_close_space _ _ Hc), (IH H). reflexivity.
Qed.

Lemma occurs_blank_r (t ws : str) :
  blank ws = true -> occurs (lit "```") t = false ->
  occurs (lit "```") (t ++ ws) = false.
Proof.
  intros Hws. induction t as [|c r IH]; intros H.
  - pose proof (occurs_blank_l ws [] Hws) as Hb. rewrite app_nil_r in Hb.
    simpl. rewrite Hb. reflexivity.
  - cbn [occurs] in H. apply orb_false_iff in H as [H1 H2].
    change ((c :: r) ++ ws) with (c :: (r ++ ws)). cbn [occurs].
    rewrite (IH H2), orb_false_r.
    change (c :: (r ++ ws)) with ((c :: r) ++ ws).
    destruct r as [|d [|e r']].
    + destruct ws as [|s1 ws']; [exact H1|].
      unfold blank in Hws. simpl in Hws.
      apply andb_true_iff in Hws as [Hs1 _].
      rewrite lit_close. simpl. rewrite (space_not_backtick _ Hs1).
      rewrite andb_false_r. reflexivity.
    + destruct ws as [|s1 ws']; [exact H1|].
      unfold blank in Hws. simpl in Hws.
      apply andb_true_iff in Hws as [Hs1 _].
      rewrite lit_close. simpl. rewrite (space_not_backtick _ Hs1).
      rewrite !andb_false_r. reflexivity.
    + rewrite startswith_app_long
        by (change (length (lit "```")) with 3; simpl; lia).
      exact H1.
Qed.

(** X15.  White space around the reply, around the fence and between the
    fence and the JSON makes no difference: for a text without a triple
    backtick, the bare text, the text with white space around it, and the
    text inside a JSON code fence with white space (such as the usual new
    lines) inside and outside the fence all parse to the same result. *)
Theorem white_space_and_fence_do_not_matter
        (t ws0 ws1 ws2 ws3 : str) :
  occurs (lit "```") t = false ->
  blank ws0 = true -> blank ws1 = true ->
  blank ws2 = true -> blank ws3 = true ->
  parse_response (ws0 ++ t ++ ws3) = parse_response t
  /\ parse_response (ws0 ++ fenced (ws1 ++ t ++ ws2) ++ ws3) = parse_response t.
Proof.
  intros Ht H0 H1 H2 H3.
  assert (Hin : occurs (lit "```") (ws1 ++ t ++ ws2) = false).
  { rewrite (occurs_blank_l _ _ H1). apply occurs_blank_r; assumption. }
  assert (E1 : strip (ws0 ++ t ++ ws3) = strip t)
    by (apply strip_blank; assumption).
  assert (E2 : strip (ws0 ++ fenced (ws1 ++ t ++ ws2) ++ ws3)
               = strip (fenced (ws1 ++ t ++ ws2)))
    by (apply strip_blank; assumption).
  assert (E3 : strip (ws1 ++ t ++ ws2) = strip t)
    by (apply strip_blank; assumption).
  unfold parse_response. split.
  - rewrite (@response_text_strip _ _ E1). reflexivity.
  - rewrite (@response_text_strip _ _ E2).
    rewrite (@response_text_fenced _ Hin), (@response_text_unfenced t Ht), E3.
    reflexivity.
Qed.

Lemma white_space_and_fence_do_not_matter_witness :
  parse_response (lit " " ++ fit_reply "true" ++ lit "
") = parse_response (fit_reply "true")
  /\ parse_response (lit " " ++ fenced (lit "
" ++ fit_reply "true" ++ lit "
") ++ lit "
") = parse_response (fit_reply "true").
Proof.
  apply white_space_and_fence_do_not_matter; vm_compute; reflexivity.
Defined.

Lemma ws_is_space (c : char) : is_ws c = true -> isspace c = true.
Proof.
  unfold is_ws. intros H.
  repeat (apply orb_true_iff in H as [H|H]);
    apply N.eqb_eq in H; subst; reflexivity.
Qed.

Lemma lstrip_head (t : str) (c : char) (r : str) :
  lstrip t = c :: r -> isspace c = false.
Proof.
  induction t as [|d t IH]; [discriminate|]. simpl.
  destruct (isspace d) eqn:E; [exact IH|]. intros [= <- _]. exact E.
Qed.

(** What is left after trimming starts with no white space. *)
Lemma strip_head_not_space (t : str) (c : char) (r : str) :
  strip t = c :: r -> isspace c = false.
Proof.
  unfold strip. intros H.
  destruct (rstrip_prefix (lstrip t)) as [ws Hws]. rewrite H in Hws.
  simpl in Hws. apply (@lstrip_head t c _ Hws).
Qed.

(** The decoder refuses a text that starts with no value. *)
Lemma scan_once_needs_start (fuel depth : nat) (c : char) (r : str) :
  json_start c = false -> scan_once fuel depth (c :: r) = None.
Proof.
  intros H. unfold json_start in H.
  apply orb_false_iff in H as [H Hdigit].
  apply orb_false_iff in H as [H Hminus].
  apply orb_false_iff in H as [H HI].
  apply orb_false_iff in H as [H HN].
  apply orb_false_iff in H as [H Hf].
  apply orb_false_iff in H as [H Ht].
  apply orb_false_iff in H as [H Hn].
  apply orb_false_iff in H as [H Hbracket].
  apply orb_false_iff in H as [Hquote Hbrace].
  destruct fuel; [reflexivity|]. cbn [scan_once].
  rewrite Hquote, Hbrace, Hbracket.
  assert (Hkw : forall kw0 kw, (c =? kw0)%N = false ->
                  startswith (c :: r) (kw0 :: kw) = false).
  { intros kw0 kw E. simpl. rewrite E. reflexivity. }
  change (lit "null") with (110 :: lit "ull")%N.
  change (lit "true") with (116 :: lit "rue")%N.
  change (lit "false") with (102 :: lit "alse")%N.
  change (lit "NaN") with (78 :: lit "aN")%N.
  change (lit "Infinity") with (73 :: lit "nfinity")%N.
  change (lit "-Infinity") with (45 :: lit "Infinity")%N.
  rewrite !Hkw by assumption.
  assert (Hnum : scan_number (c :: r) = None).
  { unfold scan_number. rewrite Hminus. unfold scan_int_part.
    destruct (N.eqb_spec c 48) as [->|_]; [discriminate|].
    rewrite Hdigit. reflexivity. }
  rewrite Hnum. reflexivity.
Qed.

(** X16.  A reply that, once trimmed, starts with anything but a JSON
    value or a backtick (prose before the JSON, for one) is refused: the
    text goes to the decoder as it is, and both stages, which share this
    code, return [{success: False}] with the decoder's error. *)
Theorem prose_before_the_json_fails
        {R : PyRuntime} (claude : provider) (req : request) (w : world)
        (t : str) (c : char) (r : str) (more : list content_block) :
  strip t = c :: r ->
  json_start c = false ->
  c <> backtick ->
  claude (length (provider_calls w)) req = Ret (TextBlock t :: more) ->
  response_text t = strip t
  /\ parse_response t = Raise (JSONDecodeError (strip t))
  /\ fst (ask claude req w)
     = Ret (Failure (exn_str (JSONDecodeError (strip t)))).
Proof.
  intros Hstrip Hstart Hc Hreply.
  assert (Htext : response_text t = strip t).
  { unfold response_text. rewrite Hstrip, lit_open, lit_close.
    simpl. destruct (N.eqb_spec c backtick); [contradiction|reflexivity]. }
  assert (Hparse : parse_response t = Raise (JSONDecodeError (strip t))).
  { unfold parse_response. rewrite Htext, Hstrip.
    unfold json_loads.
    assert (Hws : skip_ws (c :: r) = c :: r).
    { simpl. destruct (is_ws c) eqn:E; [|reflexivity].
      apply ws_is_space in E.
      rewrite (@strip_head_not_space t c r Hstrip) in E. discriminate. }
    rewrite Hws, (@scan_once_needs_start _ _ c r Hstart). reflexivity. }
  repeat split; try assumption.
  rewrite ask_spec. unfold reply. rewrite Hreply. simpl.
  rewrite Hparse. reflexivity.
Qed.

Lemma prose_before_the_json_fails_witness :
  response_text chatty_reply = strip chatty_reply
  /\ parse_response chatty_reply = Raise (JSONDecodeError (strip chatty_reply))
  /\ fst (ask (scripted chatty_reply chatty_reply)
              (fit_request (click "Acme SaaS")) initial_world)
     = Ret (Failure (exn_str (JSONDecodeError (strip chatty_reply)))).
Proof.
  refine (@prose_before_the_json_fails ascii_runtime
            (scripted chatty_reply chatty_reply)
            (fit_request (click "Acme SaaS")) initial_world chatty_reply
            72%N (lit "ere is the analysis: {}") [] _ _ _ _).
  - vm_compute; reflexivity.
  - reflexivity.
  - discriminate.
  - reflexivity.
Defined.

(* ================================================================== *)
(** ** Further properties: file names, criteria and widget keys *)
(* ================================================================== *)

(** Replacing one character by another is a map. *)
Lemma replace_char (s : str) (a b : char) :
  replace s [a] [b] = map (fun c => if (c =? a)%N then b else c) s.
Proof.
  unfold replace. induction s as [|c s IH]; [reflexivity|].
  cbn [replace_scan startswith length pred map]. rewrite andb_true_r.
  destruct (c =? a)%N; simpl; rewrite IH; reflexivity.
Qed.

(** X17.  The name of the downloaded file is [Lead_Analysis_], the
    company name with every space turned into an underscore and nothing
    else changed, an underscore, the date and [.pdf]; the part that comes
    from the company name is as long as the name and has no space. *)
Theorem file_name_has_underscores_for_spaces (company date : str) :
  pdf_file_name company date
  = lit "Lead_Analysis_"
    ++ map (fun c => if (c =? 32)%N then 95%N else c) company
    ++ lit "_" ++ date ++ lit ".pdf"
  /\ length (replace company space (lit "_")) = length company
  /\ ~ In 32%N (replace company space (lit "_")).
Proof.
  assert (E : replace company space (lit "_")
              = map (fun c => if (c =? 32)%N then 95%N else c) company).
  { apply (replace_char company 32%N 95%N). }
  unfold pdf_file_name. rewrite E. split; [reflexivity|].
  split; [apply length_map|].
  intros Hin. apply in_map_iff in Hin as (c & Hc & _).
  destruct (N.eqb_spec c 32); [discriminate|congruence].
Qed.








Lemma str_of_Z_injective (a b : Z) : str_of_Z a = str_of_Z b -> a = b.
Proof.
  unfold str_of_Z. intros H.
  assert (Hmap : forall x y : list ascii,
             map N_of_ascii x = map N_of_ascii y -> x = y).
  { induction x as [|u x IH]; intros [|v y]; simpl; try discriminate;
      [reflexivity|].
    intros [= Huv Hxy]. f_equal; [|apply IH, Hxy].
    rewrite <- (ascii_N_embedding u), <- (ascii_N_embedding v), Huv.
    reflexivity. }
  apply Hmap in H.
  apply (f_equal string_of_list_ascii) in H.
  rewrite !string_of_list_ascii_of_string in H.
  assert (Hnil : forall z, Z.to_int z <> Decimal.Pos Decimal.Nil
                           /\ Z.to_int z <> Decimal.Neg Decimal.Nil).
  { intros z. split; intros Hz; pose proof Hz as Hz';
      apply (f_equal Z.of_int) in Hz; rewrite DecimalZ.of_to in Hz;
      simpl in Hz; subst z; discriminate Hz'. }
  apply (f_equal NilZero.int_of_string) in H.
  destruct (Hnil a) as [Ha1 Ha2]. destruct (Hnil b) as [Hb1 Hb2].
  rewrite !NilZero.isi in H by assumption.
  injection H as H. apply DecimalZ.to_int_inj, H.
Qed.

Lemma str_of_nat_injective (a b : nat) : str_of_nat a = str_of_nat b -> a = b.
Proof.
  unfold str_of_nat. intros H. apply str_of_Z_injective in H. lia.
Qed.

Section Keys.
Context {R : PyRuntime}.

Lemma analysis_entry_keys (inp : inputs) (idx : nat) (r : analysis_record) :
  flat_map widget_keys (analysis_entry inp idx r) = []
  \/ flat_map widget_keys (analysis_entry inp idx r)
     = [lit "pdf_export_" ++ str_of_nat idx].
Proof.
  unfold analysis_entry, export_widget. rewrite !flat_map_app.
  destruct (pain_data r); destruct (generate_pdf_report _ _ _ _);
    [right|left|right|left]; reflexivity.
Qed.

Lemma history_keys (inp : inputs) (n : nat) (l : list analysis_record) :
  NoDup (flat_map widget_keys
           (flat_map (fun ia => analysis_entry inp (fst ia) (snd ia))
                     (enumerate n l)))
  /\ forall k,
      In k (flat_map widget_keys
              (flat_map (fun ia => analysis_entry inp (fst ia) (snd ia))
                        (enumerate n l))) ->
      exists j, n <= j /\ k = lit "pdf_export_" ++ str_of_nat j.
Proof.
  revert n; induction l as [|r l IH]; intros n.
  - split; [constructor | intros k []].
  - cbn [enumerate flat_map fst snd]. rewrite flat_map_app.
    destruct (IH (S n)) as [Hnd Hge].
    destruct (analysis_entry_keys inp n r) as [E|E]; rewrite E; simpl.
    + split; [exact Hnd|].
      intros k Hk. destruct (Hge k Hk) as (j & Hj & ->).
      exists j; split; [lia|reflexivity].
    + split.
      * constructor; [|exact Hnd].
        intros Hin. destruct (Hge _ Hin) as (j & Hj & Hk).
        pose proof (app_inv_head (lit "pdf_export_") (str_of_nat n)
                                 (str_of_nat j) Hk) as Hnj.
        apply str_of_nat_injective in Hnj. lia.
      * intros k [<-|Hk]; [exists n; split; [lia|reflexivity]|].
        destruct (Hge k Hk) as (j & Hj & ->).
        exists j; split; [lia|reflexivity].
Qed.

End Keys.

(** X19.  The download buttons of the history tab carry keys that are
    pairwise distinct, whatever the history and whichever reports fail:
    the key of an entry is [pdf_export_] followed by its position. *)
Theorem history_download_keys_are_distinct
        {R : PyRuntime} (inp : inputs) (history : list analysis_record) :
  NoDup (flat_map widget_keys (history_page inp history)).
Proof.
  unfold history_page. cbn [flat_map widget_keys app].
  destruct history as [|r h]; [constructor|].
  apply history_keys.
Qed.

(* ================================================================== *)
(** ** Further properties: a pain analysis without its pain points *)
(* ================================================================== *)




